(** * Climate and dengue report (app.py): fetch, reshape, aggregate, join

    A shallow embedding of the data pipeline of [app.py]: the NASA POWER
    fetcher, the wide-to-long reshaping of the literal dengue table, the
    monthly aggregation, the left join on (Year, Month) and the script that
    strings them together.  pandas tables are row-major frames with named,
    typed columns; DataFrame objects live in a store addressed by location,
    so that in-place column assignment is visible through every alias. *)

From Stdlib Require Import ZArith QArith List String Ascii Lia Sorted Permutation.
From stdpp Require Import gmap strings list fin_maps pretty.

Local Open Scope string_scope.
Local Open Scope list_scope.
Local Open Scope Z_scope.

(** ** External collaborators *)

(** float64 arithmetic as pandas uses it: conversion from integers, addition,
    division and the two comparisons.  Nothing is assumed about rounding. *)
Class Numeric (V : Type) := {
  of_Z : Z -> V;
  vadd : V -> V -> V;
  vdiv : V -> V -> V;
  vleb : V -> V -> bool;
  veqb : V -> V -> bool }.

(** The only law any result below relies on (and only where stated): the
    mean of a single value, (0 + x) / 1, is that value. *)
Class MeanOfOne (V : Type) {num : Numeric V} :=
  mean_of_one : forall x : V, vdiv (vadd (of_Z 0) x) (of_Z 1) = x.

(** A datetime64 instant: its calendar date and the nanoseconds elapsed
    since midnight. *)
Record Timestamp := { ts_year : Z; ts_month : Z; ts_day : Z; ts_nanos : Z }.

(** [pd.to_datetime] on one string: [None] when the parser rejects it. *)
Class DateParser := parse_date : string -> option Timestamp.

(** The mean of the instants of a group, as pandas computes it (in float64
    on the nanosecond counts).  Nothing is assumed about its rounding. *)
Class InstantMean := mean_timestamp : list Timestamp -> Timestamp.

(** Python exceptions that the modelled statements can raise.  Exceptions
    of the libraries carry the message the library gave them. *)
Inductive exn :=
| Exception (msg : string)
| ConnectionError (msg : string)
| JSONDecodeError (msg : string)
| TypeError (msg : string)
| AttributeError (msg : string)
| KeyError (key : string)
| ValueError (msg : string)
| ParserError (s : string)
| NameError (name : string).

Inductive result (A : Type) :=
| Ok (a : A)
| Raise (e : exn).
Arguments Ok {A} a.
Arguments Raise {A} e.

Class Monad (m : Type -> Type) := {
  ret : forall {A}, A -> m A;
  bind : forall {A B}, m A -> (A -> m B) -> m B }.

Notation "'do' x <- c 'in' k" := (bind c (fun x => k))
  (at level 10, x name, c at level 100, k at level 200).
Notation "'exec' c 'in' k" := (bind c (fun _ => k))
  (at level 10, c at level 100, k at level 200).

#[global] Instance result_monad : Monad result := {
  ret := fun A a => Ok a;
  bind := fun A B c k => match c with Ok a => k a | Raise e => Raise e end }.

Fixpoint mapM {A B} (f : A -> result B) (l : list A) : result (list B) :=
  match l with
  | [] => Ok []
  | x :: l' => do y <- f x in do ys <- mapM f l' in ret (y :: ys)
  end.

Definition quoted (s : string) : string := "'" +:+ s +:+ "'".

Definition double_quote : ascii := "034"%char.

Fixpoint has_char (a : ascii) (s : string) : bool :=
  match s with
  | EmptyString => false
  | String b s' => Ascii.eqb a b || has_char a s'
  end.

(** Backslash escapes of [repr] inside the quote character [q]. *)
Fixpoint py_escape (q : ascii) (s : string) : string :=
  match s with
  | EmptyString => EmptyString
  | String a s' =>
      let rest := py_escape q s' in
      if Ascii.eqb a "\"%char then String "\" (String "\" rest)
      else if Ascii.eqb a q then String "\" (String a rest)
      else if Ascii.eqb a "010"%char then String "\" (String "n" rest)
      else if Ascii.eqb a "013"%char then String "\" (String "r" rest)
      else if Ascii.eqb a "009"%char then String "\" (String "t" rest)
      else String a rest
  end.

(** [repr(s)] of a string of printable characters: single quotes, unless
    the string holds a single quote and no double quote. *)
Definition py_repr (s : string) : string :=
  if has_char "'"%char s && negb (has_char double_quote s)
  then String double_quote (py_escape double_quote s +:+ String double_quote EmptyString)
  else "'" +:+ py_escape "'"%char s +:+ "'".

(** [str(list)] of a list of strings. *)
Definition py_list_repr (l : list string) : string :=
  "[" +:+ String.concat ", " (map py_repr l) +:+ "]".

(** [str(e)] as the handler's f-string renders it. *)
Definition exn_str (e : exn) : string :=
  match e with
  | Exception msg => msg
  | ConnectionError msg => msg
  | JSONDecodeError msg => msg
  | TypeError msg => msg
  | AttributeError msg => msg
  | KeyError k => py_repr k
  | ValueError msg => msg
  | ParserError s => "Unknown datetime string format, unable to parse: " +:+ s
  | NameError n => "name " +:+ quoted n +:+ " is not defined"
  end.

Section Model.
Context {V : Type} {num : Numeric V} {dp : DateParser} {instants : InstantMean}.

(** ** Tables *)

(** One cell of a pandas column.  [NA] is NaN / NaT / None; [Obj] is any
    other Python object (a nested list or dict, a bool). *)
Inductive cell :=
| Str (s : string)
| Ts (t : Timestamp)
| Int (z : Z)
| Num (v : V)
| NA
| Obj.

Inductive dtype := DObject | DDatetime | DNumeric.

Abbreviation row := (list cell) (only parsing).

Record DataFrame := {
  columns : list (string * dtype);
  rows : list row }.

Definition is_numeric (d : dtype) : bool :=
  match d with DNumeric => true | _ => false end.

Definition numeric_cell (c : cell) : bool :=
  match c with Int _ | Num _ | NA => true | _ => false end.

Definition datetime_cell (c : cell) : bool :=
  match c with Ts _ | NA => true | _ => false end.

(** dtype inference of the DataFrame constructor. *)
Definition infer_dtype (cs : list cell) : dtype :=
  if forallb numeric_cell cs then DNumeric
  else if forallb datetime_cell cs then DDatetime
  else DObject.

Fixpoint index_of (name : string) (names : list string) : option nat :=
  match names with
  | [] => None
  | c :: cs => if String.eqb c name then Some 0%nat
               else option_map S (index_of name cs)
  end.

Definition col_names (df : DataFrame) : list string := map fst (columns df).

Definition col_index (name : string) (df : DataFrame) : result nat :=
  match index_of name (col_names df) with
  | Some i => Ok i
  | None => Raise (KeyError name)
  end.

Definition has_column (name : string) (df : DataFrame) : bool :=
  match index_of name (col_names df) with Some _ => true | None => false end.

Definition cell_at (i : nat) (r : row) : cell := nth i r NA.

Definition pick (idx : list nat) (r : row) : list cell :=
  map (fun i => cell_at i r) idx.

(** [df[name]]: the dtype and the cells of a column. *)
Definition get_col (name : string) (df : DataFrame) : result (dtype * list cell) :=
  do i <- col_index name df in
  ret (nth i (map snd (columns df)) DObject, map (cell_at i) (rows df)).

(** [df[name] = cells]: replaces the column when the name exists, appends it
    at the right otherwise; a length mismatch is pandas' ValueError. *)
Definition set_col (name : string) (d : dtype) (cs : list cell) (df : DataFrame)
  : result DataFrame :=
  if negb (Nat.eqb (length cs) (length (rows df))) then
    Raise (ValueError "Length of values does not match length of index")
  else
    match index_of name (col_names df) with
    | Some i => Ok {| columns := <[i := (name, d)]> (columns df);
                      rows := zip_with (fun r c => <[i := c]> r) (rows df) cs |}
    | None => Ok {| columns := columns df ++ [(name, d)];
                    rows := zip_with (fun r c => r ++ [c]) (rows df) cs |}
    end.

(** ** pandas operations used by the program *)

Definition enumerate {A} (l : list A) : list (nat * A) :=
  combine (seq 0 (length l)) l.

Definition mem (c : string) (l : list string) : bool := existsb (String.eqb c) l.

(** [pd.DataFrame(d)] for a dict of integer lists: one column per key, in
    the dict's order. *)
Definition DataFrame_of_dict (d : list (string * list Z)) : result DataFrame :=
  let n := match d with [] => 0%nat | (_, c) :: _ => length c end in
  if forallb (fun p => Nat.eqb (length (snd p)) n) d then
    Ok {| columns := map (fun p => (fst p, DNumeric)) d;
          rows := map (fun i => map (fun p => Int (nth i (snd p) 0)) d) (seq 0 n) |}
  else Raise (ValueError "All arrays must be of the same length").

(** [pd.melt(df, id_vars, var_name, value_name)] with no [value_vars]: every
    column that is not an id column is unpivoted, column after column. *)
Definition melt (df : DataFrame) (id_vars : list string) (var_name value_name : string)
  : result DataFrame :=
  do ids <- mapM (fun c => col_index c df) id_vars in
  let value_cols :=
    List.filter (fun p => negb (mem (fst (snd p)) id_vars)) (enumerate (columns df)) in
  ret {| columns :=
           map (fun i => nth i (columns df) (EmptyString, DObject)) ids ++
           [(var_name, DObject);
            (value_name,
             if forallb (fun p => is_numeric (snd (snd p))) value_cols
             then DNumeric else DObject)];
         rows :=
           flat_map (fun p =>
             map (fun r => pick ids r ++ [Str (fst (snd p)); cell_at (fst p) r]) (rows df))
             value_cols |}.

(** [Series.map(dict)]: a label that is not a key of the dict becomes NaN. *)
Definition map_dict (m : gmap string Z) (c : cell) : cell :=
  match c with
  | Str s => match m !! s with Some z => Int z | None => NA end
  | _ => NA
  end.

(** [pd.to_datetime] on one cell.  Date cells of this program are strings
    (keys of a JSON object), timestamps already parsed, or missing; numbers,
    which pandas reads as offsets from the epoch, and other objects are
    refused here. *)
Definition to_datetime_cell (c : cell) : result cell :=
  match c with
  | Str s => match parse_date s with
             | Some t => Ok (Ts t)
             | None => Raise (ParserError s)
             end
  | Ts t => Ok (Ts t)
  | NA => Ok NA
  | _ => Raise (TypeError "not convertible to datetime")
  end.

Definition to_datetime (cs : list cell) : result (list cell) := mapM to_datetime_cell cs.

(** [.dt.year] and [.dt.month] of a datetime column; NaT gives NaN. *)
Definition dt_year (cs : list cell) : list cell :=
  map (fun c => match c with Ts t => Int (ts_year t) | _ => NA end) cs.

Definition dt_month (cs : list cell) : list cell :=
  map (fun c => match c with Ts t => Int (ts_month t) | _ => NA end) cs.

(** *** groupby *)

(** Group keys are tuples of integers: every grouping of the script is by
    Year, by Month or by both, on tables where these columns hold the
    integers of [.dt.year] and [.dt.month].  A row with a null key cell
    belongs to no group (dropna=True).  Keys of other types (the month names
    that [add_year_month_column] writes on a table without a Month column)
    are not modelled; the results on groupings say which keys they cover. *)
Fixpoint row_key (idx : list nat) (r : row) : option (list Z) :=
  match idx with
  | [] => Some []
  | i :: idx' =>
      match cell_at i r, row_key idx' r with
      | Int z, Some k => Some (z :: k)
      | _, _ => None
      end
  end.

Fixpoint key_compare (a b : list Z) : comparison :=
  match a, b with
  | [], [] => Eq
  | [], _ :: _ => Lt
  | _ :: _, [] => Gt
  | x :: a', y :: b' =>
      match x ?= y with
      | Eq => key_compare a' b'
      | c => c
      end
  end.

(** Groups are kept in ascending key order (sort=True); the rows of a group
    stay in table order. *)
Fixpoint add_to_group (k : list Z) (r : row) (gs : list (list Z * list row))
  : list (list Z * list row) :=
  match gs with
  | [] => [(k, [r])]
  | (k', rs) :: gs' =>
      match key_compare k k' with
      | Lt => (k, [r]) :: gs
      | Eq => (k', rs ++ [r]) :: gs'
      | Gt => (k', rs) :: add_to_group k r gs'
      end
  end.

Definition group_step (idx : list nat) (gs : list (list Z * list row)) (r : row) :=
  match row_key idx r with
  | Some k => add_to_group k r gs
  | None => gs
  end.

Definition group_rows (idx : list nat) (rs : list row) : list (list Z * list row) :=
  fold_left (group_step idx) rs [].

Inductive aggfun := Mean | Sum.

Definition num_val (c : cell) : option V :=
  match c with
  | Int z => Some (of_Z z)
  | Num v => Some v
  | _ => None
  end.

Definition total (vs : list V) : V := fold_left vadd vs (of_Z 0).

Definition timestamps (cs : list cell) : list Timestamp :=
  omap (fun c => match c with Ts t => Some t | _ => None end) cs.

(** Missing values are skipped; the mean of no value is NaN, the sum of no
    value is 0.  Numeric results are float64 numbers; the mean of the cells
    of a datetime column is the mean instant. *)
Definition aggregate (f : aggfun) (cs : list cell) : cell :=
  let vs := omap num_val cs in
  match f with
  | Mean => match vs with
            | [] => match timestamps cs with
                    | [] => NA
                    | ts => Ts (mean_timestamp ts)
                    end
            | _ => Num (vdiv (total vs) (of_Z (Z.of_nat (length vs))))
            end
  | Sum => Num (total vs)
  end.

(** A mean keeps the dtype of its column, a sum is a number. *)
Definition agg_dtype (f : aggfun) (d : dtype) : dtype :=
  match f with Mean => d | Sum => DNumeric end.

(** [df.groupby(by).agg(spec).reset_index()]. *)
Definition groupby_agg (keys : list string) (spec : list (string * aggfun)) (df : DataFrame)
  : result DataFrame :=
  do kidx <- mapM (fun c => col_index c df) keys in
  do vidx <- mapM (fun p => col_index (fst p) df) spec in
  ret {| columns := map (fun c => (c, DNumeric)) keys ++
                    map (fun p => (fst (snd p),
                                   agg_dtype (snd (snd p))
                                             (nth (fst p) (map snd (columns df)) DObject)))
                        (combine vidx spec);
         rows := map (fun g =>
                   map Int (fst g) ++
                   map (fun p => aggregate (snd p) (map (cell_at (fst p)) (snd g)))
                       (combine vidx (map snd spec)))
                   (group_rows kidx (rows df)) |}.

Definition is_text (d : dtype) : bool :=
  match d with DObject => true | _ => false end.

(** [df.groupby(by).mean().reset_index()] with numeric_only=False, the
    default since pandas 2.0: every column that is not a key is averaged,
    the datetime columns too. *)
Definition mean_spec (keys : list string) (df : DataFrame) : list (string * aggfun) :=
  map (fun p => (fst p, Mean))
      (List.filter (fun p => negb (mem (fst p) keys)) (columns df)).

(** No group holds, in an object column that is not a key, a cell that is
    not a number: the mean of such a group is a TypeError. *)
Definition text_free (kidx : list nat) (keys : list string) (df : DataFrame) : bool :=
  forallb (fun r =>
             match row_key kidx r with
             | None => true
             | Some _ =>
                 forallb (fun p => negb (is_text (snd (snd p))) || mem (fst (snd p)) keys
                                   || numeric_cell (cell_at (fst p) r))
                         (enumerate (columns df))
             end) (rows df).

Definition mean_error : exn :=
  TypeError "agg function failed [how->mean,dtype->object]".

Definition groupby_mean (keys : list string) (df : DataFrame) : result DataFrame :=
  do kidx <- mapM (fun c => col_index c df) keys in
  if text_free kidx keys df then groupby_agg keys (mean_spec keys df) df
  else Raise mean_error.

(** *** merge, boolean-mask filter, concat *)

Definition timestamp_eqb (a b : Timestamp) : bool :=
  (ts_year a =? ts_year b) && (ts_month a =? ts_month b) && (ts_day a =? ts_day b)
  && (ts_nanos a =? ts_nanos b).

(** Equality of join keys; pandas matches a null key with a null key. *)
Definition cell_eqb (a b : cell) : bool :=
  match a, b with
  | Str s, Str t => String.eqb s t
  | Ts s, Ts t => timestamp_eqb s t
  | Int x, Int y => x =? y
  | Int x, Num v => veqb (of_Z x) v
  | Num v, Int x => veqb v (of_Z x)
  | Num u, Num v => veqb u v
  | NA, NA => true
  | _, _ => false
  end.

Fixpoint keys_eqb (a b : list cell) : bool :=
  match a, b with
  | [], [] => true
  | x :: a', y :: b' => cell_eqb x y && keys_eqb a' b'
  | _, _ => false
  end.

(** [pd.merge(lhs, rhs, on=on, how="left")]: rows of [lhs] in order; each
    is paired with every row of [rhs] that has the same key, or padded with
    nulls when there is none.  Overlapping non-key names get suffixes. *)
Definition merge_left (lhs rhs : DataFrame) (on : list string) : result DataFrame :=
  do lidx <- mapM (fun c => col_index c lhs) on in
  do ridx <- mapM (fun c => col_index c rhs) on in
  let rrest := List.filter (fun p => negb (mem (fst (snd p)) on)) (enumerate (columns rhs)) in
  let lnames := List.filter (fun c => negb (mem c on)) (col_names lhs) in
  let rnames := map (fun p => fst (snd p)) rrest in
  let suffix (sfx : string) (other : list string) (p : string * dtype) :=
    if negb (mem (fst p) on) && mem (fst p) other then (fst p +:+ sfx, snd p) else p in
  ret {| columns := map (suffix "_x" rnames) (columns lhs) ++
                    map (fun p => suffix "_y" lnames (snd p)) rrest;
         rows := flat_map (fun l =>
                   match List.filter (fun r => keys_eqb (pick lidx l) (pick ridx r)) (rows rhs) with
                   | [] => [l ++ map (fun _ => NA) rrest]
                   | ms => map (fun r => l ++ pick (map fst rrest) r) ms
                   end) (rows lhs) |}.

(** [c >= bound] on one cell; a comparison with NaN is False. *)
Definition cell_geb (c : cell) (bound : Z) : bool :=
  match c with
  | Int z => bound <=? z
  | Num v => vleb (of_Z bound) v
  | _ => false
  end.

(** [df[df[name] >= bound]]: a new table with the rows that pass. *)
Definition filter_ge (name : string) (bound : Z) (df : DataFrame) : result DataFrame :=
  do i <- col_index name df in
  ret {| columns := columns df;
         rows := List.filter (fun r => cell_geb (cell_at i r) bound) (rows df) |}.

(** [pd.concat(dfs, axis=1)]: tables side by side, aligned on the row
    number; a shorter table is padded with nulls. *)
Definition concat_columns (dfs : list DataFrame) : result DataFrame :=
  match dfs with
  | [] => Raise (ValueError "No objects to concatenate")
  | _ =>
      let n := fold_right Nat.max 0%nat (map (fun d => length (rows d)) dfs) in
      Ok {| columns := flat_map columns dfs;
            rows := map (fun i =>
                      flat_map (fun d => match rows d !! i with
                                         | Some r => r
                                         | None => map (fun _ => NA) (columns d)
                                         end) dfs) (seq 0 n) |}
  end.

(** [df.loc[:, ~df.columns.duplicated()]]: the first column of every name. *)
Definition drop_duplicated_columns (df : DataFrame) : DataFrame :=
  let keep := map fst (List.filter (fun p => match index_of (fst (snd p)) (col_names df) with
                                             | Some j => Nat.eqb j (fst p)
                                             | None => false
                                             end) (enumerate (columns df))) in
  {| columns := map (fun i => nth i (columns df) (EmptyString, DObject)) keep;
     rows := map (pick keep) (rows df) |}.

(** The distinct elements, in order of first occurrence. *)
Fixpoint unique (l : list string) : list string :=
  match l with
  | [] => []
  | x :: l' => x :: List.filter (fun y => negb (String.eqb x y)) (unique l')
  end.

(** [df[[c1, ..., cn]]]: the KeyError names the missing columns, or the
    whole selection when none of its columns exists. *)
Definition select_columns (names : list string) (df : DataFrame) : result DataFrame :=
  match List.filter (fun c => negb (has_column c df)) names with
  | [] =>
      do idx <- mapM (fun c => col_index c df) names in
      ret {| columns := map (fun i => nth i (columns df) (EmptyString, DObject)) idx;
             rows := map (pick idx) (rows df) |}
  | missing =>
      if Nat.eqb (length missing) (length names) then
        Raise (KeyError ("None of [Index(" +:+ py_list_repr names
                         +:+ ", dtype='object')] are in the [columns]"))
      else Raise (KeyError (py_list_repr (unique missing) +:+ " not in index"))
  end.

(** ** The literal dengue table and its reshaping (lines 68-94) *)

Definition dengue_data : list (string * list Z) :=
  [ ("Year", [2013; 2014; 2015; 2016; 2017; 2018; 2019; 2020; 2021; 2022; 2023]);
    ("Jan", [0; 0; 0; 0; 1; 1; 0; 0; 0; 0; 0]);
    ("Feb", [0; 0; 0; 0; 0; 0; 0; 0; 0; 0; 0]);
    ("Mar", [0; 0; 1; 2; 0; 0; 0; 0; 1; 2; 1]);
    ("Apr", [0; 0; 0; 5; 0; 2; 0; 0; 0; 0; 1]);
    ("May", [0; 0; 2; 13; 0; 2; 1; 0; 0; 0; 3]);
    ("Jun", [0; 0; 2; 7; 0; 1; 2; 0; 0; 5; 9]);
    ("Jul", [1; 2; 0; 7; 0; 14; 27; 1; 2; 9; 25]);
    ("Aug", [1; 2; 55; 22; 6; 9; 684; 4; 12; 420; 148]);
    ("Sep", [36; 51; 813; 412; 135; 98; 4686; 16; 420; 1912; 1044]);
    ("Oct", [396; 907; 2317; 2053; 386; 444; 5581; 13; 2126; 2106; 1112]);
    ("Nov", [408; 479; 603; 770; 122; 142; 961; 0; 948; 565; 361]);
    ("Dec", [19; 15; 124; 16; 1; 4; 0; 4; 17; 20; 34]);
    ("Total", [861; 1456; 3917; 3307; 651; 717; 11942; 38; 3526; 5039; 2738]) ].

Definition month_mapping : gmap string Z :=
  list_to_map
    [ ("Jan", 1); ("Feb", 2); ("Mar", 3); ("Apr", 4); ("May", 5); ("Jun", 6);
      ("Jul", 7); ("Aug", 8); ("Sep", 9); ("Oct", 10); ("Nov", 11); ("Dec", 12) ].

(** The table after [pd.melt], month labels still strings. *)
Definition dengue_melted : result DataFrame :=
  do wide <- DataFrame_of_dict dengue_data in
  melt wide ["Year"] "Month" "Dengue Cases".

(** [dengue_df] as the rest of the script sees it. *)
Definition dengue_df : result DataFrame :=
  do long <- dengue_melted in
  do month <- get_col "Month" long in
  set_col "Month" DNumeric (map (map_dict month_mapping) (snd month)) long.

(** ** The remote fetcher (lines 26-57) *)

(** A decoded JSON document. *)
#[warnings="-register-all"]
Inductive json :=
| JNull
| JBool (b : bool)
| JInt (z : Z)
| JFloat (v : V)
| JStr (s : string)
| JArr (items : list json)
| JObj (fields : list (string * json)).

Record Response := {
  status_code : Z;
  text : string;
  json_body : option json;  (* [response.json()]; [None] when the body is not JSON *)
  json_error : string       (* the decoder's message in that case *) }.

Record Query := {
  q_parameters : string;
  q_community : string;
  q_latitude : V;
  q_longitude : V;
  q_start : string;
  q_end : string;
  q_format : string }.

(** [requests.get(url, params=...)]: the remote service, one round trip. *)
Class Network := requests_get : string -> Query -> result Response.
Context {net : Network}.

Fixpoint assoc {A} (k : string) (l : list (string * A)) : option A :=
  match l with
  | [] => None
  | (k', v) :: l' => if String.eqb k' k then Some v else assoc k l'
  end.

(** [d[k] = v] on an insertion-ordered dict. *)
Fixpoint dict_set {A} (k : string) (v : A) (l : list (string * A)) : list (string * A) :=
  match l with
  | [] => [(k, v)]
  | (k', v') :: l' => if String.eqb k' k then (k', v) :: l' else (k', v') :: dict_set k v l'
  end.

Definition is_substring (k s : string) : bool :=
  match String.index 0 k s with Some _ => true | None => false end.

(** The name of the Python type of a decoded JSON value. *)
Definition py_type (j : json) : string :=
  match j with
  | JNull => "NoneType"
  | JBool _ => "bool"
  | JInt _ => "int"
  | JFloat _ => "float"
  | JStr _ => "str"
  | JArr _ => "list"
  | JObj _ => "dict"
  end.

(** Python's [k in j], [j[k]] and [j.items()] on a decoded JSON value, with
    the messages of CPython 3.11. *)
Definition py_in (k : string) (j : json) : result bool :=
  match j with
  | JObj fs => Ok (mem k (map fst fs))
  | JArr js => Ok (existsb (fun x => match x with JStr s => String.eqb s k | _ => false end) js)
  | JStr s => Ok (is_substring k s)
  | _ => Raise (TypeError ("argument of type " +:+ quoted (py_type j) +:+ " is not iterable"))
  end.

Definition py_getitem (j : json) (k : string) : result json :=
  match j with
  | JObj fs => match assoc k fs with Some v => Ok v | None => Raise (KeyError k) end
  | JArr _ => Raise (TypeError "list indices must be integers or slices, not str")
  | JStr _ => Raise (TypeError "string indices must be integers, not 'str'")
  | _ => Raise (TypeError (quoted (py_type j) +:+ " object is not subscriptable"))
  end.

Definition py_items (j : json) : result (list (string * json)) :=
  match j with
  | JObj fs => Ok fs
  | _ => Raise (AttributeError (quoted (py_type j) +:+ " object has no attribute 'items'"))
  end.

Definition cell_of_json (j : json) : cell :=
  match j with
  | JNull => NA
  | JInt z => Int z
  | JFloat v => Num v
  | JStr s => Str s
  | _ => Obj
  end.

(** [pd.DataFrame(d.items(), columns=[c1, c2])]. *)
Definition DataFrame_of_items (items : list (string * json)) (c1 c2 : string) : DataFrame :=
  {| columns := [(c1, DObject); (c2, infer_dtype (map (fun p => cell_of_json (snd p)) items))];
     rows := map (fun p => [Str (fst p); cell_of_json (snd p)]) items |}.

(** ** The store, the page and the script monad *)

Definition loc := nat.

(** What the Streamlit page receives, in order. *)
Inductive event :=
| StMarkdown (s : string)
| StTitle (s : string)
| StInfo (s : string)
| StWarning (s : string)
| StError (s : string)
| StSubheader (s : string)
| StWrite (s : string)
| StPlotly (title : string) (data : DataFrame)
| StPyplot (title : string) (data : option DataFrame)
| StTable (data : DataFrame).

Record World := {
  heap : list DataFrame;        (* DataFrame objects, by location *)
  globals : gmap string loc;    (* names the script binds to DataFrames *)
  ui : list event }.

Definition M (A : Type) : Type := World -> result A * World.

#[global] Instance M_monad : Monad M := {
  ret := fun A a w => (Ok a, w);
  bind := fun A B c k w =>
    match c w with
    | (Ok a, w') => k a w'
    | (Raise e, w') => (Raise e, w')
    end }.

Definition lift {A} (r : result A) : M A := fun w => (r, w).

Definition raise {A} (e : exn) : M A := fun w => (Raise e, w).

(** [try: body except Exception as e: handler(e)]; what the body did to the
    store and the page before it raised stays done. *)
Definition try_except {A} (body : M A) (handler : exn -> M A) : M A :=
  fun w => match body w with
           | (Raise e, w') => handler e w'
           | r => r
           end.

Definition st (e : event) : M unit :=
  fun w => (Ok tt, {| heap := heap w; globals := globals w; ui := ui w ++ [e] |}).

(** The plotting libraries (plotly express with statsmodels, seaborn):
    whether the figure of a call site, named here by its title, can be built
    from a table is theirs to decide.  Nothing is assumed about them. *)
Class Charts := draw : string -> DataFrame -> result unit.
Context {charts : Charts}.

(** [DataFrame.corr()] on a selection: whether its cells can be correlated
    is decided by pandas and numpy.  Nothing is assumed about it. *)
Class Correlation := corr : DataFrame -> result unit.
Context {correlation : Correlation}.

(** [fig = px...(data, ..., title=title); st.plotly_chart(fig)]. *)
Definition plotly_chart (title : string) (data : DataFrame) : M unit :=
  exec lift (draw title data) in
  st (StPlotly title data).

Definition alloc (df : DataFrame) : M loc :=
  fun w => (Ok (length (heap w)),
            {| heap := heap w ++ [df]; globals := globals w; ui := ui w |}).

Definition load (l : loc) : M DataFrame :=
  fun w => match heap w !! l with
           | Some df => (Ok df, w)
           | None => (Raise (ValueError "no object at this location"), w)
           end.

Definition store (l : loc) (df : DataFrame) : M unit :=
  fun w => (Ok tt, {| heap := <[l := df]> (heap w); globals := globals w; ui := ui w |}).

(** [x = <object at l>] and the evaluation of the name [x]. *)
Definition assign (x : string) (l : loc) : M unit :=
  fun w => (Ok tt, {| heap := heap w; globals := <[x := l]> (globals w); ui := ui w |}).

Definition name (x : string) : M loc :=
  fun w => match globals w !! x with
           | Some l => (Ok l, w)
           | None => (Raise (NameError x), w)
           end.

(** [obj[c]] and [obj[c] = cells] on the object at [l]: the assignment
    changes the object itself. *)
Definition getitem (l : loc) (c : string) : M (list cell) :=
  do df <- load l in
  do col <- lift (get_col c df) in
  ret (snd col).

Definition setitem (l : loc) (c : string) (d : dtype) (cs : list cell) : M unit :=
  do df <- load l in
  do df' <- lift (set_col c d cs df) in
  store l df'.

Definition BASE_URL : string := "https://power.larc.nasa.gov/api/temporal/daily/point".

Definition warning_text (param : string) : string :=
  "Parameter " +:+ quoted param +:+ " is not available for the given location and time range.".

Fixpoint fetch_loop (data : json) (parameters : list string) (result : list (string * DataFrame))
  : M (list (string * DataFrame)) :=
  match parameters with
  | [] => ret result
  | param :: rest =>
      do props <- lift (py_getitem data "properties") in
      do pm <- lift (py_getitem props "parameter") in
      do present <- lift (py_in param pm) in
      do result' <-
        (if (present : bool) then
           do series <- lift (py_getitem pm param) in
           do items <- lift (py_items series) in
           ret (dict_set param (DataFrame_of_items items "Date" param) result)
         else
           exec st (StWarning (warning_text param)) in
           ret result) in
      fetch_loop data rest result'
  end.

Definition fetch_error_text (r : Response) : string :=
  "Error fetching data: " +:+ pretty (status_code r) +:+ " - " +:+ text r.

(** The [params] dict of the request. *)
Definition make_query (lat lon : V) (start finish : string) (parameters : list string) : Query :=
  {| q_parameters := String.concat "," parameters;
     q_community := "AG";
     q_latitude := lat;
     q_longitude := lon;
     q_start := start;
     q_end := finish;
     q_format := "JSON" |}.

Definition fetch_nasa_data (lat lon : V) (start finish : string) (parameters : list string)
  : M (list (string * DataFrame)) :=
  let params := make_query lat lon start finish parameters in
  do response <- lift (requests_get BASE_URL params) in
  if negb (status_code response =? 200) then
    raise (Exception (fetch_error_text response))
  else
    do data <- lift (match json_body response with
                     | Some j => Ok j
                     | None => Raise (JSONDecodeError (json_error response))
                     end) in
    do has_properties <- lift (py_in "properties" data) in
    do shapeless <-
      (if (has_properties : bool) then
         do props <- lift (py_getitem data "properties") in
         do has_parameter <- lift (py_in "parameter" props) in
         ret (negb has_parameter)
       else ret true) in
    if (shapeless : bool) then
      raise (Exception "No climate data found for the given parameters.")
    else fetch_loop data parameters [].

(** ** Monthly aggregation (lines 60-65) *)

(** [data] is a reference: the three column assignments act on the
    caller's table; only [monthly_avg] is a new object. *)
Definition process_monthly_data (data : loc) : M loc :=
  do date <- getitem data "Date" in
  do parsed <- lift (to_datetime date) in
  exec setitem data "Date" DDatetime parsed in
  do date <- getitem data "Date" in
  exec setitem data "Year" DNumeric (dt_year date) in
  do date <- getitem data "Date" in
  exec setitem data "Month" DNumeric (dt_month date) in
  do df <- load data in
  do monthly_avg <- lift (groupby_mean ["Year"; "Month"] df) in
  alloc monthly_avg.

(** ** The script (lines 96-296) *)

Definition start_date : string := "20130101".
Definition end_date : string := "20231201".
Definition lat : V := vdiv (of_Z 336) (of_Z 10).
Definition lon : V := of_Z 73.
Definition parameters : list string := ["T2M"; "PRECTOTCORR"].

Definition yearly_spec : list (string * aggfun) :=
  [("T2M", Mean); ("PRECTOTCORR", Mean); ("Dengue Cases", Sum)].

(** The body of the [try] block (lines 111-172). *)
Definition pipeline (dengue : DataFrame) : M unit :=
  do climate_data <- fetch_nasa_data lat lon start_date end_date parameters in
  let all_data := map snd climate_data in
  do side_by_side <- lift (concat_columns all_data) in
  do combined_data <- alloc (drop_duplicated_columns side_by_side) in
  exec assign "combined_data" combined_data in
  do date <- getitem combined_data "Date" in
  do parsed <- lift (to_datetime date) in
  exec setitem combined_data "Date" DDatetime parsed in
  do monthly_data <- process_monthly_data combined_data in
  exec assign "monthly_data" monthly_data in
  do monthly <- load monthly_data in
  do joined <- lift (merge_left monthly dengue ["Year"; "Month"]) in
  do final_df <- alloc joined in
  exec assign "final_df" final_df in
  exec st (StSubheader "Monthly Trends of Temperature, Rainfall, and Dengue Cases") in
  do warm <- lift (filter_ge "T2M" (-5) monthly) in
  do monthly_data <- alloc warm in
  exec assign "monthly_data" monthly_data in
  do wet <- lift (filter_ge "PRECTOTCORR" 0 warm) in
  do monthly_data <- alloc wet in
  exec assign "monthly_data" monthly_data in
  do final <- load final_df in
  exec (if has_column "T2M" final
        then plotly_chart "Monthly Temperature Trends" final else ret tt) in
  exec (if has_column "PRECTOTCORR" final
        then plotly_chart "Monthly Rainfall Trends (mm)" final else ret tt) in
  exec plotly_chart "Monthly Dengue Cases" final in
  exec st (StSubheader "Yearly Overview") in
  do yearly <- lift (groupby_agg ["Year"] yearly_spec final) in
  do year_avg <- alloc yearly in
  exec assign "year_avg" year_avg in
  exec plotly_chart "Yearly Temperature and Rainfall Trends" yearly in
  exec plotly_chart "Yearly Dengue Cases" yearly in
  do wide <- lift (DataFrame_of_dict dengue_data) in
  do df <- alloc wide in
  exec assign "df" df in
  exec st (StTitle "Dengue Cases Over the Years") in
  st (StTable wide).

Definition display_correlation_with_year_month (df : loc) : M unit :=
  do table <- load df in
  do correlation_input <- lift (select_columns ["T2M"; "PRECTOTCORR"; "Dengue Cases"] table) in
  exec lift (corr correlation_input) in
  exec st (StSubheader "Scatter Plots with Trendlines (Year and Month Info)") in
  exec plotly_chart "Temperature vs Dengue Cases (Year and Month Info)" table in
  plotly_chart "Rainfall vs Dengue Cases (Year and Month Info)" table.

Definition month_names : list string :=
  ["January"; "February"; "March"; "April"; "May"; "June"; "July"; "August";
   "September"; "October"; "November"; "December"].

Definition to_datetime_coerce (cs : list cell) : list cell :=
  map (fun c => match to_datetime_cell c with Ok t => t | Raise _ => NA end) cs.

Definition dt_month_name (cs : list cell) : list cell :=
  map (fun c => match c with
                | Ts t => match month_names !! Z.to_nat (ts_month t - 1) with
                          | Some n => Str n
                          | None => NA
                          end
                | _ => NA
                end) cs.

Definition add_year_month_column (df : loc) : M loc :=
  do table <- load df in
  exec (if negb (has_column "Year" table) then
          do date <- getitem df "Date" in
          setitem df "Year" DNumeric (dt_year (to_datetime_coerce date))
        else ret tt) in
  do table <- load df in
  exec (if negb (has_column "Month" table) then
          do date <- getitem df "Date" in
          setitem df "Month" DObject (dt_month_name (to_datetime_coerce date))
        else ret tt) in
  ret df.

Definition advanced_visual_representation (df : loc) : M unit :=
  do df <- add_year_month_column df in
  do table <- load df in
  exec st (StSubheader "3D Scatter Plot: Temperature, Rainfall, Dengue Cases, and Month") in
  exec plotly_chart "3D Scatter Plot of Temperature, Rainfall, Dengue Cases, and Month" table in
  exec st (StSubheader "Pair Plot: Temperature, Rainfall, and Dengue Cases by Month") in
  do pair_plot_data <-
    lift (select_columns ["T2M"; "PRECTOTCORR"; "Dengue Cases"; "Year"; "Month"] table) in
  exec lift (draw "Pair Plot of Temperature, Rainfall, and Dengue Cases by Month"
                  pair_plot_data) in
  st (StPyplot "Pair Plot of Temperature, Rainfall, and Dengue Cases by Month"
               (Some pair_plot_data)).

Definition clear_heatmap_representation (df : loc) : M unit :=
  do df <- add_year_month_column df in
  do table <- load df in
  do df_monthly <- lift (groupby_agg ["Month"] yearly_spec table) in
  exec lift (draw "Heatmap - Temperature, Rainfall & Dengue Cases by Month" df_monthly) in
  exec st (StSubheader "Heatmap: Temperature, Rainfall, and Dengue Cases by Month") in
  st (StPlotly "Heatmap - Temperature, Rainfall & Dengue Cases by Month" df_monthly).

(** Lines 298-422: literal mosquito figures, references and footer. *)
Definition static_sections : M unit :=
  exec st (StTitle "Mosquito Population Growth and Trends in Rawalpindi") in
  exec st (StPyplot "Mosquito Population Distribution in Rawalpindi (2016 vs 2024)" None) in
  exec st (StWrite "### Dengue Larvae Sites in 2024") in
  exec st (StPyplot "Dengue Larvae Sites in Rawalpindi (2024)" None) in
  exec st (StMarkdown "### **References**") in
  st (StMarkdown "footer").

Definition script : M unit :=
  exec st (StMarkdown "hide_bar") in
  do dengue <- lift dengue_df in
  do dengue_loc <- alloc dengue in
  exec assign "dengue_df" dengue_loc in
  exec st (StTitle "Climate Impact on Dengue Cases and Mosquito Population Growth Trends in Rawalpindi, Pakistan") in
  exec st (StMarkdown "**Analyze the correlation between temperature, rainfall, and dengue cases over the past years (2013 - 2023).**") in
  exec st (StInfo "Fetching climate data from NASA POWER API...") in
  exec try_except (pipeline dengue)
         (fun e => st (StError ("Error fetching data: " +:+ exn_str e))) in
  do final_df <- name "final_df" in
  exec display_correlation_with_year_month final_df in
  do final_df <- name "final_df" in
  exec advanced_visual_representation final_df in
  do final_df <- name "final_df" in
  exec clear_heatmap_representation final_df in
  static_sections.

Definition empty_world : World := {| heap := []; globals := empty; ui := [] |}.

(** What the page holds when the [try] block is entered (lines 23-109). *)
Definition opening_page : list event :=
  [StMarkdown "hide_bar";
   StTitle "Climate Impact on Dengue Cases and Mosquito Population Growth Trends in Rawalpindi, Pakistan";
   StMarkdown "**Analyze the correlation between temperature, rainfall, and dengue cases over the past years (2013 - 2023).**";
   StInfo "Fetching climate data from NASA POWER API..."].


(** ** Vocabulary of the statements *)

(** Every row has one cell per column. *)
Definition wf_frame (df : DataFrame) : bool :=
  forallb (fun r => Nat.eqb (length r) (length (columns df))) (rows df).

(** The (year, month) of a parsed date; none for NaT. *)
Definition month_of (c : cell) : option (list Z) :=
  match c with
  | Ts t => Some [ts_year t; ts_month t]
  | _ => None
  end.

Definition in_group (idx : list nat) (k : list Z) (r : row) : bool :=
  match row_key idx r with
  | Some k' => match key_compare k k' with Eq => true | _ => false end
  | None => false
  end.

Definition key_lt (a b : list Z) : Prop := key_compare a b = Lt.

(** The rows collected under key [k]. *)
Fixpoint find_group (k : list Z) (gs : list (list Z * list row)) : option (list row) :=
  match gs with
  | [] => None
  | (k', g) :: gs' =>
      match key_compare k k' with
      | Eq => Some g
      | _ => find_group k gs'
      end
  end.

Definition nonempty {A} (l : list A) : option (list A) :=
  match l with [] => None | _ => Some l end.

Definition groups_sorted (gs : list (list Z * list row)) : Prop :=
  StronglySorted key_lt (map fst gs).

(** Position of a column, and the names after [df[n] = ...]. *)
Definition position (c : string) (df : DataFrame) : nat :=
  match index_of c (col_names df) with Some i => i | None => 0%nat end.

Definition with_column (n : string) (names : list string) : list string :=
  match index_of n names with Some _ => names | None => names ++ [n] end.

(** The names of the columns that [groupby(keys).mean()] averages. *)
Definition value_names (keys : list string) (df : DataFrame) : list string :=
  map fst (mean_spec keys df).

(** The dtype of the column of this name. *)
Definition dtype_of (c : string) (df : DataFrame) : dtype :=
  nth (position c df) (map snd (columns df)) DObject.

(** The cells of column [c] in the rows of [df] whose key is [k]. *)
Definition group_column (df : DataFrame) (keys : list string) (k : list Z) (c : string)
  : list cell :=
  map (cell_at (position c df))
      (List.filter (in_group (map (fun n => position n df) keys) k) (rows df)).

(** A number as float64, a missing value as NaN. *)
Definition as_float (c : cell) : cell :=
  match num_val c with
  | Some v => Num v
  | None => NA
  end.

(** The reshaped dengue table, once lines 86-94 have run. *)
Definition dengue_table : DataFrame :=
  match dengue_df with
  | Ok df => df
  | Raise _ => {| columns := []; rows := [] |}
  end.

(** The store when the [try] block is entered: the reshaped case table
    under its name. *)
Definition case_store : World :=
  {| heap := [dengue_table]; globals := {["dengue_df" := 0%nat]}; ui := [] |}.

Definition world_at_fetch : World :=
  {| heap := heap case_store; globals := globals case_store; ui := opening_page |}.

(** The records of a case table whose key is (y, m). *)
Definition records_for (cases : DataFrame) (y m : Z) : list row :=
  List.filter (fun r => keys_eqb [Int y; Int m] (pick [0%nat; 1%nat] r)) (rows cases).

Definition case_records_for (y m : Z) : list row := records_for dengue_table y m.

Definition case_columns : list (string * dtype) :=
  [("Year", DNumeric); ("Month", DNumeric); ("Dengue Cases", DNumeric)].

(** The key of a case record as plain integers (none for a null cell). *)
Definition int_code (c : cell) : option Z :=
  match c with Int z => Some z | _ => None end.

Definition record_key (r : row) : option Z * option Z :=
  (int_code (cell_at 0 r), int_code (cell_at 1 r)).

(** A case record: three cells, the key cells integers or null. *)
Definition case_record (r : row) : bool :=
  match r with
  | [Int _; Int _; _] | [Int _; NA; _] => true
  | _ => false
  end.

Definition null_month (r : row) : bool :=
  match cell_at 1 r with NA => true | _ => false end.

Definition without_null_months (df : DataFrame) : DataFrame :=
  {| columns := columns df; rows := List.filter (fun r => negb (null_month r)) (rows df) |}.

Definition is_error (e : event) : bool :=
  match e with StError _ => true | _ => false end.

(** The part of a well-shaped reply that holds the series, by code. *)
Definition reply_series (r : Response) : option (list (string * json)) :=
  match json_body r with
  | Some (JObj top) =>
      match assoc "properties" top with
      | Some (JObj props) =>
          match assoc "parameter" props with
          | Some (JObj series) => Some series
          | _ => None
          end
      | _ => None
      end
  | _ => None
  end.

Definition is_object (j : json) : bool :=
  match j with JObj _ => true | _ => false end.

(** The table built from the series of code [c], when the reply has one. *)
Definition series_frame (series : list (string * json)) (c : string) : option DataFrame :=
  match assoc c series with
  | Some (JObj items) => Some (DataFrame_of_items items "Date" c)
  | _ => None
  end.

Definition absent_codes (series : list (string * json)) (codes : list string) : list string :=
  List.filter (fun c => negb (mem c (map fst series))) codes.

(** The table handed to the first figure with this title. *)
Fixpoint figure_data (title : string) (page : list event) : option DataFrame :=
  match page with
  | [] => None
  | StPlotly t d :: rest => if String.eqb t title then Some d else figure_data title rest
  | StPyplot t (Some d) :: rest => if String.eqb t title then Some d else figure_data title rest
  | _ :: rest => figure_data title rest
  end.

(** The table a name is bound to. *)
Definition table_of (x : string) (w : World) : option DataFrame :=
  match globals w !! x with
  | Some l => heap w !! l
  | None => None
  end.

Definition int_of (c : cell) : Z :=
  match c with Int z => z | _ => 0 end.

Definition month_abbreviations : list string :=
  ["Jan"; "Feb"; "Mar"; "Apr"; "May"; "Jun"; "Jul"; "Aug"; "Sep"; "Oct"; "Nov"; "Dec"].

(** The integer in column [c] of row [r] of [df]. *)
Definition int_at (df : DataFrame) (c : string) (r : row) : Z :=
  match index_of c (col_names df) with
  | Some i => int_of (cell_at i r)
  | None => 0
  end.

Definition monthly_sum (df : DataFrame) (r : row) : Z :=
  fold_right Z.add 0 (map (fun c => int_at df c r) month_abbreviations).

(** Sum of the case counts of the records of year [y] that carry a month. *)
Definition cases_of_year (long : DataFrame) (y : Z) : Z :=
  fold_right Z.add 0
    (map (fun r => int_of (cell_at 2 r))
         (List.filter (fun r => (int_of (cell_at 0 r) =? y) && negb (null_month r)) (rows long))).

Definition labelled (s : string) (r : row) : bool :=
  match cell_at 1 r with Str l => String.eqb l s | _ => false end.


Fixpoint distinct (l : list string) : bool :=
  match l with
  | [] => true
  | x :: l' => negb (mem x l') && distinct l'
  end.

(** The column names are distinct and, apart from Date, Year and Month,
    which the stage assigns, the table has no object column. *)
Definition no_text_column (df : DataFrame) : bool :=
  forallb (fun p => negb (is_text (snd p)) || mem (fst p) ["Date"; "Year"; "Month"])
          (columns df)
  && distinct (col_names df).

(** The arithmetic mean of a sequence of numbers: their sum, taken from
    left to right, divided by their count. *)
Definition arithmetic_mean (vs : list V) : V :=
  vdiv (fold_left vadd vs (of_Z 0)) (of_Z (Z.of_nat (length vs))).

(** The numbers among the cells of a column. *)
Definition numbers (cs : list cell) : list V := omap num_val cs.

(** The mean of the cells of a group: the arithmetic mean of its numbers;
    the mean instant of its dates when it holds dates and no number; null
    when it holds neither. *)
Definition group_mean (cs : list cell) : cell :=
  match numbers cs, timestamps cs with
  | v :: vs, _ => Num (arithmetic_mean (v :: vs))
  | [], t :: ts => Ts (mean_timestamp (t :: ts))
  | [], [] => NA
  end.

(** The mean of a single cell: a number as float64, a date as the mean of
    that one instant, anything else null. *)
Definition own_value (c : cell) : cell :=
  match num_val c, c with
  | Some v, _ => Num v
  | None, Ts t => Ts (mean_timestamp [t])
  | None, _ => NA
  end.

(** The total of the numbers among the cells of a group. *)
Definition group_total (cs : list cell) : cell :=
  Num (fold_left vadd (numbers cs) (of_Z 0)).

(** The case records as the literal table of lines 68-83 gives them: the
    count of year [y] and month number [m] is the cell of the row of [y]
    under the abbreviation of [m]. *)
Definition literal_records : list ((Z * Z) * Z) :=
  match assoc "Year" dengue_data with
  | None => []
  | Some years =>
      flat_map (fun iy =>
        flat_map (fun jm =>
          match assoc (snd jm) dengue_data with
          | Some counts =>
              match counts !! fst iy with
              | Some n => [((snd iy, Z.of_nat (fst jm) + 1), n)]
              | None => []
              end
          | None => []
          end) (enumerate month_abbreviations)) (enumerate years)
  end.

Fixpoint literal_lookup (y m : Z) (l : list ((Z * Z) * Z)) : option Z :=
  match l with
  | [] => None
  | ((y', m'), n) :: l' =>
      if (y =? y') && (m =? m') then Some n else literal_lookup y m l'
  end.

Definition literal_count (y m : Z) : option Z := literal_lookup y m literal_records.

(** The case count attached to an aggregate row of month (y, m). *)
Definition count_cell (y m : Z) : cell :=
  match literal_count y m with
  | Some n => Int n
  | None => NA
  end.

(** A reshaped record agrees with the literal table, or has no month. *)
Definition matches_literal (r : row) : bool :=
  match r with
  | [Int y; Int m; Int n] =>
      match literal_count y m with Some n' => n =? n' | None => false end
  | [Int _; NA; _] => true
  | _ => false
  end.

(** A row is the record of this cell of the literal table. *)
Definition holds_record (t : (Z * Z) * Z) (r : row) : bool :=
  match r with
  | [Int y; Int m; Int n] => (y =? fst (fst t)) && (m =? snd (fst t)) && (n =? snd t)
  | _ => false
  end.

(** The key cells of a table hold integers or nulls. *)
Definition integer_keys (keys : list string) (df : DataFrame) : bool :=
  forallb (fun r => forallb (fun c => match cell_at (position c df) r with
                                      | Int _ | NA => true
                                      | _ => false
                                      end) keys) (rows df).

End Model.

Arguments cell V : clear implicits.
Arguments DataFrame V : clear implicits.
Arguments json V : clear implicits.
Arguments Response V : clear implicits.
Arguments Query V : clear implicits.
Arguments Network V : clear implicits.
Arguments Charts V : clear implicits.
Arguments Correlation V : clear implicits.
Arguments event V : clear implicits.
Arguments World V : clear implicits.
Arguments M V A : clear implicits.
Abbreviation row V := (list (cell V)) (only parsing).
Arguments empty_world V : clear implicits.
Arguments opening_page V : clear implicits.
Arguments world_at_fetch V : clear implicits.
Arguments case_store V : clear implicits.
Arguments dengue_table V : clear implicits.

(** ** A concrete runtime: exact rational numbers and compact dates *)

#[global] Instance Q_numeric : Numeric Q := {
  of_Z := inject_Z;
  vadd := Qplus;
  vdiv := Qdiv;
  vleb := Qle_bool;
  veqb := Qeq_bool }.

Definition digit (a : ascii) : option Z :=
  let n := Z.of_nat (nat_of_ascii a) - 48 in
  if (0 <=? n) && (n <=? 9) then Some n else None.

Fixpoint digits (s : string) (acc : Z) : option Z :=
  match s with
  | EmptyString => Some acc
  | String a s' =>
      match digit a with
      | Some d => digits s' (10 * acc + d)
      | None => None
      end
  end.

Definition leap_year (y : Z) : bool :=
  ((y mod 4 =? 0) && negb (y mod 100 =? 0)) || (y mod 400 =? 0).

Definition days_in_month (y m : Z) : Z :=
  if m =? 2 then (if leap_year y then 29 else 28)
  else if (m =? 4) || (m =? 6) || (m =? 9) || (m =? 11) then 30 else 31.

(** The YYYYMMDD form in which the service keys its daily series. *)
Definition parse_yyyymmdd (s : string) : option Timestamp :=
  if Nat.eqb (String.length s) 8 then
    match digits (substring 0 4 s) 0, digits (substring 4 2 s) 0, digits (substring 6 2 s) 0 with
    | Some y, Some m, Some d =>
        if (1 <=? m) && (m <=? 12) && (1 <=? d) && (d <=? days_in_month y m)
        then Some {| ts_year := y; ts_month := m; ts_day := d; ts_nanos := 0 |}
        else None
    | _, _, _ => None
    end
  else None.

#[global] Instance compact_dates : DateParser := parse_yyyymmdd.

(** Days between 1970-01-01 and a date of the proleptic Gregorian calendar,
    and back. *)
Definition days_from_civil (y m d : Z) : Z :=
  let y' := if m <=? 2 then y - 1 else y in
  let era := y' / 400 in
  let yoe := y' - era * 400 in
  let doy := (153 * (if 2 <? m then m - 3 else m + 9) + 2) / 5 + d - 1 in
  let doe := yoe * 365 + yoe / 4 - yoe / 100 + doy in
  era * 146097 + doe - 719468.

Definition civil_from_days (z : Z) : Z * Z * Z :=
  let z' := z + 719468 in
  let era := z' / 146097 in
  let doe := z' - era * 146097 in
  let yoe := (doe - doe / 1460 + doe / 36524 - doe / 146096) / 365 in
  let doy := doe - (365 * yoe + yoe / 4 - yoe / 100) in
  let mp := (5 * doy + 2) / 153 in
  let d := doy - (153 * mp + 2) / 5 + 1 in
  let m := if mp <? 10 then mp + 3 else mp - 9 in
  ((if m <=? 2 then yoe + era * 400 + 1 else yoe + era * 400), m, d).

Definition nanos_per_day : Z := 86400 * 1000000000.

Definition epoch_nanos (t : Timestamp) : Z :=
  days_from_civil (ts_year t) (ts_month t) (ts_day t) * nanos_per_day + ts_nanos t.

Definition of_epoch_nanos (n : Z) : Timestamp :=
  let '(y, m, d) := civil_from_days (n / nanos_per_day) in
  {| ts_year := y; ts_month := m; ts_day := d; ts_nanos := n mod nanos_per_day |}.

(** The mean instant in exact integer arithmetic. *)
#[global] Instance exact_mean : InstantMean :=
  fun ts => of_epoch_nanos (fold_right Z.add 0 (map epoch_nanos ts) / Z.of_nat (length ts)).

(** ** Concrete replies of the service *)

Definition series_T2M : json Q :=
  JObj [("20190715", JFloat (30 # 1)); ("20190716", JFloat (32 # 1));
        ("20190801", JFloat (-999 # 1))].

Definition series_PRECTOTCORR : json Q :=
  JObj [("20190715", JFloat (5 # 1)); ("20190716", JFloat (7 # 1));
        ("20190801", JFloat (1 # 1))].

Definition reply_with (series : list (string * json Q)) : Response Q :=
  {| status_code := 200;
     text := "{...}";
     json_body := Some (JObj [("properties", JObj [("parameter", JObj series)])]);
     json_error := EmptyString |}.

(** Three days of both variables; 1 August 2019 carries the service's
    missing-value sentinel -999 as its temperature. *)
Definition sentinel_service : Network Q :=
  fun _ _ => Ok (reply_with [("T2M", series_T2M); ("PRECTOTCORR", series_PRECTOTCORR)]).

(** The temperature series is absent from the reply. *)
Definition partial_service : Network Q :=
  fun _ _ => Ok (reply_with [("PRECTOTCORR", series_PRECTOTCORR)]).

Definition unavailable : Response Q :=
  {| status_code := 503; text := "Service Unavailable"; json_body := None;
     json_error := "Expecting value: line 1 column 1 (char 0)" |}.

Definition failing_service : Network Q := fun _ _ => Ok unavailable.

(** Plotting libraries that accept every figure they are asked for, and a
    correlation that accepts every selection. *)
#[global] Instance accepting_charts : Charts Q := fun _ _ => Ok tt.

#[global] Instance accepting_correlation : Correlation Q := fun _ => Ok tt.

(** One observation per month, as in the specification's example. *)
Definition one_day_table : DataFrame Q :=
  {| columns := [("Date", DObject); ("T2M", DNumeric); ("PRECTOTCORR", DNumeric)];
     rows := [[Str "20190715"; Num (30 # 1); Num (5 # 1)];
              [Str "20190601"; Num (28 # 1); Int 0]] |}.

Definition three_day_table : DataFrame Q :=
  {| columns := [("Date", DObject); ("T2M", DNumeric); ("PRECTOTCORR", DNumeric)];
     rows := [[Str "20190715"; Num (30 # 1); Num (5 # 1)];
              [Str "20190716"; Num (32 # 1); Num (7 # 1)];
              [Str "20190801"; Num (-999 # 1); Num (1 # 1)]] |}.

Definition world_with (df : DataFrame Q) : World Q :=
  {| heap := [df]; globals := {["combined_data" := 0%nat]}; ui := [] |}.

Definition one_day_dates : list (cell Q) := [Str "20190715"; Str "20190601"].

Definition one_day_parsed : list (cell Q) :=
  [Ts {| ts_year := 2019; ts_month := 7; ts_day := 15; ts_nanos := 0 |};
   Ts {| ts_year := 2019; ts_month := 6; ts_day := 1; ts_nanos := 0 |}].

Definition three_day_dates : list (cell Q) :=
  [Str "20190715"; Str "20190716"; Str "20190801"].

Definition three_day_parsed : list (cell Q) :=
  [Ts {| ts_year := 2019; ts_month := 7; ts_day := 15; ts_nanos := 0 |};
   Ts {| ts_year := 2019; ts_month := 7; ts_day := 16; ts_nanos := 0 |};
   Ts {| ts_year := 2019; ts_month := 8; ts_day := 1; ts_nanos := 0 |}].

(** [three_day_table] as the aggregation stage leaves it, and its aggregate. *)
Definition three_day_after : DataFrame Q :=
  {| columns := [("Date", DDatetime); ("T2M", DNumeric); ("PRECTOTCORR", DNumeric);
                 ("Year", DNumeric); ("Month", DNumeric)];
     rows := [[Ts {| ts_year := 2019; ts_month := 7; ts_day := 15; ts_nanos := 0 |};
               Num (30 # 1); Num (5 # 1); Int 2019; Int 7];
              [Ts {| ts_year := 2019; ts_month := 7; ts_day := 16; ts_nanos := 0 |};
               Num (32 # 1); Num (7 # 1); Int 2019; Int 7];
              [Ts {| ts_year := 2019; ts_month := 8; ts_day := 1; ts_nanos := 0 |};
               Num (-999 # 1); Num (1 # 1); Int 2019; Int 8]] |}.

Definition mid_july : Timestamp :=
  {| ts_year := 2019; ts_month := 7; ts_day := 15; ts_nanos := 43200000000000 |}.

Definition first_of_august : Timestamp :=
  {| ts_year := 2019; ts_month := 8; ts_day := 1; ts_nanos := 0 |}.

Definition three_day_monthly : DataFrame Q :=
  {| columns := [("Year", DNumeric); ("Month", DNumeric); ("Date", DDatetime);
                 ("T2M", DNumeric); ("PRECTOTCORR", DNumeric)];
     rows := [[Int 2019; Int 7; Ts mid_july; Num (62 # 2); Num (12 # 2)];
              [Int 2019; Int 8; Ts first_of_august; Num (-999 # 1); Num (1 # 1)]] |}.

(** A 200 reply whose body is an object without series. *)
Definition shapeless_body : list (string * json Q) := [("messages", JArr [])].

Definition shapeless : Response Q :=
  {| status_code := 200; text := "{...}"; json_body := Some (JObj shapeless_body);
     json_error := EmptyString |}.

Definition shapeless_service : Network Q := fun _ _ => Ok shapeless.


(** A table with a text column beside the dates, and what the stage
    leaves of it. *)
Definition stationed_table : DataFrame Q :=
  {| columns := [("Date", DObject); ("T2M", DNumeric); ("Station", DObject)];
     rows := [[Str "20190715"; Num (30 # 1); Str "RWP"]] |}.

Definition stationed_after : DataFrame Q :=
  {| columns := [("Date", DDatetime); ("T2M", DNumeric); ("Station", DObject);
                 ("Year", DNumeric); ("Month", DNumeric)];
     rows := [[Ts {| ts_year := 2019; ts_month := 7; ts_day := 15; ts_nanos := 0 |};
               Num (30 # 1); Str "RWP"; Int 2019; Int 7]] |}.

Definition undated_table : DataFrame Q :=
  {| columns := [("T2M", DNumeric); ("PRECTOTCORR", DNumeric)];
     rows := [[Num (30 # 1); Num (5 # 1)]] |}.

(** [three_day_monthly] joined with the case records, and filtered. *)
Definition three_day_joined : DataFrame Q :=
  {| columns := [("Year", DNumeric); ("Month", DNumeric); ("Date", DDatetime);
                 ("T2M", DNumeric); ("PRECTOTCORR", DNumeric); ("Dengue Cases", DNumeric)];
     rows := [[Int 2019; Int 7; Ts mid_july; Num (62 # 2); Num (12 # 2); Int 27];
              [Int 2019; Int 8; Ts first_of_august; Num (-999 # 1); Num (1 # 1);
               Int 684]] |}.

Definition three_day_warm : DataFrame Q :=
  {| columns := [("Year", DNumeric); ("Month", DNumeric); ("Date", DDatetime);
                 ("T2M", DNumeric); ("PRECTOTCORR", DNumeric)];
     rows := [[Int 2019; Int 7; Ts mid_july; Num (62 # 2); Num (12 # 2)]] |}.

(** A small wide table and its long form. *)
Definition two_year_wide : DataFrame Q :=
  {| columns := [("Year", DNumeric); ("Jan", DNumeric); ("Feb", DNumeric);
                 ("Total", DNumeric)];
     rows := [[Int 2013; Int 0; Int 4; Int 4]; [Int 2014; Int 1; Int 0; Int 1]] |}.

Definition two_year_long : DataFrame Q :=
  {| columns := [("Year", DNumeric); ("Month", DObject); ("Dengue Cases", DNumeric)];
     rows := [[Int 2013; Str "Jan"; Int 0]; [Int 2014; Str "Jan"; Int 1];
              [Int 2013; Str "Feb"; Int 4]; [Int 2014; Str "Feb"; Int 0];
              [Int 2013; Str "Total"; Int 4]; [Int 2014; Str "Total"; Int 1]] |}.

(** * Properties *)

Section Properties.
Context {V : Type} {num : Numeric V} {dp : DateParser} {instants : InstantMean}
        {net : Network V} {charts : Charts V} {correlation : Correlation V}.

(** ** The literal table *)

Lemma dengue_df_value : dengue_df = Ok (dengue_table V).
Proof. reflexivity. Qed.

(** C3: in the literal table, the twelve monthly counts of every year add up
    to the year's "Total"; the same holds for the case records of that year
    in the reshaped table. *)
Theorem yearly_total_is_sum_of_months :
  exists wide : DataFrame V,
    DataFrame_of_dict dengue_data = Ok wide /\
    length (rows wide) = 11%nat /\
    Forall (fun r => monthly_sum wide r = int_at wide "Total" r) (rows wide) /\
    Forall (fun r => cases_of_year (dengue_table V) (int_at wide "Year" r)
                     = int_at wide "Total" r) (rows wide).
Proof.
  eexists. split; [reflexivity|].
  split; [reflexivity|].
  split; repeat constructor.
Qed.

(** C2 (the code departs from it): reshaping the literal table yields 143
    records, not 11 x 12 = 132; the "Total" column is unpivoted like a month
    and leaves 11 records whose month number is null. *)
Theorem reshape_unpivots_total_column :
  exists melted long : DataFrame V,
    dengue_melted = Ok melted /\
    dengue_df = Ok long /\
    length (rows long) = 143%nat /\
    length (List.filter (labelled "Total") (rows melted)) = 11%nat /\
    length (List.filter null_month (rows long)) = 11%nat /\
    length (List.filter (fun r => negb (null_month r)) (rows long)) = 132%nat.
Proof.
  do 2 eexists. split; [reflexivity|]. split; [reflexivity|].
  repeat split; vm_compute; reflexivity.
Qed.

(** ** Group keys and groups *)


Lemma key_compare_refl (k : list Z) : key_compare k k = Eq.
Proof. induction k as [|x k IH]; simpl; [reflexivity|]. now rewrite Z.compare_refl. Qed.

Lemma key_compare_eq (a b : list Z) : key_compare a b = Eq -> a = b.
Proof.
  revert b. induction a as [|x a IH]; intros [|y b]; simpl; try discriminate; auto.
  destruct (Z.compare_spec x y); try discriminate.
  intros H'. subst. f_equal. auto.
Qed.

Lemma key_compare_antisym (a b : list Z) : key_compare b a = CompOpp (key_compare a b).
Proof.
  revert b. induction a as [|x a IH]; intros [|y b]; simpl; auto.
  rewrite (Z.compare_antisym x y).
  destruct (x ?= y); simpl; auto.
Qed.

Lemma key_lt_trans (a b c : list Z) : key_lt a b -> key_lt b c -> key_lt a c.
Proof.
  unfold key_lt. revert b c.
  induction a as [|x a IH]; intros [|y b] [|z c]; simpl; try discriminate; auto.
  destruct (Z.compare_spec x y), (Z.compare_spec y z); try discriminate; subst; intros.
  - rewrite Z.compare_refl. eauto.
  - now apply Z.compare_lt_iff in H0 as ->.
  - now apply Z.compare_lt_iff in H as ->.
  - assert (x < z) as ->%Z.compare_lt_iff by lia. reflexivity.
Qed.

Lemma find_group_below (k : list Z) (gs : list (list Z * list (row V))) :
  Forall (key_lt k) (map fst gs) -> find_group k gs = None.
Proof.
  induction gs as [|[k' g] gs IH]; simpl; [reflexivity|].
  intros H. inversion H as [|? ? Hk Hrest]; subst.
  unfold key_lt in Hk. rewrite Hk. auto.
Qed.

Lemma add_to_group_keys (k : list Z) (r : row V) gs (P : list Z -> Prop) :
  P k -> Forall P (map fst gs) -> Forall P (map fst (add_to_group k r gs)).
Proof.
  intros Hk. induction gs as [|[k' g] gs IH]; simpl; intros H.
  - constructor; auto.
  - inversion H; subst. destruct (key_compare k k'); simpl; constructor; auto.
Qed.

Lemma add_to_group_sorted (k : list Z) (r : row V) gs :
  groups_sorted gs -> groups_sorted (add_to_group k r gs).
Proof.
  unfold groups_sorted.
  induction gs as [|[k' g] gs IH]; simpl; intros H.
  - repeat constructor.
  - inversion H as [|? ? Hs Hall]; subst.
    destruct (key_compare k k') eqn:E; simpl.
    + constructor; auto.
    + constructor; [exact H|]. constructor; [exact E|].
      eapply List.Forall_impl; [|exact Hall]. intros a Ha. eapply key_lt_trans; eauto.
    + constructor; [auto|]. apply add_to_group_keys; [|exact Hall].
      unfold key_lt. rewrite key_compare_antisym, E. reflexivity.
Qed.

Lemma find_add_to_group (k k' : list Z) (r : row V) gs :
  groups_sorted gs ->
  find_group k' (add_to_group k r gs) =
  match key_compare k' k with
  | Eq => Some (default [] (find_group k gs) ++ [r])
  | _ => find_group k' gs
  end.
Proof.
  unfold groups_sorted.
  induction gs as [|[k0 g0] gs IH]; simpl; intros H.
  - destruct (key_compare k' k); reflexivity.
  - inversion H as [|? ? Hs Hall]; subst.
    destruct (key_compare k k0) eqn:E; simpl.
    + apply key_compare_eq in E. subst k0.
      destruct (key_compare k' k); reflexivity.
    + destruct (key_compare k' k) eqn:E'; try reflexivity.
      rewrite find_group_below; [reflexivity|].
      eapply List.Forall_impl; [|exact Hall]. intros a Ha. eapply key_lt_trans; eauto.
    + destruct (key_compare k' k0) eqn:E0.
      * apply key_compare_eq in E0. subst k0.
        rewrite key_compare_antisym, E. reflexivity.
      * rewrite IH by assumption. reflexivity.
      * rewrite IH by assumption. reflexivity.
Qed.


Lemma in_group_key (idx : list nat) (k : list Z) (r : row V) :
  in_group idx k r = true <-> row_key idx r = Some k.
Proof.
  unfold in_group. destruct (row_key idx r) as [k'|]; [|split; discriminate].
  destruct (key_compare k k') eqn:E.
  - apply key_compare_eq in E. subst. tauto.
  - split; [discriminate|]. intros [= ->]. now rewrite key_compare_refl in E.
  - split; [discriminate|]. intros [= ->]. now rewrite key_compare_refl in E.
Qed.

Lemma nonempty_snoc {A} (l : list A) (x : A) :
  Some (default [] (nonempty l) ++ [x]) = nonempty (l ++ [x]).
Proof. destruct l; reflexivity. Qed.

Lemma group_fold (idx : list nat) (rs : list (row V)) :
  forall gs done,
    groups_sorted gs ->
    (forall k, find_group k gs = nonempty (List.filter (in_group idx k) done)) ->
    groups_sorted (fold_left (group_step idx) rs gs) /\
    forall k, find_group k (fold_left (group_step idx) rs gs)
              = nonempty (List.filter (in_group idx k) (done ++ rs)).
Proof.
  induction rs as [|r rs IH]; intros gs done Hs Hf; simpl.
  - rewrite app_nil_r. auto.
  - replace (done ++ r :: rs) with ((done ++ [r]) ++ rs) by now rewrite <- app_assoc.
    apply IH.
    + unfold group_step. destruct (row_key idx r); [now apply add_to_group_sorted | exact Hs].
    + intros k. rewrite List.filter_app. simpl. unfold group_step.
      destruct (row_key idx r) as [k0|] eqn:Ek.
      * rewrite find_add_to_group by exact Hs.
        unfold in_group at 2. rewrite Ek.
        destruct (key_compare k k0) eqn:E.
        -- apply key_compare_eq in E. subst k0. rewrite Hf. apply nonempty_snoc.
        -- rewrite app_nil_r. apply Hf.
        -- rewrite app_nil_r. apply Hf.
      * unfold in_group at 2. rewrite Ek, app_nil_r. apply Hf.
Qed.

Lemma group_rows_sorted (idx : list nat) (rs : list (row V)) :
  groups_sorted (group_rows idx rs).
Proof. apply (group_fold idx rs [] []); [constructor | reflexivity]. Qed.

Lemma group_rows_find (idx : list nat) (rs : list (row V)) (k : list Z) :
  find_group k (group_rows idx rs) = nonempty (List.filter (in_group idx k) rs).
Proof. apply (group_fold idx rs [] []); [constructor | reflexivity]. Qed.

Lemma find_group_In (k : list Z) (g : list (row V)) gs :
  find_group k gs = Some g -> In (k, g) gs.
Proof.
  induction gs as [|[k' g'] gs IH]; simpl; [discriminate|].
  destruct (key_compare k k') eqn:E; auto.
  intros [= ->]. apply key_compare_eq in E. subst. auto.
Qed.

Lemma In_find_group (k : list Z) (g : list (row V)) gs :
  groups_sorted gs -> In (k, g) gs -> find_group k gs = Some g.
Proof.
  unfold groups_sorted.
  induction gs as [|[k' g'] gs IH]; simpl; [tauto|].
  intros Hs [H|H]; inversion Hs as [|? ? Hs' Hall]; subst.
  - inversion H; subst. now rewrite key_compare_refl.
  - destruct (key_compare k k') eqn:E; auto.
    apply key_compare_eq in E. subst k'.
    rewrite List.Forall_forall in Hall.
    assert (Hk : key_lt k k). { apply Hall. apply in_map_iff. exists (k, g). auto. }
    unfold key_lt in Hk. now rewrite key_compare_refl in Hk.
Qed.

(** What a group of [group_rows] holds: the rows of its key, in table order. *)
Lemma group_rows_members (idx : list nat) (rs : list (row V)) (k : list Z) (g : list (row V)) :
  In (k, g) (group_rows idx rs) -> g = List.filter (in_group idx k) rs /\ g <> [].
Proof.
  intros H. apply In_find_group in H; [|apply group_rows_sorted].
  rewrite group_rows_find in H.
  destruct (List.filter (in_group idx k) rs); [discriminate|].
  inversion H; subst. split; [reflexivity | discriminate].
Qed.

Lemma group_rows_keys (idx : list nat) (rs : list (row V)) (k : list Z) :
  In k (map fst (group_rows idx rs)) <-> exists r, In r rs /\ row_key idx r = Some k.
Proof.
  split.
  - intros ([k' g] & <- & Hin)%in_map_iff. simpl.
    destruct (group_rows_members _ _ _ _ Hin) as [-> Hne].
    destruct (List.filter (in_group idx k') rs) as [|r l] eqn:E; [congruence|].
    assert (Hr : In r (List.filter (in_group idx k') rs)) by (rewrite E; left; reflexivity).
    apply List.filter_In in Hr as [Hr1 Hr2]. exists r. split; [auto|]. now apply in_group_key.
  - intros (r & Hr & Hk).
    assert (Hf : In r (List.filter (in_group idx k) rs)).
    { apply List.filter_In. split; [auto|]. now apply in_group_key. }
    pose proof (group_rows_find idx rs k) as Hfind.
    destruct (List.filter (in_group idx k) rs) as [|r' l] eqn:E; [destruct Hf|].
    simpl in Hfind. apply find_group_In in Hfind.
    apply in_map_iff. exists (k, r' :: l). auto.
Qed.


(** ** Columns by name *)

Lemma index_of_Some (c : string) (names : list string) (i : nat) :
  index_of c names = Some i -> names !! i = Some c.
Proof.
  revert i. induction names as [|x names IH]; simpl; intros i; [discriminate|].
  destruct (String.eqb x c) eqn:E.
  - intros [= <-]. apply String.eqb_eq in E. now subst.
  - destruct (index_of c names) as [j|]; simpl; [|discriminate].
    intros [= <-]. simpl. auto.
Qed.

Lemma index_of_None (c : string) (names : list string) :
  index_of c names = None -> ~ In c names.
Proof.
  induction names as [|x names IH]; simpl; [tauto|].
  destruct (String.eqb x c) eqn:E; [discriminate|].
  apply String.eqb_neq in E.
  destruct (index_of c names); simpl; [discriminate|].
  intros _ [H|H]; [congruence | now apply IH].
Qed.

Lemma index_of_app_l (c : string) (names more : list string) (i : nat) :
  index_of c names = Some i -> index_of c (names ++ more) = Some i.
Proof.
  revert i. induction names as [|x names IH]; simpl; intros i; [discriminate|].
  destruct (String.eqb x c); [auto|].
  destruct (index_of c names) as [j|]; simpl; [|discriminate].
  intros [= <-]. now rewrite (IH j).
Qed.

Lemma index_of_snoc (c n : string) (names : list string) :
  index_of c names = None ->
  index_of c (names ++ [n]) = if String.eqb n c then Some (length names) else None.
Proof.
  induction names as [|x names IH]; simpl.
  - intros _. destruct (String.eqb n c); reflexivity.
  - destruct (String.eqb x c); [discriminate|].
    destruct (index_of c names); simpl; [discriminate|].
    intros _. rewrite IH by reflexivity. destruct (String.eqb n c); reflexivity.
Qed.

Lemma col_names_insert (cols : list (string * dtype)) (i : nat) (n : string) (d : dtype) :
  map fst cols !! i = Some n -> map fst (<[i := (n, d)]> cols) = map fst cols.
Proof.
  revert i. induction cols as [|x cols IH]; intros [|i]; simpl; try discriminate.
  - intros [= <-]. reflexivity.
  - intros H. f_equal. auto.
Qed.

Lemma cell_at_insert (i : nat) (c : cell V) (r : row V) :
  (i < length r)%nat -> cell_at i (<[i := c]> r) = c.
Proof.
  intros H. unfold cell_at. rewrite nth_lookup, list_lookup_insert_eq by exact H. reflexivity.
Qed.

Lemma cell_at_insert_ne (i j : nat) (c : cell V) (r : row V) :
  i <> j -> cell_at j (<[i := c]> r) = cell_at j r.
Proof.
  intros H. unfold cell_at. rewrite !nth_lookup, list_lookup_insert_ne by exact H. reflexivity.
Qed.

(** ** Row-wise views of a column assignment *)

Lemma zip_with_keeps {X} (F : row V -> cell V -> row V) (G : row V -> X)
      (rs : list (row V)) (cs : list (cell V)) :
  length cs = length rs ->
  (forall r c, In r rs -> G (F r c) = G r) ->
  map G (zip_with F rs cs) = map G rs.
Proof.
  revert cs. induction rs as [|r rs IH]; intros [|c cs]; simpl; try discriminate; auto.
  intros [= Hl] H. f_equal; auto.
Qed.

Lemma zip_with_sets (F : row V -> cell V -> row V) (G : row V -> cell V)
      (rs : list (row V)) (cs : list (cell V)) :
  length cs = length rs ->
  (forall r c, In r rs -> G (F r c) = c) ->
  map G (zip_with F rs cs) = cs.
Proof.
  revert cs. induction rs as [|r rs IH]; intros [|c cs]; simpl; try discriminate; auto.
  intros [= Hl] H. f_equal; auto.
Qed.

Lemma zip_with_forallb (F : row V -> cell V -> row V) (P Q : row V -> bool)
      (rs : list (row V)) (cs : list (cell V)) :
  (forall r c, P r = true -> Q (F r c) = true) ->
  forallb P rs = true -> forallb Q (zip_with F rs cs) = true.
Proof.
  intros H. revert cs. induction rs as [|r rs IH]; intros [|c cs]; simpl; auto.
  intros [H1 H2]%andb_prop. rewrite (H r c H1). simpl. auto.
Qed.

Lemma zip_with_rows_length (F : row V -> cell V -> row V)
      (rs : list (row V)) (cs : list (cell V)) :
  length cs = length rs -> length (zip_with F rs cs) = length rs.
Proof.
  revert cs. induction rs as [|r rs IH]; intros [|c cs]; simpl; try discriminate; auto.
Qed.

Lemma wf_frame_row (df : DataFrame V) (r : row V) :
  wf_frame df = true -> In r (rows df) -> length r = length (columns df).
Proof.
  unfold wf_frame. rewrite forallb_forall. intros H Hr.
  apply Nat.eqb_eq. auto.
Qed.


Lemma nth_snd_insert (cols : list (string * dtype)) (i j : nat) (x : string * dtype) :
  i <> j -> nth j (map snd (<[i := x]> cols)) DObject = nth j (map snd cols) DObject.
Proof.
  revert i j. induction cols as [|c cols IH]; intros [|i] [|j] H; simpl; auto; try congruence.
Qed.

Lemma nth_snd_insert_eq (cols : list (string * dtype)) (i : nat) (x : string * dtype) :
  (i < length cols)%nat -> nth i (map snd (<[i := x]> cols)) DObject = snd x.
Proof.
  revert i. induction cols as [|c cols IH]; intros [|i] H; simpl in *; auto; try lia.
  apply IH. lia.
Qed.

(** [df[n] = cs] on a well-formed table: column [n] then reads back as
    [cs], every other column reads as before. *)
Lemma set_col_spec (n : string) (d : dtype) (cs : list (cell V)) (df : DataFrame V) :
  wf_frame df = true ->
  length cs = length (rows df) ->
  exists df',
    set_col n d cs df = Ok df' /\
    wf_frame df' = true /\
    length (rows df') = length (rows df) /\
    get_col n df' = Ok (d, cs) /\
    (forall m, m <> n -> get_col m df' = get_col m df) /\
    col_names df' = (if has_column n df then col_names df else col_names df ++ [n]).
Proof.
  intros Hwf Hlen. unfold set_col, has_column.
  rewrite Hlen, Nat.eqb_refl. simpl.
  destruct (index_of n (col_names df)) as [i|] eqn:Ei.
  - pose proof (index_of_Some _ _ _ Ei) as Hi.
    assert (Hlt : (i < length (columns df))%nat).
    { apply lookup_lt_Some in Hi. unfold col_names in Hi. now rewrite length_map in Hi. }
    assert (Hnames : map fst (<[i := (n, d)]> (columns df)) = col_names df)
      by now apply col_names_insert.
    eexists. split; [reflexivity|].
    split; [|split; [|split; [|split]]].
    + unfold wf_frame in *. simpl. eapply zip_with_forallb; [|exact Hwf].
      intros r c Hr. simpl in Hr. now rewrite !length_insert.
    + simpl. now apply zip_with_rows_length.
    + unfold get_col, col_index, col_names. simpl. rewrite Hnames, Ei. simpl.
      rewrite nth_snd_insert_eq by exact Hlt. simpl. f_equal. f_equal.
      apply zip_with_sets; [exact Hlen|].
      intros r c Hr. apply cell_at_insert.
      rewrite (wf_frame_row df r Hwf Hr). exact Hlt.
    + intros m Hm. unfold get_col, col_index, col_names. simpl. rewrite Hnames.
      fold (col_names df).
      destruct (index_of m (col_names df)) as [j|] eqn:Ej; [|reflexivity].
      simpl.
      assert (Hij : i <> j).
      { intros ->. apply index_of_Some in Ej. congruence. }
      rewrite nth_snd_insert by exact Hij. f_equal. f_equal.
      apply zip_with_keeps; [exact Hlen|].
      intros r c _. now apply cell_at_insert_ne.
    + unfold col_names. simpl. exact Hnames.
  - pose proof (index_of_None _ _ Ei) as Hnot.
    eexists. split; [reflexivity|].
    split; [|split; [|split; [|split]]].
    + unfold wf_frame in *. simpl. eapply zip_with_forallb; [|exact Hwf].
      intros r c Hr. simpl in Hr. apply Nat.eqb_eq in Hr.
      apply Nat.eqb_eq. rewrite !length_app. simpl. lia.
    + simpl. now apply zip_with_rows_length.
    + unfold get_col, col_index, col_names. simpl. rewrite map_app. simpl.
      rewrite index_of_snoc by exact Ei. rewrite String.eqb_refl. simpl.
      rewrite length_map, (map_app snd).
      rewrite app_nth2 by (rewrite length_map; lia).
      rewrite length_map, Nat.sub_diag. simpl. f_equal. f_equal.
      apply zip_with_sets; [exact Hlen|].
      intros r c Hr. unfold cell_at.
      rewrite <- (wf_frame_row df r Hwf Hr).
      rewrite app_nth2 by lia. now rewrite Nat.sub_diag.
    + intros m Hm. unfold get_col, col_index, col_names. simpl. rewrite map_app. simpl.
      fold (col_names df).
      destruct (index_of m (col_names df)) as [j|] eqn:Ej.
      * rewrite (index_of_app_l _ _ _ _ Ej). simpl.
        pose proof (index_of_Some _ _ _ Ej) as Hj. apply lookup_lt_Some in Hj.
        unfold col_names in Hj. rewrite length_map in Hj.
        rewrite (map_app snd).
        rewrite app_nth1 by (rewrite length_map; exact Hj). f_equal. f_equal.
        apply zip_with_keeps; [exact Hlen|].
        intros r c Hr. unfold cell_at. apply app_nth1.
        rewrite (wf_frame_row df r Hwf Hr). exact Hj.
      * rewrite index_of_snoc by exact Ej.
        destruct (String.eqb n m) eqn:E; [|reflexivity].
        apply String.eqb_eq in E. congruence.
    + unfold col_names. simpl. now rewrite map_app.
Qed.


(** ** Steps of the script monad *)

Lemma bind_ok {A B} (c : M V A) (k : A -> M V B) (w w' : World V) (a : A) :
  c w = (Ok a, w') -> bind c k w = k a w'.
Proof. intros H. simpl. now rewrite H. Qed.

Lemma bind_raise {A B} (c : M V A) (k : A -> M V B) (w w' : World V) (e : exn) :
  c w = (Raise e, w') -> bind c k w = (Raise e, w').
Proof. intros H. simpl. now rewrite H. Qed.

Lemma load_ok (l : loc) (df : DataFrame V) (w : World V) :
  heap w !! l = Some df -> load l w = (Ok df, w).
Proof. intros H. unfold load. now rewrite H. Qed.

Lemma getitem_ok (l : loc) (c : string) (d : dtype) (cs : list (cell V))
      (df : DataFrame V) (w : World V) :
  heap w !! l = Some df -> get_col c df = Ok (d, cs) -> getitem l c w = (Ok cs, w).
Proof.
  intros Hl Hc. unfold getitem.
  rewrite (bind_ok _ _ _ _ _ (load_ok _ _ _ Hl)).
  unfold lift. simpl. now rewrite Hc.
Qed.

Lemma setitem_ok (l : loc) (c : string) (d : dtype) (cs : list (cell V))
      (df df' : DataFrame V) (w : World V) :
  heap w !! l = Some df -> set_col c d cs df = Ok df' ->
  setitem l c d cs w =
  (Ok tt, {| heap := <[l := df']> (heap w); globals := globals w; ui := ui w |}).
Proof.
  intros Hl Hc. unfold setitem.
  rewrite (bind_ok _ _ _ _ _ (load_ok _ _ _ Hl)).
  unfold lift, store. simpl. now rewrite Hc.
Qed.

(** ** Date parsing *)

Lemma mapM_length {A B} (f : A -> result B) (l : list A) (l' : list B) :
  mapM f l = Ok l' -> length l' = length l.
Proof.
  revert l'. induction l as [|x l IH]; simpl; intros l'.
  - now intros [= <-].
  - destruct (f x); [|discriminate]. destruct (mapM f l); [|discriminate].
    intros [= <-]. simpl. f_equal. auto.
Qed.

Lemma to_datetime_cells (cs parsed : list (cell V)) :
  to_datetime cs = Ok parsed -> forallb datetime_cell parsed = true.
Proof.
  unfold to_datetime. revert parsed. induction cs as [|c cs IH]; simpl; intros parsed.
  - now intros [= <-].
  - destruct (to_datetime_cell c) as [t|] eqn:E; [|discriminate].
    destruct (mapM to_datetime_cell cs); [|discriminate].
    intros [= <-]. simpl. rewrite IH by reflexivity.
    destruct c; simpl in E; try discriminate.
    + destruct (parse_date s); inversion E; reflexivity.
    + inversion E; reflexivity.
    + inversion E; reflexivity.
Qed.

(** Parsing parsed dates again changes nothing (lines 120 and 61). *)
Lemma to_datetime_idempotent (parsed : list (cell V)) :
  forallb datetime_cell parsed = true -> to_datetime parsed = Ok parsed.
Proof.
  unfold to_datetime. induction parsed as [|c cs IH]; simpl; [reflexivity|].
  intros [H1 H2]%andb_prop. rewrite IH by exact H2.
  destruct c; simpl in *; try discriminate; reflexivity.
Qed.

Lemma mapM_col_index (names : list string) (df : DataFrame V) :
  Forall (fun c => In c (col_names df)) names ->
  mapM (fun c => col_index c df) names = Ok (map (fun c => position c df) names).
Proof.
  induction 1 as [|c names Hc _ IH]; simpl; [reflexivity|].
  unfold col_index at 1, position at 1.
  destruct (index_of c (col_names df)) eqn:E.
  - now rewrite IH.
  - now apply index_of_None in E.
Qed.

Lemma get_col_In (c : string) (df : DataFrame V) (x : dtype * list (cell V)) :
  get_col c df = Ok x -> In c (col_names df).
Proof.
  unfold get_col, col_index.
  destruct (index_of c (col_names df)) as [i|] eqn:E; [|discriminate].
  intros _. apply index_of_Some in E. apply list_elem_of_In. eapply list_elem_of_lookup_2, E.
Qed.


Lemma value_names_exist (keys : list string) (df : DataFrame V) :
  Forall (fun c => In c (col_names df)) (value_names keys df).
Proof.
  unfold value_names, mean_spec, col_names. rewrite map_map. simpl.
  apply List.Forall_forall. intros c (p & <- & Hp)%in_map_iff.
  apply List.filter_In in Hp as [Hp _]. now apply in_map.
Qed.

Lemma mean_spec_funs (keys : list string) (df : DataFrame V) :
  mean_spec keys df = map (fun c => (c, Mean)) (value_names keys df).
Proof. unfold value_names, mean_spec. now rewrite !map_map. Qed.

Lemma mapM_map {A B C} (f : B -> result C) (g : A -> B) (l : list A) :
  mapM f (map g l) = mapM (fun x => f (g x)) l.
Proof. induction l as [|x l IH]; simpl; [reflexivity|]. now rewrite IH. Qed.

Lemma combine_positions (names : list string) (df : DataFrame V) :
  combine (map (fun c => position c df) names)
          (map snd (map (fun c => (c, Mean)) names))
  = map (fun c => (position c df, Mean)) names.
Proof. induction names as [|c names IH]; simpl; [reflexivity|]. now rewrite IH. Qed.

Lemma combine_spec (names : list string) (df : DataFrame V) :
  combine (map (fun c => position c df) names) (map (fun c => (c, Mean)) names)
  = map (fun c => (position c df, (c, Mean))) names.
Proof. induction names as [|c names IH]; simpl; [reflexivity|]. now rewrite IH. Qed.

(** [groupby(keys).mean().reset_index()] on a table that has the key
    columns and no text in the groups of its object columns: the keys come
    back as columns, followed by every other column with its dtype; the
    rows are the groups in ascending key order, each with the means of its
    rows. *)
Lemma groupby_mean_spec (keys : list string) (df : DataFrame V) :
  Forall (fun c => In c (col_names df)) keys ->
  text_free (map (fun c => position c df) keys) keys df = true ->
  exists ks,
    groupby_mean keys df =
      Ok {| columns := map (fun c => (c, DNumeric)) keys ++
                       map (fun c => (c, dtype_of c df)) (value_names keys df);
            rows := map (fun k => map Int k ++
                           map (fun c => aggregate Mean (group_column df keys k c))
                               (value_names keys df)) ks |} /\
    StronglySorted key_lt ks /\
    (forall k, In k ks <->
               exists r, In r (rows df) /\
                         row_key (map (fun n => position n df) keys) r = Some k).
Proof.
  intros Hkeys Hfree.
  exists (map fst (group_rows (map (fun n => position n df) keys) (rows df))).
  split; [|split].
  - unfold groupby_mean.
    rewrite (mapM_col_index keys df Hkeys). cbn [bind result_monad]. rewrite Hfree.
    unfold groupby_agg.
    rewrite (mapM_col_index keys df Hkeys). cbn [bind result_monad].
    rewrite mean_spec_funs, mapM_map. cbn [fst].
    rewrite (mapM_col_index _ df (value_names_exist keys df)). cbn [bind result_monad ret].
    rewrite combine_positions, combine_spec. do 2 f_equal.
    + f_equal. rewrite map_map. reflexivity.
    + rewrite map_map. apply map_ext_in. intros [k g] Hg. cbn [fst snd].
      destruct (group_rows_members _ _ _ _ Hg) as [-> _].
      f_equal. rewrite map_map. reflexivity.
  - apply group_rows_sorted.
  - apply group_rows_keys.
Qed.

(** Text in a group of an object column: the mean is refused. *)
Lemma groupby_mean_refused (keys : list string) (df : DataFrame V) :
  Forall (fun c => In c (col_names df)) keys ->
  text_free (map (fun c => position c df) keys) keys df = false ->
  groupby_mean keys df = Raise mean_error.
Proof.
  intros Hkeys Hfree. unfold groupby_mean.
  rewrite (mapM_col_index keys df Hkeys). cbn [bind result_monad]. now rewrite Hfree.
Qed.

Lemma enumerate_snd {A} (l : list A) (p : nat * A) :
  In p (enumerate l) -> In (snd p) l.
Proof. destruct p as [i a]. unfold enumerate. intros H. simpl. eapply in_combine_r, H. Qed.

(** A table without object columns outside the keys has no text to stop
    the mean. *)
Lemma columns_text_free (kidx : list nat) (keys : list string) (df : DataFrame V) :
  Forall (fun p => is_text (snd p) = false \/ mem (fst p) keys = true) (columns df) ->
  text_free kidx keys df = true.
Proof.
  intros Hcols. unfold text_free. apply List.forallb_forall. intros r _.
  destruct (row_key kidx r); [|reflexivity].
  apply List.forallb_forall. intros p Hp. apply enumerate_snd in Hp.
  rewrite List.Forall_forall in Hcols. destruct (Hcols _ Hp) as [H|H]; rewrite H.
  - reflexivity.
  - now rewrite orb_true_r.
Qed.

(** ** The aggregation stage, step by step *)

Lemma bind_lift_ok {A B} (r : result A) (k : A -> M V B) (w : World V) (a : A) :
  r = Ok a -> bind (lift r) k w = k a w.
Proof. intros ->. reflexivity. Qed.

Lemma bind_lift_raise {A B} (r : result A) (k : A -> M V B) (w : World V) (e : exn) :
  r = Raise e -> bind (lift r) k w = (Raise e, w).
Proof. intros ->. reflexivity. Qed.

(** The three assignments always go through; the outcome of the call is
    the outcome of the mean on the table they leave. *)
Lemma process_monthly_data_steps (w : World V) (data : loc) (df : DataFrame V)
      (d0 : dtype) (cs parsed : list (cell V)) :
  heap w !! data = Some df ->
  wf_frame df = true ->
  get_col "Date" df = Ok (d0, cs) ->
  to_datetime cs = Ok parsed ->
  exists df',
    process_monthly_data data w =
      match groupby_mean ["Year"; "Month"] df' with
      | Ok avg => (Ok (length (heap w)),
                   {| heap := <[data := df']> (heap w) ++ [avg];
                      globals := globals w; ui := ui w |})
      | Raise e => (Raise e,
                    {| heap := <[data := df']> (heap w);
                       globals := globals w; ui := ui w |})
      end /\
    wf_frame df' = true /\
    length (rows df') = length (rows df) /\
    get_col "Date" df' = Ok (DDatetime, parsed) /\
    get_col "Year" df' = Ok (DNumeric, dt_year parsed) /\
    get_col "Month" df' = Ok (DNumeric, dt_month parsed) /\
    (forall m, m <> "Date" -> m <> "Year" -> m <> "Month" -> get_col m df' = get_col m df) /\
    col_names df' = with_column "Month" (with_column "Year" (col_names df)).
Proof.
  intros Hw Hwf Hdate Hparse.
  pose proof (lookup_lt_Some _ _ _ Hw) as Hlt.
  assert (Hlen : length parsed = length (rows df)).
  { rewrite (mapM_length _ _ _ Hparse).
    unfold get_col in Hdate. destruct (col_index "Date" df); [|discriminate].
    simpl in Hdate. inversion Hdate. now rewrite length_map. }
  destruct (set_col_spec "Date" DDatetime parsed df Hwf Hlen)
    as (df1 & Hs1 & Hwf1 & Hl1 & Hg1 & Ho1 & Hn1).
  assert (Hlen1 : length (dt_year parsed) = length (rows df1)).
  { unfold dt_year. rewrite length_map. congruence. }
  destruct (set_col_spec "Year" DNumeric (dt_year parsed) df1 Hwf1 Hlen1)
    as (df2 & Hs2 & Hwf2 & Hl2 & Hg2 & Ho2 & Hn2).
  assert (Hlen2 : length (dt_month parsed) = length (rows df2)).
  { unfold dt_month. rewrite length_map. congruence. }
  destruct (set_col_spec "Month" DNumeric (dt_month parsed) df2 Hwf2 Hlen2)
    as (df3 & Hs3 & Hwf3 & Hl3 & Hg3 & Ho3 & Hn3).
  assert (Hd2 : get_col "Date" df2 = Ok (DDatetime, parsed)).
  { rewrite Ho2 by discriminate. exact Hg1. }
  assert (Hd3 : get_col "Date" df3 = Ok (DDatetime, parsed)).
  { rewrite Ho3 by discriminate. exact Hd2. }
  assert (Hy3 : get_col "Year" df3 = Ok (DNumeric, dt_year parsed)).
  { rewrite Ho3 by discriminate. exact Hg2. }
  exists df3. split; [|split; [|split; [|split; [|split; [|split; [|split]]]]]];
    [| exact Hwf3 | | exact Hd3 | exact Hy3 | exact Hg3 | |].
  - unfold process_monthly_data.
    rewrite (bind_ok _ _ _ _ _ (getitem_ok _ _ _ _ _ _ Hw Hdate)).
    rewrite (bind_lift_ok _ _ _ _ Hparse).
    rewrite (bind_ok _ _ _ _ _ (setitem_ok _ _ _ _ _ _ _ Hw Hs1)).
    set (w1 := {| heap := <[data := df1]> (heap w); globals := globals w; ui := ui w |}).
    assert (Hw1 : heap w1 !! data = Some df1) by (simpl; now apply list_lookup_insert_eq).
    rewrite (bind_ok _ _ _ _ _ (getitem_ok _ _ _ _ _ _ Hw1 Hg1)).
    rewrite (bind_ok _ _ _ _ _ (setitem_ok _ _ _ _ _ _ _ Hw1 Hs2)).
    subst w1. simpl heap. simpl globals. simpl ui. rewrite list_insert_insert_eq.
    set (w2 := {| heap := <[data := df2]> (heap w); globals := globals w; ui := ui w |}).
    assert (Hw2 : heap w2 !! data = Some df2) by (simpl; now apply list_lookup_insert_eq).
    rewrite (bind_ok _ _ _ _ _ (getitem_ok _ _ _ _ _ _ Hw2 Hd2)).
    rewrite (bind_ok _ _ _ _ _ (setitem_ok _ _ _ _ _ _ _ Hw2 Hs3)).
    subst w2. simpl heap. simpl globals. simpl ui. rewrite list_insert_insert_eq.
    set (w3 := {| heap := <[data := df3]> (heap w); globals := globals w; ui := ui w |}).
    assert (Hw3 : heap w3 !! data = Some df3) by (simpl; now apply list_lookup_insert_eq).
    rewrite (bind_ok _ _ _ _ _ (load_ok _ _ _ Hw3)).
    destruct (groupby_mean ["Year"; "Month"] df3) as [avg|e].
    + rewrite (bind_lift_ok (Ok avg) _ _ avg eq_refl).
      unfold alloc. subst w3. simpl. now rewrite length_insert.
    + apply (bind_lift_raise (Raise e) _ _ e eq_refl).
  - congruence.
  - intros m H1 H2 H3. rewrite Ho3, Ho2, Ho1 by assumption. reflexivity.
  - assert (H1 : col_names df1 = col_names df).
    { rewrite Hn1. unfold has_column.
      destruct (index_of "Date" (col_names df)) eqn:E; [reflexivity|].
      exfalso. apply index_of_None in E. apply E. eapply get_col_In; eauto. }
    assert (H2 : col_names df2 = with_column "Year" (col_names df)).
    { rewrite Hn2. unfold has_column, with_column. rewrite H1.
      destruct (index_of "Year" (col_names df)); reflexivity. }
    rewrite Hn3. unfold has_column. rewrite H2.
    generalize (with_column "Year" (col_names df)). intros names.
    unfold with_column. destruct (index_of "Month" names); reflexivity.
Qed.

Lemma mem_In (k : string) (l : list string) : mem k l = true <-> In k l.
Proof.
  unfold mem. rewrite existsb_exists. split.
  - intros (x & Hx & ->%String.eqb_eq). exact Hx.
  - intros H. exists k. split; [exact H | apply String.eqb_refl].
Qed.

Lemma distinct_NoDup (l : list string) : distinct l = true -> List.NoDup l.
Proof.
  induction l as [|x l IH]; simpl; [constructor|].
  intros [H1 H2]%andb_prop. constructor; [|auto].
  intros Hin. apply mem_In in Hin. rewrite Hin in H1. discriminate.
Qed.

Lemma NoDup_with_column (n : string) (names : list string) :
  List.NoDup names -> List.NoDup (with_column n names).
Proof.
  intros H. unfold with_column. destruct (index_of n names) eqn:E; [exact H|].
  apply index_of_None in E.
  apply NoDup_ListNoDup, NoDup_app. apply NoDup_ListNoDup in H.
  split; [exact H|]. split; [|apply NoDup_singleton].
  intros x Hx ->%list_elem_of_singleton. apply E. now apply list_elem_of_In.
Qed.

Lemma index_of_NoDup (names : list string) (i : nat) (c : string) :
  List.NoDup names -> names !! i = Some c -> index_of c names = Some i.
Proof.
  intros Hnd. revert i. induction Hnd as [|x l Hx _ IH]; intros [|i]; simpl;
    try discriminate.
  - intros [= ->]. now rewrite String.eqb_refl.
  - intros Hi. destruct (String.eqb x c) eqn:E.
    + apply String.eqb_eq in E. subst x. exfalso. apply Hx.
      apply list_elem_of_In. eapply list_elem_of_lookup_2, Hi.
    + now rewrite (IH _ Hi).
Qed.

Lemma column_of_get_col (c : string) (d : dtype) (cs : list (cell V)) (df : DataFrame V) :
  get_col c df = Ok (d, cs) -> In (c, d) (columns df).
Proof.
  unfold get_col, col_index.
  destruct (index_of c (col_names df)) as [i|] eqn:E; [|discriminate].
  cbn [bind result_monad ret]. intros [= <- _].
  apply index_of_Some in E. unfold col_names in E.
  rewrite list_lookup_fmap in E.
  destruct (columns df !! i) as [[c' d']|] eqn:Ei; [|discriminate].
  cbn in E. inversion E; subst c'.
  apply list_elem_of_In. apply list_elem_of_lookup. exists i.
  rewrite Ei. f_equal. f_equal.
  symmetry. erewrite nth_lookup_Some; [reflexivity|].
  rewrite list_lookup_fmap, Ei. reflexivity.
Qed.

(** When the names are distinct and no object column is left beside Date,
    Year and Month, the table the assignments leave has no text to stop
    the mean. *)
Lemma no_text_after_the_assignments (df df' : DataFrame V) (kidx : list nat)
      (parsed : list (cell V)) :
  no_text_column df = true ->
  col_names df' = with_column "Month" (with_column "Year" (col_names df)) ->
  get_col "Date" df' = Ok (DDatetime, parsed) ->
  (forall m, m <> "Date" -> m <> "Year" -> m <> "Month" -> get_col m df' = get_col m df) ->
  text_free kidx ["Year"; "Month"] df' = true.
Proof.
  intros [Hno Hdist]%andb_prop Hnames Hdate Hother. apply columns_text_free.
  assert (Hnd : List.NoDup (col_names df')).
  { rewrite Hnames. do 2 apply NoDup_with_column. now apply distinct_NoDup. }
  apply List.Forall_forall. intros [c d] Hp. cbn [fst snd].
  apply list_elem_of_In, list_elem_of_lookup in Hp as [i Hi].
  assert (Hc : index_of c (col_names df') = Some i).
  { apply index_of_NoDup; [exact Hnd|]. unfold col_names.
    rewrite list_lookup_fmap, Hi. reflexivity. }
  assert (Hget : get_col c df' = Ok (d, map (cell_at i) (rows df'))).
  { unfold get_col, col_index. rewrite Hc. cbn [bind result_monad ret].
    do 2 f_equal. erewrite nth_lookup_Some; [reflexivity|].
    rewrite list_lookup_fmap, Hi. reflexivity. }
  destruct (String.eqb c "Year") eqn:EY; [right; cbn -[String.eqb]; now rewrite EY|].
  destruct (String.eqb c "Month") eqn:EM.
  { right. cbn -[String.eqb]. rewrite EM. now rewrite orb_true_r. }
  left. destruct (String.eqb c "Date") eqn:ED.
  - apply String.eqb_eq in ED. subst c. rewrite Hdate in Hget. now inversion Hget.
  - pose proof (proj1 (String.eqb_neq _ _) ED) as ND.
    pose proof (proj1 (String.eqb_neq _ _) EY) as NY.
    pose proof (proj1 (String.eqb_neq _ _) EM) as NM.
    rewrite (Hother c ND NY NM) in Hget. apply column_of_get_col in Hget.
    rewrite List.forallb_forall in Hno. specialize (Hno _ Hget). cbn [fst snd] in Hno.
    destruct (is_text d); [|reflexivity]. exfalso.
    cbn -[String.eqb] in Hno. rewrite ED, EY, EM in Hno. discriminate.
Qed.

Lemma process_monthly_data_runs (w : World V) (data : loc) (df : DataFrame V)
      (d0 : dtype) (cs parsed : list (cell V)) :
  heap w !! data = Some df ->
  wf_frame df = true ->
  get_col "Date" df = Ok (d0, cs) ->
  to_datetime cs = Ok parsed ->
  no_text_column df = true ->
  exists df' avg,
    process_monthly_data data w =
      (Ok (length (heap w)),
       {| heap := <[data := df']> (heap w) ++ [avg];
          globals := globals w; ui := ui w |}) /\
    wf_frame df' = true /\
    length (rows df') = length (rows df) /\
    get_col "Date" df' = Ok (DDatetime, parsed) /\
    get_col "Year" df' = Ok (DNumeric, dt_year parsed) /\
    get_col "Month" df' = Ok (DNumeric, dt_month parsed) /\
    (forall m, m <> "Date" -> m <> "Year" -> m <> "Month" -> get_col m df' = get_col m df) /\
    col_names df' = with_column "Month" (with_column "Year" (col_names df)) /\
    groupby_mean ["Year"; "Month"] df' = Ok avg /\
    text_free [position "Year" df'; position "Month" df'] ["Year"; "Month"] df' = true.
Proof.
  intros Hw Hwf Hdate Hparse Hno.
  destruct (process_monthly_data_steps w data df d0 cs parsed Hw Hwf Hdate Hparse)
    as (df' & Hrun & Hwf' & Hlen & Hd & Hy & Hm & Hother & Hnames).
  assert (Hkeys : Forall (fun c => In c (col_names df')) ["Year"; "Month"]).
  { repeat constructor; eapply get_col_In; eauto. }
  pose proof (no_text_after_the_assignments df df'
                [position "Year" df'; position "Month" df'] parsed Hno Hnames Hd Hother)
    as Hfree.
  destruct (groupby_mean_spec ["Year"; "Month"] df' Hkeys Hfree) as (ks & Havg & _).
  rewrite Havg in Hrun.
  exists df'. eexists. repeat split; eauto.
Qed.



Lemma get_col_cells (c : string) (df : DataFrame V) (d : dtype) (cs : list (cell V)) :
  get_col c df = Ok (d, cs) -> map (cell_at (position c df)) (rows df) = cs.
Proof.
  unfold get_col, col_index, position.
  destruct (index_of c (col_names df)); [|discriminate].
  simpl. now intros [= _ <-].
Qed.

Lemma row_key_year_month (iy im : nat) (rs : list (row V)) (parsed : list (cell V)) :
  map (cell_at iy) rs = dt_year parsed ->
  map (cell_at im) rs = dt_month parsed ->
  map (row_key [iy; im]) rs = map month_of parsed.
Proof.
  revert parsed. induction rs as [|r rs IH]; intros [|p parsed]; simpl; try discriminate; auto.
  intros [= Hy Hys] [= Hm Hms]. f_equal; [|auto].
  rewrite Hy, Hm. now destruct p.
Qed.

Lemma value_names_columns (keys : list string) (df : DataFrame V) (c : string) :
  In c (value_names keys df) <-> In c (col_names df) /\ mem c keys = false.
Proof.
  unfold value_names, mean_spec, col_names. rewrite map_map. cbn [fst]. split.
  - intros ([c' d] & <- & Hp)%in_map_iff. cbn [fst].
    apply List.filter_In in Hp as [Hp Hq]. cbn [fst] in Hq.
    split; [now apply (in_map fst) in Hp|]. now destruct (mem c' keys).
  - intros [([c' d] & <- & Hp)%in_map_iff Hk]. cbn [fst] in *.
    apply in_map_iff. exists (c', d). split; [reflexivity|].
    apply List.filter_In. split; [exact Hp|]. cbn [fst]. now rewrite Hk.
Qed.

Lemma aggregate_mean_is_group_mean (cs : list (cell V)) :
  aggregate Mean cs = group_mean cs.
Proof.
  unfold aggregate, group_mean, numbers, arithmetic_mean, total.
  destruct (omap num_val cs) as [|v vs]; [|reflexivity].
  destruct (timestamps cs); reflexivity.
Qed.

Lemma aggregate_sum_is_group_total (cs : list (cell V)) :
  aggregate Sum cs = group_total cs.
Proof. reflexivity. Qed.

Lemma dtype_of_get_col (c : string) (d : dtype) (cs : list (cell V)) (df : DataFrame V) :
  get_col c df = Ok (d, cs) -> dtype_of c df = d.
Proof.
  unfold get_col, col_index, dtype_of, position.
  destruct (index_of c (col_names df)); [|discriminate].
  cbn [bind result_monad ret]. now intros [= <- _].
Qed.

Lemma groupby_mean_error (keys : list string) (df : DataFrame V) (e : exn) :
  Forall (fun c => In c (col_names df)) keys ->
  groupby_mean keys df = Raise e ->
  e = mean_error /\ text_free (map (fun c => position c df) keys) keys df = false.
Proof.
  intros Hkeys H.
  destruct (text_free (map (fun c => position c df) keys) keys df) eqn:E.
  - destruct (groupby_mean_spec keys df Hkeys E) as (ks & Hok & _). congruence.
  - rewrite (groupby_mean_refused keys df Hkeys E) in H. now inversion H.
Qed.

(** C4 (the Date column is kept, not dropped): on a table whose dates
    parse and that has no text column besides Date, the stage derives
    (year, month) from every date and emits
    one row per distinct (year, month), in ascending order: the keys first,
    then every other column of the table, the Date column included.  Each
    cell is the mean over the rows of that month: the arithmetic mean of the
    numbers of a numeric column, the mean instant of the dates. *)
Theorem monthly_aggregation_groups_and_averages
    (w : World V) (data : loc) (df : DataFrame V) (d0 : dtype) (cs parsed : list (cell V)) :
  heap w !! data = Some df ->
  wf_frame df = true ->
  get_col "Date" df = Ok (d0, cs) ->
  to_datetime cs = Ok parsed ->
  no_text_column df = true ->
  exists df' avg ks,
    process_monthly_data data w =
      (Ok (length (heap w)),
       {| heap := <[data := df']> (heap w) ++ [avg];
          globals := globals w; ui := ui w |}) /\
    map (row_key [position "Year" df'; position "Month" df']) (rows df')
      = map month_of parsed /\
    (forall m, m <> "Date" -> m <> "Year" -> m <> "Month" -> get_col m df' = get_col m df) /\
    columns avg = [("Year", DNumeric); ("Month", DNumeric)] ++
                  map (fun c => (c, dtype_of c df')) (value_names ["Year"; "Month"] df') /\
    (forall c, In c (value_names ["Year"; "Month"] df') <->
               In c (col_names df') /\ c <> "Year" /\ c <> "Month") /\
    In ("Date", DDatetime) (columns avg) /\
    StronglySorted key_lt ks /\
    (forall k, In k ks <-> In (Some k) (map month_of parsed)) /\
    rows avg =
      map (fun k => map Int k ++
                    map (fun c => group_mean (group_column df' ["Year"; "Month"] k c))
                        (value_names ["Year"; "Month"] df')) ks.
Proof.
  intros Hw Hwf Hdate Hparse Hno.
  destruct (process_monthly_data_runs w data df d0 cs parsed Hw Hwf Hdate Hparse Hno)
    as (df' & avg & Hrun & Hwf' & Hlen & Hd & Hy & Hm & Hother & Hnames & Havg & Hfree).
  assert (Hkeys : Forall (fun c => In c (col_names df')) ["Year"; "Month"]).
  { repeat constructor; eapply get_col_In; eauto. }
  destruct (groupby_mean_spec ["Year"; "Month"] df' Hkeys Hfree)
    as (ks & Havg' & Hsorted & Hks).
  assert (Hrk : map (row_key [position "Year" df'; position "Month" df']) (rows df')
                = map month_of parsed).
  { apply row_key_year_month; eapply get_col_cells; eauto. }
  assert (Hvn : forall c, In c (value_names ["Year"; "Month"] df') <->
                          In c (col_names df') /\ c <> "Year" /\ c <> "Month").
  { intros c. rewrite value_names_columns. cbn -[String.eqb].
    destruct (String.eqb_spec c "Year") as [->|Hy']; cbn -[String.eqb].
    { split; [intros [_ [=]] | intros (_ & Hc & _); congruence]. }
    destruct (String.eqb_spec c "Month") as [->|Hm']; cbn -[String.eqb].
    { split; [intros [_ [=]] | intros (_ & _ & Hc); congruence]. }
    tauto. }
  exists df', avg, ks.
  assert (Eavg : avg = {| columns := map (fun c => (c, DNumeric)) ["Year"; "Month"] ++
                            map (fun c => (c, dtype_of c df'))
                                (value_names ["Year"; "Month"] df');
                          rows := map (fun k => map Int k ++
                            map (fun c => aggregate Mean (group_column df' ["Year"; "Month"] k c))
                                (value_names ["Year"; "Month"] df')) ks |}) by congruence.
  split; [exact Hrun|]. split; [exact Hrk|]. split; [exact Hother|].
  split; [|split; [exact Hvn|split; [|split; [exact Hsorted|split]]]].
  - rewrite Eavg. reflexivity.
  - rewrite Eavg. cbn [columns]. apply in_or_app. right.
    apply in_map_iff. exists "Date". split.
    + f_equal. eapply dtype_of_get_col; eauto.
    + apply Hvn. split; [eapply get_col_In; eauto|]. split; discriminate.
  - intros k. rewrite Hks. cbn [map]. rewrite <- Hrk. rewrite in_map_iff.
    split; intros (r & H1 & H2); exists r; auto.
  - rewrite Eavg. cbn [rows]. apply map_ext. intros k. f_equal.
    apply map_ext. intros c. apply aggregate_mean_is_group_mean.
Qed.


Lemma In_omap {A B} (f : A -> option B) (l : list A) (y : B) :
  In y (omap f l) <-> In (Some y) (map f l).
Proof.
  induction l as [|x l IH]; simpl; [tauto|].
  destruct (f x) as [z|]; simpl; rewrite IH; [|intuition congruence].
  split; intros [H|H]; auto; left; congruence.
Qed.

Lemma omap_ext_map {A B C} (f : A -> option C) (g : B -> option C) (l : list A) (l' : list B) :
  map f l = map g l' -> omap f l = omap g l'.
Proof.
  revert l'. induction l as [|x l IH]; intros [|y l']; simpl; try discriminate; auto.
  intros [= H1 H2]. rewrite H1. unfold omap in IH. rewrite (IH l' H2). reflexivity.
Qed.

Lemma key_lt_sorted_NoDup (ks : list (list Z)) : StronglySorted key_lt ks -> List.NoDup ks.
Proof.
  induction 1 as [|k ks Hs IH Hall]; constructor; [|exact IH].
  intros Hin. rewrite List.Forall_forall in Hall. specialize (Hall k Hin).
  unfold key_lt in Hall. now rewrite key_compare_refl in Hall.
Qed.

(** With distinct keys, the group of a row is that row alone. *)
Lemma singleton_group (idx : list nat) (rs : list (row V)) (r : row V) (k : list Z) :
  List.NoDup (omap (row_key idx) rs) ->
  In r rs -> row_key idx r = Some k ->
  List.filter (in_group idx k) rs = [r].
Proof.
  induction rs as [|x rs IH]; simpl; [tauto|].
  intros Hnd Hin Hk.
  destruct (row_key idx x) as [kx|] eqn:Ex.
  - apply List.NoDup_cons_iff in Hnd as [Hnot Hnd].
    destruct (in_group idx k x) eqn:Eg.
    + apply in_group_key in Eg. assert (kx = k) by congruence. subst kx.
      assert (Hnone : List.filter (in_group idx k) rs = []).
      { destruct (List.filter (in_group idx k) rs) as [|y l] eqn:E; [reflexivity|].
        exfalso. apply Hnot. apply In_omap.
        assert (Hy : In y (List.filter (in_group idx k) rs)) by (rewrite E; now left).
        apply List.filter_In in Hy as [Hy1 Hy2]. apply in_group_key in Hy2.
        rewrite <- Hy2. now apply in_map. }
      rewrite Hnone. destruct Hin as [->|Hin]; [reflexivity|].
      exfalso. apply Hnot. apply In_omap. rewrite <- Hk. now apply in_map.
    + destruct Hin as [->|Hin]; [|auto].
      apply in_group_key in Hk. congruence.
  - destruct (in_group idx k x) eqn:Eg.
    + apply in_group_key in Eg. congruence.
    + destruct Hin as [->|Hin]; [congruence | auto].
Qed.

Lemma aggregate_mean_single `{!MeanOfOne V} (c : cell V) :
  aggregate Mean [c] = own_value c.
Proof.
  unfold aggregate, own_value. cbn [omap list_omap].
  destruct (num_val c) as [v|] eqn:E; cbn [omap list_omap].
  - unfold total. cbn [fold_left length]. now rewrite mean_of_one.
  - unfold timestamps. cbn [omap list_omap]. destruct c; reflexivity.
Qed.

(** C8: when no two rows of the table fall in the same (year, month), the
    aggregate holds, for every dated row, that row's own values (numbers as
    float64; its date as the mean of that one instant), and nothing else.
    The table has no text column besides Date, so that the mean goes
    through. *)
Theorem single_row_months_keep_their_values `{!MeanOfOne V}
    (w : World V) (data : loc) (df : DataFrame V) (d0 : dtype) (cs parsed : list (cell V)) :
  heap w !! data = Some df ->
  wf_frame df = true ->
  get_col "Date" df = Ok (d0, cs) ->
  to_datetime cs = Ok parsed ->
  no_text_column df = true ->
  List.NoDup (omap month_of parsed) ->
  exists df' avg,
    process_monthly_data data w =
      (Ok (length (heap w)),
       {| heap := <[data := df']> (heap w) ++ [avg];
          globals := globals w; ui := ui w |}) /\
    map (row_key [position "Year" df'; position "Month" df']) (rows df')
      = map month_of parsed /\
    (forall m, m <> "Date" -> m <> "Year" -> m <> "Month" -> get_col m df' = get_col m df) /\
    (forall r k,
        In r (rows df') ->
        row_key [position "Year" df'; position "Month" df'] r = Some k ->
        In (map Int k ++ map (fun c => own_value (cell_at (position c df') r))
                             (value_names ["Year"; "Month"] df'))
           (rows avg)) /\
    (forall out,
        In out (rows avg) ->
        exists r k,
          In r (rows df') /\
          row_key [position "Year" df'; position "Month" df'] r = Some k /\
          out = map Int k ++ map (fun c => own_value (cell_at (position c df') r))
                                 (value_names ["Year"; "Month"] df')) /\
    length (rows avg) = length (omap month_of parsed) /\
    (forall c : cell V, numeric_cell c = true -> own_value c = as_float c).
Proof.
  intros Hw Hwf Hdate Hparse Hno Hnd.
  destruct (process_monthly_data_runs w data df d0 cs parsed Hw Hwf Hdate Hparse Hno)
    as (df' & avg & Hrun & Hwf' & Hlen & Hd & Hy & Hm & Hother & Hnames & Havg & Hfree).
  assert (Hkeys : Forall (fun c => In c (col_names df')) ["Year"; "Month"]).
  { repeat constructor; eapply get_col_In; eauto. }
  destruct (groupby_mean_spec ["Year"; "Month"] df' Hkeys Hfree)
    as (ks & Havg' & Hsorted & Hks).
  simpl in Hks.
  assert (Hrk : map (row_key [position "Year" df'; position "Month" df']) (rows df')
                = map month_of parsed).
  { apply row_key_year_month; eapply get_col_cells; eauto. }
  assert (Hnd' : List.NoDup (omap (row_key [position "Year" df'; position "Month" df']) (rows df'))).
  { rewrite (omap_ext_map _ month_of _ parsed); [exact Hnd|].
    rewrite Hrk. reflexivity. }
  assert (Hrow : forall r k,
             In r (rows df') ->
             row_key [position "Year" df'; position "Month" df'] r = Some k ->
             map Int k ++ map (fun c => aggregate Mean (group_column df' ["Year"; "Month"] k c))
                              (value_names ["Year"; "Month"] df')
             = map Int k ++ map (fun c => own_value (cell_at (position c df') r))
                                (value_names ["Year"; "Month"] df')).
  { intros r k Hr Hk. f_equal. apply map_ext. intros c.
    unfold group_column. simpl.
    rewrite (singleton_group _ _ r k Hnd' Hr Hk). simpl.
    apply aggregate_mean_single. }
  assert (Eavg : avg = {| columns := map (fun c => (c, DNumeric)) ["Year"; "Month"] ++
                            map (fun c => (c, dtype_of c df'))
                                (value_names ["Year"; "Month"] df');
                          rows := map (fun k => map Int k ++
                            map (fun c => aggregate Mean (group_column df' ["Year"; "Month"] k c))
                                (value_names ["Year"; "Month"] df')) ks |}) by congruence.
  exists df', avg.
  split; [exact Hrun|]. split; [exact Hrk|]. split; [exact Hother|].
  split; [|split; [|split]].
  - intros r k Hr Hk. rewrite Eavg. simpl.
    rewrite <- (Hrow r k Hr Hk).
    apply in_map_iff. exists k. split; [reflexivity|]. apply Hks. eauto.
  - intros out Hout. rewrite Eavg in Hout. simpl in Hout.
    apply in_map_iff in Hout as (k & <- & Hk).
    apply Hks in Hk as (r & Hr & Hk). exists r, k.
    split; [exact Hr|]. split; [exact Hk|]. now apply Hrow.
  - rewrite Eavg. simpl. rewrite length_map.
    apply Permutation_length. apply Permutation.NoDup_Permutation.
    + now apply key_lt_sorted_NoDup.
    + exact Hnd.
    + intros k. rewrite Hks, In_omap, <- Hrk, in_map_iff.
      split; intros (r & H1 & H2); exists r; auto.
  - intros c Hc. unfold own_value, as_float. destruct c; try discriminate; reflexivity.
Qed.

(** C9: the stage works on the caller's table itself.  When it returns or
    stops at the mean, the object at the caller's location has Year and
    Month columns and parsed dates in its Date column, and every name keeps
    pointing where it did; the aggregate, which exists when the table has no
    text column besides Date, is another object; the only error at that
    point is the one of the mean. *)
Theorem aggregation_changes_the_callers_table
    (w : World V) (data : loc) (df : DataFrame V) (d0 : dtype) (cs parsed : list (cell V)) :
  heap w !! data = Some df ->
  wf_frame df = true ->
  get_col "Date" df = Ok (d0, cs) ->
  to_datetime cs = Ok parsed ->
  exists outcome w' df',
    process_monthly_data data w = (outcome, w') /\
    (no_text_column df = true ->
     exists monthly_avg, outcome = Ok monthly_avg /\ monthly_avg <> data) /\
    (forall e, outcome = Raise e -> e = mean_error) /\
    globals w' = globals w /\
    heap w' !! data = Some df' /\
    has_column "Year" df' = true /\
    has_column "Month" df' = true /\
    get_col "Date" df' = Ok (DDatetime, parsed) /\
    get_col "Year" df' = Ok (DNumeric, dt_year parsed) /\
    get_col "Month" df' = Ok (DNumeric, dt_month parsed) /\
    (has_column "Year" df = false \/ has_column "Month" df = false -> df' <> df).
Proof.
  intros Hw Hwf Hdate Hparse.
  destruct (process_monthly_data_steps w data df d0 cs parsed Hw Hwf Hdate Hparse)
    as (df' & Hrun & Hwf' & Hlen & Hd & Hy & Hm & Hother & Hnames).
  pose proof (lookup_lt_Some _ _ _ Hw) as Hlt.
  assert (Hkeys : Forall (fun c => In c (col_names df')) ["Year"; "Month"]).
  { repeat constructor; eapply get_col_In; eauto. }
  assert (Hhas : forall c x, get_col c df' = Ok x -> has_column c df' = true).
  { intros c x Hc. unfold has_column.
    destruct (index_of c (col_names df')) eqn:E; [reflexivity|].
    apply index_of_None in E. exfalso. apply E. eapply get_col_In; eauto. }
  assert (Hchanged : has_column "Year" df = false \/ has_column "Month" df = false ->
                     df' <> df).
  { intros Hno Heq. subst df'. unfold has_column in Hno, Hhas. unfold with_column in Hnames.
    destruct (index_of "Year" (col_names df)) eqn:Ey.
    - destruct (index_of "Month" (col_names df)) eqn:Em.
      + destruct Hno; discriminate.
      + specialize (Hhas "Month" _ Hm). now rewrite Em in Hhas.
    - specialize (Hhas "Year" _ Hy). now rewrite Ey in Hhas. }
  destruct (groupby_mean ["Year"; "Month"] df') as [avg|e] eqn:Havg.
  - eexists _, _, df'. split; [exact Hrun|].
    split; [intros _; eexists; split; [reflexivity | lia]|].
    split; [intros e [=]|]. split; [reflexivity|]. split.
    { cbn [heap]. rewrite lookup_app_l by (rewrite length_insert; exact Hlt).
      now apply list_lookup_insert_eq. }
    repeat split; eauto.
  - eexists _, _, df'. split; [exact Hrun|].
    split.
    { intros Hno. exfalso.
      pose proof (no_text_after_the_assignments df df'
                    [position "Year" df'; position "Month" df'] parsed Hno Hnames Hd Hother)
        as Hfree.
      destruct (groupby_mean_spec ["Year"; "Month"] df' Hkeys Hfree) as (ks & Hok & _).
      congruence. }
    split.
    { intros e' [= <-]. now apply (groupby_mean_error _ _ _ Hkeys Havg). }
    split; [reflexivity|]. split.
    { cbn [heap]. now apply list_lookup_insert_eq. }
    repeat split; eauto.
Qed.


(** ** The join *)

Lemma mapM_col_index_inv (names : list string) (df : DataFrame V) (idx : list nat) :
  mapM (fun c => col_index c df) names = Ok idx ->
  Forall (fun c => In c (col_names df)) names.
Proof.
  revert idx. induction names as [|c names IH]; simpl; intros idx; [constructor|].
  unfold col_index at 1.
  destruct (index_of c (col_names df)) as [i|] eqn:E; [|discriminate]. simpl.
  destruct (mapM (fun c => col_index c df) names) eqn:E'; [|discriminate].
  intros _. constructor; [|eauto].
  apply index_of_Some in E. apply list_elem_of_In. eapply list_elem_of_lookup_2, E.
Qed.

Lemma row_key_two (i j : nat) (r : row V) (k : list Z) :
  row_key [i; j] r = Some k -> exists y m, k = [y; m].
Proof.
  simpl. destruct (cell_at i r); try discriminate.
  destruct (cell_at j r); try discriminate.
  intros [= <-]. eauto.
Qed.

(** The monthly aggregate starts with the Year and Month columns, and both
    cells are integers in every row. *)
Lemma monthly_aggregate_keys (df agg : DataFrame V) :
  groupby_mean ["Year"; "Month"] df = Ok agg ->
  (exists rest, columns agg = ("Year", DNumeric) :: ("Month", DNumeric) :: rest) /\
  Forall (fun r => exists y m vals, r = Int y :: Int m :: vals) (rows agg).
Proof.
  intros H.
  assert (Hkeys : Forall (fun c => In c (col_names df)) ["Year"; "Month"]).
  { unfold groupby_mean in H.
    destruct (mapM (fun c => col_index c df) ["Year"; "Month"]) eqn:E; [|discriminate].
    eapply mapM_col_index_inv; eauto. }
  destruct (text_free (map (fun c => position c df) ["Year"; "Month"]) ["Year"; "Month"] df)
    eqn:Hfree.
  2:{ rewrite (groupby_mean_refused _ _ Hkeys Hfree) in H. discriminate. }
  destruct (groupby_mean_spec ["Year"; "Month"] df Hkeys Hfree) as (ks & Havg & _ & Hks).
  rewrite H in Havg. injection Havg as ->. simpl. split; [eauto|].
  apply List.Forall_forall. intros r (k & <- & Hk)%in_map_iff.
  apply Hks in Hk as (r0 & _ & Hk). apply row_key_two in Hk as (y & m & ->).
  simpl. eauto.
Qed.

Lemma filter_unique {A K} (key : A -> K) (p : A -> bool) (k : K) (l : list A) :
  List.NoDup (map key l) ->
  (forall x, In x l -> p x = true -> key x = k) ->
  List.filter p l = [] \/ exists x, List.filter p l = [x] /\ In x l /\ p x = true.
Proof.
  induction l as [|a l IH]; simpl; intros Hnd Hk; [now left|].
  apply List.NoDup_cons_iff in Hnd as [Hnot Hnd].
  destruct (p a) eqn:Ea.
  - right. exists a. split; [|auto].
    f_equal. destruct (List.filter p l) as [|b l'] eqn:E; [reflexivity|].
    exfalso. apply Hnot.
    assert (Hb : In b (List.filter p l)) by (rewrite E; now left).
    apply List.filter_In in Hb as [Hb1 Hb2].
    rewrite (Hk a) by auto. rewrite <- (Hk b) by auto. now apply in_map.
  - destruct IH as [H|(x & H1 & H2 & H3)]; auto.
    right. exists x. auto.
Qed.

Lemma case_record_match (y m : Z) (r : row V) :
  case_record r = true ->
  keys_eqb [Int y; Int m] (pick [0%nat; 1%nat] r) = true ->
  exists c, r = [Int y; Int m; c].
Proof.
  destruct r as [|c0 [|c1 [|c2 [|]]]]; try discriminate;
    destruct c0; try discriminate; destruct c1; try discriminate; simpl.
  - intros _ H. apply andb_prop in H as [H1 H2]. apply andb_prop in H2 as [H2 _].
    apply Z.eqb_eq in H1, H2. subst. eauto.
  - intros _ H. apply andb_prop in H as [_ H]. discriminate.
Qed.

(** In a case table with distinct keys, at most one record carries a given
    (year, month). *)
Lemma records_unique (cases : DataFrame V) (y m : Z) :
  forallb case_record (rows cases) = true ->
  List.NoDup (map record_key (rows cases)) ->
  records_for cases y m = [] \/ exists c, records_for cases y m = [[Int y; Int m; c]].
Proof.
  intros Hrec Hnd. unfold records_for. rewrite forallb_forall in Hrec.
  destruct (filter_unique record_key
              (fun r => keys_eqb [Int y; Int m] (pick [0%nat; 1%nat] r))
              (Some y, Some m) (rows cases) Hnd)
    as [H|(r & H1 & H2 & H3)].
  - intros r Hr Hp. destruct (case_record_match y m r (Hrec r Hr) Hp) as (c & ->).
    reflexivity.
  - now left.
  - right. destruct (case_record_match y m r (Hrec r H2) H3) as (c & ->).
    exists c. exact H1.
Qed.

Lemma flat_map_singletons {A B} (f : A -> list B) (g : A -> B) (l : list A) :
  (forall x, In x l -> f x = [g x]) -> flat_map f l = map g l.
Proof.
  induction l as [|a l IH]; simpl; intros H; [reflexivity|].
  rewrite (H a) by auto. simpl. f_equal. auto.
Qed.

Lemma flat_map_ext_in {A B} (f g : A -> list B) (l : list A) :
  (forall x, In x l -> f x = g x) -> flat_map f l = flat_map g l.
Proof.
  induction l as [|a l IH]; simpl; intros H; [reflexivity|].
  rewrite (H a) by auto. f_equal. auto.
Qed.

(** The join of an aggregate with a table that has the case columns. *)
Lemma merge_on_year_month (agg : DataFrame V) (rest : list (string * dtype)) :
  columns agg = ("Year", DNumeric) :: ("Month", DNumeric) :: rest ->
  exists cols,
    forall cases : DataFrame V,
      columns cases = case_columns ->
      merge_left agg cases ["Year"; "Month"] =
      Ok {| columns := cols;
            rows := flat_map (fun l =>
                      match List.filter (fun r => keys_eqb (pick [0%nat; 1%nat] l)
                                                           (pick [0%nat; 1%nat] r))
                                        (rows cases) with
                      | [] => [l ++ [NA]]
                      | ms => map (fun r => l ++ [cell_at 2 r]) ms
                      end) (rows agg) |}.
Proof.
  intros Hcols. eexists. intros cases Hcases.
  unfold merge_left, col_index, col_names. rewrite Hcols, Hcases. reflexivity.
Qed.

Lemma join_with_unique_records (agg cases : DataFrame V) (rest : list (string * dtype)) :
  columns agg = ("Year", DNumeric) :: ("Month", DNumeric) :: rest ->
  Forall (fun r => exists y m vals, r = Int y :: Int m :: vals) (rows agg) ->
  columns cases = case_columns ->
  forallb case_record (rows cases) = true ->
  List.NoDup (map record_key (rows cases)) ->
  exists final,
    merge_left agg cases ["Year"; "Month"] = Ok final /\
    length (rows final) = length (rows agg) /\
    Forall2 (fun l out =>
               exists y m vals,
                 l = Int y :: Int m :: vals /\
                 ((records_for cases y m = [] /\ out = l ++ [NA]) \/
                  (exists c, records_for cases y m = [[Int y; Int m; c]] /\ out = l ++ [c])))
            (rows agg) (rows final).
Proof.
  intros Hcols Hrows Hcases Hrec Hnd.
  destruct (merge_on_year_month agg rest Hcols) as (cols & Hmerge).
  specialize (Hmerge cases Hcases).
  set (attach := fun l : row V =>
         match l with
         | Int y :: Int m :: _ =>
             match records_for cases y m with
             | [] => l ++ [NA]
             | r :: _ => l ++ [cell_at 2 r]
             end
         | _ => l
         end).
  rewrite List.Forall_forall in Hrows.
  assert (Hone : forall l, In l (rows agg) ->
            match List.filter (fun r => keys_eqb (pick [0%nat; 1%nat] l) (pick [0%nat; 1%nat] r))
                              (rows cases) with
            | [] => [l ++ [NA]]
            | ms => map (fun r => l ++ [cell_at 2 r]) ms
            end = [attach l]).
  { intros l Hl. destruct (Hrows l Hl) as (y & m & vals & ->).
    unfold attach.
    change (List.filter
              (fun r => keys_eqb (pick [0%nat; 1%nat] (Int y :: Int m :: vals))
                                 (pick [0%nat; 1%nat] r)) (rows cases))
      with (records_for cases y m).
    destruct (records_unique cases y m Hrec Hnd) as [E | (c & E)]; rewrite E; reflexivity. }
  eexists. split; [exact Hmerge|]. cbn [rows].
  rewrite (flat_map_singletons _ attach _ Hone).
  split; [apply length_map|].
  clear Hone Hmerge. induction (rows agg) as [|l ls IH]; simpl; constructor.
  - destruct (Hrows l (or_introl eq_refl)) as (y & m & vals & ->).
    exists y, m, vals. split; [reflexivity|]. unfold attach.
    destruct (records_unique cases y m Hrec Hnd) as [E | (c & E)]; rewrite E; [left | right]; eauto.
  - apply IH. intros x Hx. apply Hrows. now right.
Qed.

Lemma dengue_columns : columns (dengue_table V) = case_columns.
Proof. reflexivity. Qed.

Lemma dengue_records : forallb case_record (rows (dengue_table V)) = true.
Proof. vm_compute. reflexivity. Qed.

Lemma dengue_keys_distinct : List.NoDup (map record_key (rows (dengue_table V))).
Proof.
  apply NoDup_ListNoDup.
  apply (bool_decide_unpack _). vm_compute. exact I.
Qed.

Lemma literal_lookup_In (y m n : Z) (l : list ((Z * Z) * Z)) :
  literal_lookup y m l = Some n -> In ((y, m), n) l.
Proof.
  induction l as [|[[y' m'] n'] l IH]; cbn [literal_lookup]; [discriminate|].
  destruct ((y =? y') && (m =? m')) eqn:E.
  - apply andb_prop in E as [->%Z.eqb_eq ->%Z.eqb_eq]. intros [= ->]. now left.
  - intros H. right. auto.
Qed.

Lemma holds_record_eq (y m n : Z) (r : row V) :
  holds_record ((y, m), n) r = true -> r = [Int y; Int m; Int n].
Proof.
  intros H. destruct r as [|c0 [|c1 [|c2 [|]]]]; try (cbn in H; discriminate);
    destruct c0; try (cbn in H; discriminate);
    destruct c1; try (cbn in H; discriminate);
    destruct c2; try (cbn in H; discriminate).
  cbn [holds_record fst snd] in H.
  apply andb_prop in H as [[->%Z.eqb_eq ->%Z.eqb_eq]%andb_prop ->%Z.eqb_eq]. reflexivity.
Qed.

(** The records that the join finds for a month are exactly what the
    literal table holds for it: one record with its count, or none. *)
Lemma records_are_literal (cases : DataFrame V) (y m : Z) :
  forallb case_record (rows cases) = true ->
  List.NoDup (map record_key (rows cases)) ->
  forallb matches_literal (rows cases) = true ->
  forallb (fun t => existsb (holds_record t) (rows cases)) literal_records = true ->
  (records_for cases y m = [] /\ literal_count y m = None) \/
  (exists n, records_for cases y m = [[Int y; Int m; Int n]] /\ literal_count y m = Some n).
Proof.
  intros Hrec Hnd Hsound Hcomplete.
  destruct (records_unique cases y m Hrec Hnd) as [Hnone | (c & Hone)].
  - left. split; [exact Hnone|].
    destruct (literal_count y m) as [n|] eqn:E; [|reflexivity]. exfalso.
    apply literal_lookup_In in E.
    rewrite List.forallb_forall in Hcomplete. specialize (Hcomplete _ E).
    apply existsb_exists in Hcomplete as (r & Hr & Hh).
    apply holds_record_eq in Hh. subst r.
    assert (Hin : In [Int y; Int m; Int n] (records_for cases y m)).
    { unfold records_for. apply List.filter_In. split; [exact Hr|].
      cbn. now rewrite !Z.eqb_refl. }
    rewrite Hnone in Hin. destruct Hin.
  - right.
    assert (Hin : In [Int y; Int m; c] (rows cases)).
    { assert (H : In [Int y; Int m; c] (records_for cases y m)) by (rewrite Hone; now left).
      unfold records_for in H. now apply List.filter_In in H. }
    rewrite List.forallb_forall in Hsound. specialize (Hsound _ Hin).
    cbn [matches_literal] in Hsound. destruct c; try discriminate.
    destruct (literal_count y m) as [n'|]; [|discriminate].
    apply Z.eqb_eq in Hsound. subst n'. eauto.
Qed.

Lemma dengue_matches_literal : forallb matches_literal (rows (dengue_table V)) = true.
Proof. vm_compute. reflexivity. Qed.

Lemma dengue_holds_literal :
  forallb (fun t => existsb (holds_record t) (rows (dengue_table V))) literal_records = true.
Proof. vm_compute. reflexivity. Qed.

(** C1: joining the monthly aggregate with the reshaped case records on
    (Year, Month) keeps every aggregate row exactly once and in order.  The
    row of month (y, m) gets the count that the literal table of lines
    68-83 holds for year y under the abbreviation of month m, which is the
    count of the one record the join matches; it gets a null when the
    literal table has no such cell, and then no record matches. *)
Theorem join_keeps_every_aggregate_row_once (df agg : DataFrame V) :
  groupby_mean ["Year"; "Month"] df = Ok agg ->
  exists final,
    merge_left agg (dengue_table V) ["Year"; "Month"] = Ok final /\
    length (rows final) = length (rows agg) /\
    Forall2 (fun l out =>
               exists y m vals,
                 l = Int y :: Int m :: vals /\
                 out = l ++ [count_cell y m] /\
                 ((case_records_for y m = [] /\ literal_count y m = None) \/
                  (exists n, case_records_for y m = [[Int y; Int m; Int n]] /\
                             literal_count y m = Some n)))
            (rows agg) (rows final).
Proof.
  intros Hagg.
  destruct (monthly_aggregate_keys df agg Hagg) as [[rest Hcols] Hrows].
  destruct (join_with_unique_records agg (dengue_table V) rest Hcols Hrows
              dengue_columns dengue_records dengue_keys_distinct)
    as (final & Hmerge & Hlen & Hall).
  exists final. split; [exact Hmerge|]. split; [exact Hlen|].
  eapply Forall2_impl; [exact Hall|].
  intros l out (y & m & vals & -> & Hout). exists y, m, vals. split; [reflexivity|].
  unfold case_records_for, count_cell.
  destruct (records_are_literal (dengue_table V) y m dengue_records dengue_keys_distinct
              dengue_matches_literal dengue_holds_literal)
    as [[Hnone Hlit] | (n & Hone & Hlit)]; rewrite Hlit.
  - destruct Hout as [[_ ->] | (c & Hc & _)]; [|congruence].
    split; [reflexivity|]. left. split; [assumption | reflexivity].
  - destruct Hout as [[Hc _] | (c & Hc & ->)]; [congruence|].
    assert (c = Int n) by congruence. subst c.
    split; [reflexivity|]. right. eauto.
Qed.

Lemma Forall2_of_map_eq {A B C} (f : A -> C) (g : B -> C) (l : list A) (l' : list B) :
  map f l = map g l' -> Forall2 (fun a b => f a = g b) l l'.
Proof.
  revert l'. induction l as [|a l IH]; intros [|b l']; simpl; try discriminate.
  - constructor.
  - intros [= H1 H2]. constructor; auto.
Qed.

Lemma filter_filter_implied {A} (p q : A -> bool) (l : list A) :
  (forall x, In x l -> p x = true -> q x = true) ->
  List.filter p (List.filter q l) = List.filter p l.
Proof.
  induction l as [|a l IH]; simpl; intros H; [reflexivity|].
  destruct (q a) eqn:Eq; simpl.
  - destruct (p a); [f_equal|]; auto.
  - destruct (p a) eqn:Ep; [|auto].
    rewrite (H a) in Eq by auto. discriminate.
Qed.

Lemma unmapped_label_is_null (s : string) :
  ~ In s month_abbreviations -> map_dict (V:=V) month_mapping (Str s) = NA.
Proof.
  intros H. unfold map_dict.
  assert (E : month_mapping !! s = None).
  { unfold month_mapping. apply not_elem_of_list_to_map_1.
    intros Hin. apply H. apply list_elem_of_In in Hin. exact Hin. }
  now rewrite E.
Qed.

Lemma null_month_no_match (y m : Z) (vals r : row V) :
  null_month r = true ->
  keys_eqb (pick [0%nat; 1%nat] (Int y :: Int m :: vals)) (pick [0%nat; 1%nat] r) = false.
Proof.
  unfold null_month. simpl. destruct (cell_at 1 r); try discriminate.
  intros _. now rewrite andb_false_r.
Qed.

Lemma join_ignores_null_months (agg cases : DataFrame V) (rest : list (string * dtype)) :
  columns agg = ("Year", DNumeric) :: ("Month", DNumeric) :: rest ->
  Forall (fun r => exists y m vals, r = Int y :: Int m :: vals) (rows agg) ->
  columns cases = case_columns ->
  merge_left agg cases ["Year"; "Month"]
  = merge_left agg (without_null_months cases) ["Year"; "Month"].
Proof.
  intros Hcols Hrows Hcases.
  destruct (merge_on_year_month agg rest Hcols) as (cols & Hmerge).
  rewrite (Hmerge cases Hcases), (Hmerge (without_null_months cases) Hcases).
  do 2 f_equal. apply flat_map_ext_in. intros l Hl.
  unfold without_null_months. simpl.
  rewrite filter_filter_implied; [reflexivity|].
  intros r _ Hr. rewrite List.Forall_forall in Hrows.
  destruct (Hrows l Hl) as (y & m & vals & ->).
  destruct (null_month r) eqn:E; [|reflexivity].
  pose proof (null_month_no_match y m vals r E) as Hno.
  simpl in Hr, Hno. congruence.
Qed.

Lemma map_dict_months :
  exists melted long : DataFrame V,
    dengue_melted = Ok melted /\ dengue_df = Ok long /\
    Forall2 (fun before after => cell_at 1 after = map_dict month_mapping (cell_at 1 before))
            (rows melted) (rows long).
Proof.
  do 2 eexists. split; [reflexivity|]. split; [reflexivity|].
  apply Forall2_flip.
  apply (Forall2_of_map_eq (cell_at 1) (fun r => map_dict month_mapping (cell_at 1 r))).
  vm_compute. reflexivity.
Qed.

(** C10: a reshaped record whose label is not a month abbreviation (as
    those of the "Total" column) has a null month number; no such record
    matches a row of the monthly aggregate, and the join is the same as the
    join with the table that leaves those records out. *)
Theorem null_month_records_never_join :
  (exists melted long : DataFrame V,
      dengue_melted = Ok melted /\
      dengue_df = Ok long /\
      Forall2 (fun before after =>
                 forall s, cell_at 1 before = Str s ->
                           ~ In s month_abbreviations ->
                           null_month after = true)
              (rows melted) (rows long) /\
      Forall2 (fun before after => labelled "Total" before = true -> null_month after = true)
              (rows melted) (rows long)) /\
  forall df agg : DataFrame V,
    groupby_mean ["Year"; "Month"] df = Ok agg ->
    Forall (fun l => forall r, null_month r = true ->
                               keys_eqb (pick [0%nat; 1%nat] l) (pick [0%nat; 1%nat] r) = false)
           (rows agg) /\
    merge_left agg (dengue_table V) ["Year"; "Month"]
    = merge_left agg (without_null_months (dengue_table V)) ["Year"; "Month"].
Proof.
  split.
  - destruct map_dict_months as (melted & long & H1 & H2 & H3).
    exists melted, long. split; [exact H1|]. split; [exact H2|].
    split; (eapply Forall2_impl; [exact H3|]); intros before after E; unfold null_month; rewrite E.
    + intros s -> Hs. now rewrite unmapped_label_is_null.
    + unfold labelled. destruct (cell_at 1 before) as [s| | | | |]; try discriminate.
      intros ->%String.eqb_eq. reflexivity.
  - intros df agg Hagg.
    destruct (monthly_aggregate_keys df agg Hagg) as [[rest Hcols] Hrows].
    split.
    + eapply List.Forall_impl; [|exact Hrows].
      intros l (y & m & vals & ->) r Hr. now apply null_month_no_match.
    + exact (join_ignores_null_months agg (dengue_table V) rest Hcols Hrows dengue_columns).
Qed.


(** ** The fetcher *)

Lemma assoc_dict_set {A} (k c : string) (v : A) (l : list (string * A)) :
  assoc c (dict_set k v l) = if String.eqb k c then Some v else assoc c l.
Proof.
  induction l as [|[k' v'] l IH]; simpl.
  - reflexivity.
  - destruct (String.eqb k' k) eqn:E; simpl.
    + apply String.eqb_eq in E. subst k'. destruct (String.eqb k c); reflexivity.
    + rewrite IH. destruct (String.eqb k' c) eqn:E'; [|reflexivity].
      apply String.eqb_eq in E'. subst k'. now rewrite String.eqb_sym, E.
Qed.

Lemma mem_assoc {A} (k : string) (l : list (string * A)) :
  mem k (map fst l) = match assoc k l with Some _ => true | None => false end.
Proof.
  unfold mem. induction l as [|[k' v] l IH]; simpl; [reflexivity|].
  rewrite (String.eqb_sym k k'). destruct (String.eqb k' k); simpl; auto.
Qed.

Lemma dict_set_keys {A} (k : string) (v : A) (l : list (string * A)) :
  map fst (dict_set k v l) = if mem k (map fst l) then map fst l else map fst l ++ [k].
Proof.
  unfold mem. induction l as [|[k' v'] l IH]; simpl; [reflexivity|].
  rewrite (String.eqb_sym k k'). destruct (String.eqb k' k); simpl; [reflexivity|].
  rewrite IH. destruct (existsb (String.eqb k) (map fst l)); reflexivity.
Qed.

Lemma dict_set_NoDup {A} (k : string) (v : A) (l : list (string * A)) :
  List.NoDup (map fst l) -> List.NoDup (map fst (dict_set k v l)).
Proof.
  intros H. rewrite dict_set_keys. destruct (mem k (map fst l)) eqn:E; [exact H|].
  apply NoDup_ListNoDup, NoDup_app. apply NoDup_ListNoDup in H.
  split; [exact H|]. split; [|apply NoDup_singleton].
  intros x Hx ->%list_elem_of_singleton. apply list_elem_of_In, mem_In in Hx. congruence.
Qed.

Lemma fetch_loop_spec (top props series : list (string * json V)) (codes : list string) :
  assoc "properties" top = Some (JObj props) ->
  assoc "parameter" props = Some (JObj series) ->
  (forall c j, In c codes -> assoc c series = Some j -> is_object j = true) ->
  forall (acc : list (string * DataFrame V)) (w : World V),
    List.NoDup (map fst acc) ->
    exists result,
      fetch_loop (JObj top) codes acc w =
        (Ok result,
         {| heap := heap w; globals := globals w;
            ui := ui w ++ map (fun c => StWarning (warning_text c)) (absent_codes series codes) |}) /\
      List.NoDup (map fst result) /\
      forall c, assoc c result =
                if mem c codes
                then match series_frame series c with
                     | Some f => Some f
                     | None => assoc c acc
                     end
                else assoc c acc.
Proof.
  intros Htop Hprops. induction codes as [|p rest IH]; intros Hobj acc w Hnd.
  - exists acc. simpl. rewrite app_nil_r. destruct w. auto.
  - assert (Hrest : forall c j, In c rest -> assoc c series = Some j -> is_object j = true)
      by (intros c j Hc; apply Hobj; now right).
    cbn -[mem absent_codes warning_text]. rewrite Htop.
    cbn -[mem absent_codes warning_text]. rewrite Hprops.
    cbn -[mem absent_codes warning_text].
    unfold absent_codes. cbn -[mem warning_text]. rewrite mem_assoc.
    destruct (assoc p series) as [j|] eqn:Ep.
    + pose proof (Hobj p j (or_introl eq_refl) Ep) as Hj.
      destruct j as [| | | | | |items]; try discriminate.
      set (f := DataFrame_of_items items "Date" p).
      destruct (IH Hrest (dict_set p f acc) w (dict_set_NoDup p f acc Hnd))
        as (result & Hrun & Hnd' & Hassoc).
      exists result. split; [|split; [exact Hnd'|]].
      * cbn -[mem warning_text]. exact Hrun.
      * intros c. rewrite Hassoc, assoc_dict_set. unfold mem. simpl existsb.
        fold (mem c rest). unfold series_frame.
        destruct (String.eqb c p) eqn:E; simpl.
        -- apply String.eqb_eq in E. subst c. rewrite Ep, String.eqb_refl.
           destruct (mem p rest); reflexivity.
        -- rewrite String.eqb_sym, E. reflexivity.
    + destruct (IH Hrest acc
                  {| heap := heap w; globals := globals w;
                     ui := ui w ++ [StWarning (warning_text p)] |} Hnd)
        as (result & Hrun & Hnd' & Hassoc).
      exists result. split; [|split; [exact Hnd'|]].
      * cbn -[mem warning_text]. cbn -[mem warning_text] in Hrun.
        rewrite <- app_assoc in Hrun. exact Hrun.
      * intros c. rewrite Hassoc. unfold mem. simpl existsb.
        fold (mem c rest). unfold series_frame.
        destruct (String.eqb c p) eqn:E; simpl; [|reflexivity].
        apply String.eqb_eq in E. subst c. rewrite Ep.
        destruct (mem p rest); reflexivity.
Qed.


Lemma assoc_mem_keys {A} (k : string) (l : list (string * A)) :
  In k (map fst l) <-> exists v, assoc k l = Some v.
Proof.
  rewrite <- mem_In, mem_assoc. destruct (assoc k l); split; eauto; try discriminate.
  intros (v & [=]).
Qed.

(** C6: when the reply is well shaped, the fetch returns normally whatever
    codes are absent: one warning per absent code, in request order, and a
    mapping with exactly one entry per requested code that the reply has. *)
Theorem absent_codes_warn_and_are_omitted
    (w : World V) (lat0 lon0 : V) (start finish : string) (codes : list string)
    (resp : Response V) (series : list (string * json V)) :
  requests_get BASE_URL (make_query lat0 lon0 start finish codes) = Ok resp ->
  status_code resp = 200 ->
  reply_series resp = Some series ->
  (forall c j, In c codes -> assoc c series = Some j -> is_object j = true) ->
  exists result,
    fetch_nasa_data lat0 lon0 start finish codes w =
      (Ok result,
       {| heap := heap w; globals := globals w;
          ui := ui w ++ map (fun c => StWarning (warning_text c)) (absent_codes series codes) |}) /\
    List.NoDup (map fst result) /\
    (forall c, assoc c result = if mem c codes then series_frame series c else None) /\
    (forall c, In c (map fst result) <-> In c codes /\ In c (map fst series)).
Proof.
  intros Hget Hstatus Hseries Hobj.
  unfold reply_series in Hseries.
  destruct (json_body resp) as [[| | | | | |top]|] eqn:Ebody; try discriminate.
  destruct (assoc "properties" top) as [[| | | | | |props]|] eqn:Etop; try discriminate.
  destruct (assoc "parameter" props) as [[| | | | | |series']|] eqn:Eprops; try discriminate.
  injection Hseries as ->.
  destruct (fetch_loop_spec top props series codes Etop Eprops Hobj [] w (List.NoDup_nil _))
    as (result & Hrun & Hnd & Hassoc).
  assert (Hmap : forall c, assoc c result = if mem c codes then series_frame series c else None).
  { intros c. rewrite Hassoc. destruct (mem c codes); [|reflexivity].
    destruct (series_frame series c); reflexivity. }
  exists result. split; [|split; [exact Hnd|split; [exact Hmap|]]].
  - unfold fetch_nasa_data.
    rewrite (bind_lift_ok _ _ w resp Hget). rewrite Hstatus. cbn [Z.eqb Pos.eqb negb].
    rewrite Ebody.
    rewrite (bind_lift_ok (Ok (JObj top)) _ w (JObj top) eq_refl).
    rewrite (bind_lift_ok (py_in "properties" (JObj top)) _ w true).
    2:{ simpl. rewrite mem_assoc, Etop. reflexivity. }
    erewrite bind_ok; [|].
    2:{ rewrite (bind_lift_ok (py_getitem (JObj top) "properties") _ w (JObj props))
          by (simpl; now rewrite Etop).
        rewrite (bind_lift_ok (py_in "parameter" (JObj props)) _ w true).
        2:{ simpl. rewrite mem_assoc, Eprops. reflexivity. }
        reflexivity. }
    exact Hrun.
  - intros c. rewrite assoc_mem_keys, Hmap, <- mem_In. unfold series_frame.
    destruct (mem c codes) eqn:Ec.
    + rewrite assoc_mem_keys.
      destruct (assoc c series) as [j|] eqn:Ej.
      * apply mem_In in Ec. pose proof (Hobj c j Ec Ej) as Hj.
        destruct j; try discriminate. split; eauto.
      * split; [intros (v & [=]) | intros (_ & v & [=])].
    + split; [intros (v & [=]) | intros ([=] & _)].
Qed.

(** C5: on a reply whose status is not 200 the fetcher raises an error that
    carries the status and the raw body; the run builds no table beyond the
    case table of lines 86-94 (no aggregation, no join), shows that one
    error, and stops at the first statement that needs the joined table. *)
Theorem failed_fetch_skips_the_pipeline (resp : Response V) :
  requests_get BASE_URL (make_query lat lon start_date end_date parameters) = Ok resp ->
  status_code resp <> 200 ->
  (forall w,
      fetch_nasa_data lat lon start_date end_date parameters w =
      (Raise (Exception ("Error fetching data: " +:+ pretty (status_code resp)
                           +:+ " - " +:+ text resp)), w)) /\
  exists w',
    script (empty_world V) = (Raise (NameError "final_df"), w') /\
    heap w' = heap (case_store V) /\
    globals w' = globals (case_store V) /\
    List.filter is_error (ui w') =
      [StError ("Error fetching data: Error fetching data: "
                  +:+ pretty (status_code resp) +:+ " - " +:+ text resp)] /\
    (forall t, figure_data t (ui w') = None).
Proof.
  intros Hget Hstatus.
  assert (Hfetch : forall w,
             fetch_nasa_data lat lon start_date end_date parameters w =
             (Raise (Exception (fetch_error_text resp)), w)).
  { intros w. unfold fetch_nasa_data.
    rewrite (bind_lift_ok _ _ w resp Hget).
    apply Z.eqb_neq in Hstatus. rewrite Hstatus. reflexivity. }
  split; [exact Hfetch|].
  eexists. split; [|split; [|split; [|split]]].
  - unfold script. rewrite dengue_df_value.
    erewrite bind_ok by reflexivity.
    erewrite bind_ok by reflexivity.
    erewrite bind_ok by reflexivity.
    erewrite bind_ok by reflexivity.
    erewrite bind_ok by reflexivity.
    erewrite bind_ok by reflexivity.
    erewrite bind_ok by reflexivity.
    erewrite bind_ok.
    2:{ unfold try_except, pipeline. erewrite bind_raise by apply Hfetch. reflexivity. }
    apply bind_raise. reflexivity.
  - reflexivity.
  - reflexivity.
  - reflexivity.
  - intros t. reflexivity.
Qed.

End Properties.

(** ** The runs on concrete replies *)

#[global] Instance Q_mean_of_one : MeanOfOne Q.
Proof.
  intros [n d].
  cbv [vdiv vadd of_Z Q_numeric Qdiv Qmult Qplus Qinv inject_Z Qnum Qden].
  simpl. f_equal; lia.
Qed.

(** The specification's example: one observation on 2019-07-15 with
    T2M = 30 and PRECTOTCORR = 5 joins the 27 cases of July 2019. *)
Example july_2019_joins_27_cases :
  exists l w' avg final,
    process_monthly_data 0%nat (world_with one_day_table) = (Ok l, w') /\
    heap w' !! l = Some avg /\
    merge_left avg (dengue_table Q) ["Year"; "Month"] = Ok final /\
    In [Int 2019; Int 7; Ts {| ts_year := 2019; ts_month := 7; ts_day := 15; ts_nanos := 0 |};
        Num (30 # 1); Num (5 # 1); Int 27] (rows final).
Proof.
  do 4 eexists. split; [vm_compute; reflexivity|].
  split; [vm_compute; reflexivity|].
  split; [vm_compute; reflexivity|].
  vm_compute. tauto.
Qed.

(** C7 (the code departs from it): lines 129-130 filter a copy of the
    monthly table that nothing reads afterwards.  On a reply where August
    2019 has temperature -999, the filtered copy loses the August row, but
    the joined table keeps it, and the yearly overview, the scatter plots,
    the pair plot and the heatmap are all computed with it. *)
Theorem floor_filter_misses_the_joined_table :
  exists w' monthly final,
    script (net := sentinel_service) (empty_world Q) = (Ok tt, w') /\
    table_of "monthly_data" w' = Some monthly /\
    rows monthly = [[Int 2019; Int 7; Ts mid_july; Num (62 # 2); Num (12 # 2)]] /\
    table_of "final_df" w' = Some final /\
    In [Int 2019; Int 8; Ts first_of_august; Num (-999 # 1); Num (1 # 1); Int 684]
       (rows final) /\
    figure_data "Yearly Temperature and Rainfall Trends" (ui w') =
      Some {| columns := [("Year", DNumeric); ("T2M", DNumeric);
                          ("PRECTOTCORR", DNumeric); ("Dengue Cases", DNumeric)];
              rows := [[Int 2019; Num (-1936 # 4); Num (14 # 4); Num (711 # 1)]] |} /\
    figure_data "Temperature vs Dengue Cases (Year and Month Info)" (ui w') = Some final /\
    figure_data "3D Scatter Plot of Temperature, Rainfall, Dengue Cases, and Month" (ui w')
      = Some final /\
    (exists pairs,
        figure_data "Pair Plot of Temperature, Rainfall, and Dengue Cases by Month" (ui w')
          = Some pairs /\
        In [Num (-999 # 1); Num (1 # 1); Int 684; Int 2019; Int 8] (rows pairs)) /\
    (exists heat,
        figure_data "Heatmap - Temperature, Rainfall & Dengue Cases by Month" (ui w')
          = Some heat /\
        In [Int 8; Num (-999 # 1); Num (1 # 1); Num (684 # 1)] (rows heat)).
Proof.
  do 3 eexists. split; [vm_compute; reflexivity|].
  split; [vm_compute; reflexivity|].
  split; [vm_compute; reflexivity|].
  split; [vm_compute; reflexivity|].
  split; [vm_compute; tauto|].
  split; [vm_compute; reflexivity|].
  split; [vm_compute; reflexivity|].
  split; [vm_compute; reflexivity|].
  split; eexists; (split; [vm_compute; reflexivity | vm_compute; tauto]).
Qed.

(** The message of the failed fetch, as the page shows it. *)
Example unavailable_message :
  fetch_error_text unavailable = "Error fetching data: 503 - Service Unavailable".
Proof. vm_compute. reflexivity. Qed.

(** In a complete run, the name [combined_data] ends up bound to the table
    with the Year and Month columns that the stage added. *)
Example combined_data_after_the_run :
  exists w',
    script (net := sentinel_service) (empty_world Q) = (Ok tt, w') /\
    table_of "combined_data" w' = Some three_day_after.
Proof. eexists. split; vm_compute; reflexivity. Qed.

(** With the temperature series absent, the join is still made, line 129
    then fails on the missing column, and the selection of line 181 stops
    the run. *)
Example run_without_temperature :
  exists w' final,
    script (net := partial_service) (empty_world Q)
      = (Raise (KeyError "['T2M'] not in index"), w') /\
    table_of "final_df" w' = Some final /\
    List.filter is_error (ui w') = [StError "Error fetching data: 'T2M'"].
Proof. do 2 eexists. split; [|split]; vm_compute; reflexivity. Qed.

(** C4, as the specification words it, fails on the three-day table, whose
    dates all parse: its Date column is not numeric, neither as fetched nor
    once parsed, and the aggregate does not drop it.  It keeps it, with the
    mean instant of each month, so that not every column of the aggregate
    is numeric. *)
Lemma mean_keeps_the_date_column :
  exists monthly_avg w' df' avg,
    process_monthly_data 0%nat (world_with three_day_table) = (Ok monthly_avg, w') /\
    heap w' !! 0%nat = Some df' /\
    heap w' !! monthly_avg = Some avg /\
    is_numeric (dtype_of "Date" three_day_table) = false /\
    is_numeric (dtype_of "Date" df') = false /\
    has_column "Date" avg = true /\
    get_col "Date" avg = Ok (DDatetime, [Ts mid_july; Ts first_of_august]) /\
    ~ (forall c, has_column c avg = true -> is_numeric (dtype_of c avg) = true).
Proof.
  do 4 eexists. split; [vm_compute; reflexivity|].
  split; [vm_compute; reflexivity|].
  split; [vm_compute; reflexivity|].
  split; [vm_compute; reflexivity|].
  split; [vm_compute; reflexivity|].
  split; [vm_compute; reflexivity|].
  split; [vm_compute; reflexivity|].
  intros H. specialize (H "Date" eq_refl). vm_compute in H. discriminate.
Qed.

(** A text column beside the dates stops the stage at the mean, with the
    caller's table already changed. *)
Example station_names_stop_the_mean :
  process_monthly_data 0%nat (world_with stationed_table)
    = (Raise mean_error, world_with stationed_after).
Proof. vm_compute. reflexivity. Qed.

(** ** The theorems at concrete inputs *)

Lemma join_on_three_days :
  groupby_mean ["Year"; "Month"] three_day_after = Ok three_day_monthly /\
  (exists final,
      merge_left three_day_monthly (dengue_table Q) ["Year"; "Month"] = Ok final /\
      length (rows final) = length (rows three_day_monthly) /\
      Forall2 (fun l out =>
                 exists y m vals,
                   l = Int y :: Int m :: vals /\
                   out = l ++ [count_cell y m] /\
                   ((case_records_for y m = [] /\ literal_count y m = None) \/
                    (exists n, case_records_for y m = [[Int y; Int m; Int n]] /\
                               literal_count y m = Some n)))
              (rows three_day_monthly) (rows final)) /\
  merge_left three_day_monthly (dengue_table Q) ["Year"; "Month"] = Ok three_day_joined /\
  count_cell (V := Q) 2019 7 = Int 27 /\
  count_cell (V := Q) 2030 7 = NA.
Proof.
  split; [vm_compute; reflexivity|].
  split; [|split; [|split]; vm_compute; reflexivity].
  apply (join_keeps_every_aggregate_row_once three_day_after three_day_monthly).
  vm_compute; reflexivity.
Defined.

Lemma aggregation_of_three_days :
  heap (world_with three_day_table) !! 0%nat = Some three_day_table /\
  wf_frame three_day_table = true /\
  get_col "Date" three_day_table = Ok (DObject, three_day_dates) /\
  to_datetime three_day_dates = Ok three_day_parsed /\
  no_text_column three_day_table = true /\
  (exists df' avg ks,
    process_monthly_data 0%nat (world_with three_day_table) =
      (Ok (length (heap (world_with three_day_table))),
       {| heap := <[0%nat := df']> (heap (world_with three_day_table)) ++ [avg];
          globals := globals (world_with three_day_table);
          ui := ui (world_with three_day_table) |}) /\
    map (row_key [position "Year" df'; position "Month" df']) (rows df')
      = map month_of three_day_parsed /\
    (forall m, m <> "Date" -> m <> "Year" -> m <> "Month" ->
               get_col m df' = get_col m three_day_table) /\
    columns avg = [("Year", DNumeric); ("Month", DNumeric)] ++
                  map (fun c => (c, dtype_of c df')) (value_names ["Year"; "Month"] df') /\
    (forall c, In c (value_names ["Year"; "Month"] df') <->
               In c (col_names df') /\ c <> "Year" /\ c <> "Month") /\
    In ("Date", DDatetime) (columns avg) /\
    StronglySorted key_lt ks /\
    (forall k, In k ks <-> In (Some k) (map month_of three_day_parsed)) /\
    rows avg =
      map (fun k => map Int k ++
                    map (fun c => group_mean (group_column df' ["Year"; "Month"] k c))
                        (value_names ["Year"; "Month"] df')) ks) /\
  process_monthly_data 0%nat (world_with three_day_table) =
    (Ok 1%nat, {| heap := [three_day_after; three_day_monthly];
                  globals := globals (world_with three_day_table);
                  ui := [] |}).
Proof.
  split; [reflexivity|]. split; [reflexivity|]. split; [reflexivity|].
  split; [vm_compute; reflexivity|]. split; [reflexivity|].
  split; [|vm_compute; reflexivity].
  apply (monthly_aggregation_groups_and_averages
           (world_with three_day_table) 0%nat three_day_table DObject
           three_day_dates three_day_parsed);
    [reflexivity | reflexivity | reflexivity | vm_compute; reflexivity | reflexivity].
Defined.

Lemma one_observation_per_month :
  heap (world_with one_day_table) !! 0%nat = Some one_day_table /\
  wf_frame one_day_table = true /\
  get_col "Date" one_day_table = Ok (DObject, one_day_dates) /\
  to_datetime one_day_dates = Ok one_day_parsed /\
  no_text_column one_day_table = true /\
  List.NoDup (omap month_of one_day_parsed) /\
  exists df' avg,
    process_monthly_data 0%nat (world_with one_day_table) =
      (Ok (length (heap (world_with one_day_table))),
       {| heap := <[0%nat := df']> (heap (world_with one_day_table)) ++ [avg];
          globals := globals (world_with one_day_table);
          ui := ui (world_with one_day_table) |}) /\
    map (row_key [position "Year" df'; position "Month" df']) (rows df')
      = map month_of one_day_parsed /\
    (forall m, m <> "Date" -> m <> "Year" -> m <> "Month" ->
               get_col m df' = get_col m one_day_table) /\
    (forall r k,
        In r (rows df') ->
        row_key [position "Year" df'; position "Month" df'] r = Some k ->
        In (map Int k ++ map (fun c => own_value (cell_at (position c df') r))
                             (value_names ["Year"; "Month"] df'))
           (rows avg)) /\
    (forall out,
        In out (rows avg) ->
        exists r k,
          In r (rows df') /\
          row_key [position "Year" df'; position "Month" df'] r = Some k /\
          out = map Int k ++ map (fun c => own_value (cell_at (position c df') r))
                                 (value_names ["Year"; "Month"] df')) /\
    length (rows avg) = length (omap month_of one_day_parsed) /\
    (forall c : cell Q, numeric_cell c = true -> own_value c = as_float c).
Proof.
  assert (Hnd : List.NoDup (omap month_of one_day_parsed)).
  { apply NoDup_ListNoDup. apply (bool_decide_unpack _). vm_compute. exact I. }
  split; [reflexivity|]. split; [reflexivity|]. split; [reflexivity|].
  split; [vm_compute; reflexivity|]. split; [reflexivity|]. split; [exact Hnd|].
  apply (single_row_months_keep_their_values
           (world_with one_day_table) 0%nat one_day_table DObject
           one_day_dates one_day_parsed);
    [reflexivity | reflexivity | reflexivity | vm_compute; reflexivity | reflexivity
     | exact Hnd].
Defined.

Lemma three_day_table_is_changed :
  heap (world_with three_day_table) !! 0%nat = Some three_day_table /\
  wf_frame three_day_table = true /\
  get_col "Date" three_day_table = Ok (DObject, three_day_dates) /\
  to_datetime three_day_dates = Ok three_day_parsed /\
  exists outcome w' df',
    process_monthly_data 0%nat (world_with three_day_table) = (outcome, w') /\
    (no_text_column three_day_table = true ->
     exists monthly_avg, outcome = Ok monthly_avg /\ monthly_avg <> 0%nat) /\
    (forall e, outcome = Raise e -> e = mean_error) /\
    globals w' = globals (world_with three_day_table) /\
    heap w' !! 0%nat = Some df' /\
    has_column "Year" df' = true /\
    has_column "Month" df' = true /\
    get_col "Date" df' = Ok (DDatetime, three_day_parsed) /\
    get_col "Year" df' = Ok (DNumeric, dt_year three_day_parsed) /\
    get_col "Month" df' = Ok (DNumeric, dt_month three_day_parsed) /\
    (has_column "Year" three_day_table = false \/ has_column "Month" three_day_table = false ->
     df' <> three_day_table).
Proof.
  split; [reflexivity|]. split; [reflexivity|]. split; [reflexivity|].
  split; [vm_compute; reflexivity|].
  apply (aggregation_changes_the_callers_table
           (world_with three_day_table) 0%nat three_day_table DObject
           three_day_dates three_day_parsed);
    [reflexivity | reflexivity | reflexivity | vm_compute; reflexivity].
Defined.

Lemma service_unavailable :
  requests_get (Network := failing_service) BASE_URL
    (make_query lat lon start_date end_date parameters) = Ok unavailable /\
  status_code unavailable <> 200 /\
  (forall w,
      fetch_nasa_data (net := failing_service) lat lon start_date end_date parameters w =
      (Raise (Exception ("Error fetching data: " +:+ pretty (status_code unavailable)
                           +:+ " - " +:+ text unavailable)), w)) /\
  exists w',
    script (net := failing_service) (empty_world Q) = (Raise (NameError "final_df"), w') /\
    heap w' = heap (case_store Q) /\
    globals w' = globals (case_store Q) /\
    List.filter is_error (ui w') =
      [StError ("Error fetching data: Error fetching data: "
                  +:+ pretty (status_code unavailable) +:+ " - " +:+ text unavailable)] /\
    (forall t, figure_data t (ui w') = None).
Proof.
  split; [reflexivity|]. split; [discriminate|].
  apply (failed_fetch_skips_the_pipeline (net := failing_service) unavailable);
    [reflexivity | discriminate].
Defined.

Lemma temperature_series_absent :
  requests_get (Network := partial_service) BASE_URL
    (make_query lat lon start_date end_date parameters)
    = Ok (reply_with [("PRECTOTCORR", series_PRECTOTCORR)]) /\
  status_code (reply_with [("PRECTOTCORR", series_PRECTOTCORR)]) = 200 /\
  reply_series (reply_with [("PRECTOTCORR", series_PRECTOTCORR)])
    = Some [("PRECTOTCORR", series_PRECTOTCORR)] /\
  (forall c j, In c parameters ->
               assoc c [("PRECTOTCORR", series_PRECTOTCORR)] = Some j ->
               is_object j = true) /\
  exists result,
    fetch_nasa_data (net := partial_service) lat lon start_date end_date parameters
                    (empty_world Q) =
      (Ok result,
       {| heap := heap (empty_world Q); globals := globals (empty_world Q);
          ui := ui (empty_world Q) ++
                map (fun c => StWarning (warning_text c))
                    (absent_codes [("PRECTOTCORR", series_PRECTOTCORR)] parameters) |}) /\
    List.NoDup (map fst result) /\
    (forall c, assoc c result =
               if mem c parameters
               then series_frame [("PRECTOTCORR", series_PRECTOTCORR)] c else None) /\
    (forall c, In c (map fst result) <->
               In c parameters /\ In c (map fst [("PRECTOTCORR", series_PRECTOTCORR)])).
Proof.
  assert (Hobj : forall c j, In c parameters ->
                   assoc c [("PRECTOTCORR", series_PRECTOTCORR)] = Some j ->
                   is_object j = true).
  { intros c j [<-|[<-|[]]]; simpl; intros [= <-]. reflexivity. }
  split; [reflexivity|]. split; [reflexivity|]. split; [reflexivity|].
  split; [exact Hobj|].
  apply (absent_codes_warn_and_are_omitted (net := partial_service)
           (empty_world Q) lat lon start_date end_date parameters
           (reply_with [("PRECTOTCORR", series_PRECTOTCORR)])
           [("PRECTOTCORR", series_PRECTOTCORR)]);
    [reflexivity | reflexivity | reflexivity | exact Hobj].
Defined.

Lemma totals_do_not_join_three_days :
  groupby_mean ["Year"; "Month"] three_day_after = Ok three_day_monthly /\
  Forall (fun l => forall r, null_month r = true ->
                             keys_eqb (pick [0%nat; 1%nat] l) (pick [0%nat; 1%nat] r) = false)
         (rows three_day_monthly) /\
  merge_left three_day_monthly (dengue_table Q) ["Year"; "Month"]
  = merge_left three_day_monthly (without_null_months (dengue_table Q)) ["Year"; "Month"].
Proof.
  split; [vm_compute; reflexivity|].
  apply (proj2 (null_month_records_never_join (V := Q)) three_day_after three_day_monthly).
  vm_compute; reflexivity.
Defined.

(** * The rest of the program *)

Section Coverage.

Context {V : Type} {num : Numeric V} {dp : DateParser} {instants : InstantMean}
        {net : Network V} {charts : Charts V} {correlation : Correlation V}.

(** ** The fetcher: what it leaves alone, and how it fails *)

Lemma fetch_loop_frame (data : json V) (codes : list string) :
  forall (acc : list (string * DataFrame V)) (w w' : World V)
         (r : result (list (string * DataFrame V))),
    fetch_loop data codes acc w = (r, w') ->
    heap w' = heap w /\ globals w' = globals w /\
    exists warned,
      ui w' = ui w ++ map (fun c => StWarning (warning_text c)) warned /\
      sublist warned codes.
Proof.
  induction codes as [|p rest IH]; intros acc w w' r H.
  - injection H as <- <-. repeat split. exists []. split; [now rewrite app_nil_r|].
    constructor.
  - assert (Hstop : forall e, (r, w') = (Raise e, w) ->
              heap w' = heap w /\ globals w' = globals w /\
              exists warned,
                ui w' = ui w ++ map (fun c => StWarning (warning_text c)) warned /\
                sublist warned (p :: rest)).
    { intros e [= -> ->]. repeat split. exists []. rewrite app_nil_r.
      split; [reflexivity | apply sublist_nil_l]. }
    cbn -[warning_text py_in py_getitem py_items] in H.
    destruct (py_getitem data "properties") as [props|e] eqn:E1;
      [|symmetry in H; eauto].
    destruct (py_getitem props "parameter") as [pm|e] eqn:E2;
      [|symmetry in H; eauto].
    destruct (py_in p pm) as [[|]|e] eqn:E3; [| |symmetry in H; eauto].
    + destruct (py_getitem pm p) as [series|e] eqn:E4; [|symmetry in H; eauto].
      destruct (py_items series) as [items|e] eqn:E5; [|symmetry in H; eauto].
      destruct (IH _ _ _ _ H) as (Hh & Hg & warned & Hu & Hsub).
      repeat split; auto. exists warned. split; [exact Hu|].
      now apply sublist_cons.
    + destruct (IH _ _ _ _ H) as (Hh & Hg & warned & Hu & Hsub).
      simpl in Hh, Hg, Hu. repeat split; auto.
      exists (p :: warned). split.
      * rewrite Hu, <- app_assoc. reflexivity.
      * now apply sublist_skip.
Qed.

Lemma fetch_nasa_data_frame
    (lat0 lon0 : V) (start finish : string) (codes : list string)
    (w w' : World V) (r : result (list (string * DataFrame V))) :
  fetch_nasa_data lat0 lon0 start finish codes w = (r, w') ->
  heap w' = heap w /\ globals w' = globals w /\
  exists warned,
    ui w' = ui w ++ map (fun c => StWarning (warning_text c)) warned /\
    sublist warned codes.
Proof.
  intros H.
  assert (Hsame : forall e, (r, w') = (Raise e, w) ->
            heap w' = heap w /\ globals w' = globals w /\
            exists warned,
              ui w' = ui w ++ map (fun c => StWarning (warning_text c)) warned /\
              sublist warned codes).
  { intros e [= -> ->]. repeat split. exists []. rewrite app_nil_r.
    split; [reflexivity | apply sublist_nil_l]. }
  unfold fetch_nasa_data in H.
  cbn -[fetch_loop py_in py_getitem make_query fetch_error_text Z.eqb] in H.
  destruct (requests_get BASE_URL (make_query lat0 lon0 start finish codes))
    as [resp|e]; [|symmetry in H; eauto].
  destruct (negb (status_code resp =? 200)); [symmetry in H; eauto|].
  cbn -[fetch_loop py_in py_getitem] in H.
  destruct (json_body resp) as [data|]; [|symmetry in H; eauto].
  destruct (py_in "properties" data) as [[|]|e];
    cbn -[fetch_loop py_in py_getitem] in H; try (symmetry in H; eauto; fail).
  destruct (py_getitem data "properties") as [props|e];
    cbn -[fetch_loop py_in py_getitem] in H; try (symmetry in H; eauto; fail).
  destruct (py_in "parameter" props) as [[|]|e];
    cbn -[fetch_loop py_in py_getitem] in H; try (symmetry in H; eauto; fail).
  eapply fetch_loop_frame; eauto.
Qed.


(** X2: A 200 reply whose JSON object has no "properties", or whose
    "properties" object has no "parameter", is refused with the fixed
    message; no warning is shown. *)
Theorem shapeless_reply_is_refused
    (lat0 lon0 : V) (start finish : string) (codes : list string)
    (resp : Response V) (top : list (string * json V)) (w : World V) :
  requests_get BASE_URL (make_query lat0 lon0 start finish codes) = Ok resp ->
  status_code resp = 200 ->
  json_body resp = Some (JObj top) ->
  (assoc "properties" top = None \/
   exists props, assoc "properties" top = Some (JObj props) /\
                 assoc "parameter" props = None) ->
  fetch_nasa_data lat0 lon0 start finish codes w =
  (Raise (Exception "No climate data found for the given parameters."), w).
Proof.
  intros Hget Hstatus Hbody Hshape. unfold fetch_nasa_data.
  rewrite (bind_lift_ok _ _ w resp Hget). rewrite Hstatus. cbn [Z.eqb Pos.eqb negb].
  rewrite Hbody.
  rewrite (bind_lift_ok (Ok (JObj top)) _ w (JObj top) eq_refl).
  destruct Hshape as [Hnone | (props & Hprops & Hnone)].
  - rewrite (bind_lift_ok (py_in "properties" (JObj top)) _ w false).
    2:{ simpl. rewrite mem_assoc, Hnone. reflexivity. }
    reflexivity.
  - rewrite (bind_lift_ok (py_in "properties" (JObj top)) _ w true).
    2:{ simpl. rewrite mem_assoc, Hprops. reflexivity. }
    erewrite bind_ok.
    2:{ rewrite (bind_lift_ok (py_getitem (JObj top) "properties") _ w (JObj props))
          by (simpl; now rewrite Hprops).
        rewrite (bind_lift_ok (py_in "parameter" (JObj props)) _ w false).
        2:{ simpl. rewrite mem_assoc, Hnone. reflexivity. }
        reflexivity. }
    reflexivity.
Qed.

(** ** The join in general *)

Lemma has_column_In (c : string) (df : DataFrame V) :
  has_column c df = true <-> In c (col_names df).
Proof.
  unfold has_column. destruct (index_of c (col_names df)) as [i|] eqn:E.
  - split; [intros _|reflexivity]. apply index_of_Some in E.
    apply list_elem_of_In. eapply list_elem_of_lookup_2, E.
  - split; [discriminate|]. intros H. now apply index_of_None in E.
Qed.

Lemma flat_map_nonempty_length {A B} (f : A -> list B) (l : list A) :
  (forall x, In x l -> f x <> []) -> (length l <= length (flat_map f l))%nat.
Proof.
  induction l as [|a l IH]; simpl; intros H; [lia|].
  rewrite length_app. assert (H1 : f a <> []) by auto.
  assert (H2 : (length l <= length (flat_map f l))%nat) by auto.
  destruct (f a); [congruence | simpl; lia].
Qed.

(** X3: A left join never loses a row of the left table: the output has at
    least as many rows, and every left row opens some output row. *)
Theorem left_join_keeps_left_rows (lhs rhs out : DataFrame V) (on : list string) :
  merge_left lhs rhs on = Ok out ->
  (length (rows lhs) <= length (rows out))%nat /\
  forall l, In l (rows lhs) -> exists tail, In (l ++ tail) (rows out).
Proof.
  unfold merge_left. intros H.
  destruct (mapM (fun c => col_index c lhs) on) as [lidx|]; [|discriminate].
  destruct (mapM (fun c => col_index c rhs) on) as [ridx|]; [|discriminate].
  simpl in H. injection H as <-. cbn [rows]. split.
  - apply flat_map_nonempty_length. intros l _.
    destruct (List.filter _ (rows rhs)); discriminate.
  - intros l Hl.
    destruct (List.filter (fun r => keys_eqb (pick lidx l) (pick ridx r)) (rows rhs))
      as [|r ms] eqn:E.
    + eexists. apply in_flat_map. exists l. split; [exact Hl|]. rewrite E. now left.
    + eexists. apply in_flat_map. exists l. split; [exact Hl|]. rewrite E. now left.
Qed.

(** Columns of the left table keep their names through the join, unless a
    non-key column of the right table has the same name. *)
Lemma left_join_keeps_columns (lhs rhs out : DataFrame V) (on : list string) (c : string) :
  merge_left lhs rhs on = Ok out ->
  In c (col_names lhs) ->
  mem c on = true \/ ~ In c (col_names rhs) ->
  In c (col_names out).
Proof.
  unfold merge_left. intros H Hc Hfree.
  destruct (mapM (fun c => col_index c lhs) on) as [lidx|]; [|discriminate].
  destruct (mapM (fun c => col_index c rhs) on) as [ridx|]; [|discriminate].
  simpl in H. injection H as <-. unfold col_names at 1. cbn [columns].
  rewrite map_app. apply in_or_app. left.
  unfold col_names in Hc. apply in_map_iff in Hc as (p & <- & Hp).
  rewrite map_map. apply in_map_iff. exists p. split; [|exact Hp].
  destruct (mem (fst p) on) eqn:Eon; simpl; [reflexivity|].
  match goal with |- context [mem (fst p) ?rn] => destruct (mem (fst p) rn) eqn:Emem end;
    [|reflexivity]. exfalso.
  destruct Hfree as [Hon|Hno]; [discriminate|].
  apply Hno. apply mem_In in Emem.
  apply in_map_iff in Emem as (q & Hq & Hin). rewrite <- Hq.
  apply List.filter_In in Hin as [Hin _]. apply enumerate_snd in Hin.
  unfold col_names. now apply in_map.
Qed.

Lemma col_index_In (c : string) (df : DataFrame V) (i : nat) :
  col_index c df = Ok i -> In c (col_names df).
Proof.
  unfold col_index. destruct (index_of c (col_names df)) eqn:E; [|discriminate].
  intros _. apply index_of_Some in E. apply list_elem_of_In. eapply list_elem_of_lookup_2, E.
Qed.

Lemma merge_keys_exist (lhs rhs out : DataFrame V) (on : list string) :
  merge_left lhs rhs on = Ok out -> Forall (fun c => In c (col_names lhs)) on.
Proof.
  unfold merge_left. intros H.
  destruct (mapM (fun c => col_index c lhs) on) as [lidx|] eqn:E; [|discriminate].
  eapply mapM_col_index_inv; eauto.
Qed.

Lemma filter_ge_column (c : string) (b : Z) (df out : DataFrame V) :
  filter_ge c b df = Ok out -> In c (col_names df) /\ columns out = columns df.
Proof.
  unfold filter_ge. destruct (col_index c df) as [i|] eqn:E; [|discriminate].
  simpl. intros [= <-]. split; [eapply col_index_In; eauto | reflexivity].
Qed.

(** X4: Lines 124-140: when both floor filters of lines 129-130 pass, the
    joined table has the T2M and PRECTOTCORR columns, so both column tests
    that guard the monthly charts hold whenever they are reached. *)
Theorem floor_filters_imply_column_guards (monthly warm wet final : DataFrame V) :
  merge_left monthly (dengue_table V) ["Year"; "Month"] = Ok final ->
  filter_ge "T2M" (-5) monthly = Ok warm ->
  filter_ge "PRECTOTCORR" 0 warm = Ok wet ->
  has_column "T2M" final = true /\ has_column "PRECTOTCORR" final = true.
Proof.
  intros Hmerge Hwarm Hwet.
  apply filter_ge_column in Hwarm as [HT Hcols].
  apply filter_ge_column in Hwet as [HP _].
  unfold col_names in HP. rewrite Hcols in HP. fold (col_names monthly) in HP.
  assert (Hfree : forall c, c <> "Year" -> c <> "Month" -> c <> "Dengue Cases" ->
                            ~ In c (col_names (dengue_table V))).
  { intros c H1 H2 H3. unfold col_names. rewrite dengue_columns. simpl. intuition congruence. }
  split; apply has_column_In; eapply left_join_keeps_columns; eauto;
    right; apply Hfree; discriminate.
Qed.

(** ** Reshaping and concatenation *)

Lemma filter_enumerate_length {A} (f : A -> bool) (l : list A) (start : nat) :
  length (List.filter (fun p => f (snd p)) (combine (seq start (length l)) l))
  = length (List.filter f l).
Proof.
  revert start. induction l as [|a l IH]; intros start; simpl; [reflexivity|].
  destruct (f a); simpl; rewrite IH; reflexivity.
Qed.

Lemma flat_map_const_length {A B} (f : A -> list B) (l : list A) (n : nat) :
  (forall x, length (f x) = n) -> length (flat_map f l) = (length l * n)%nat.
Proof.
  intros H. induction l as [|a l IH]; simpl; [reflexivity|].
  rewrite length_app, H, IH. lia.
Qed.

(** X5: [pd.melt] gives one record per row and per column that is not an id
    column, and every record has the id cells, a label and a value. *)
Theorem melt_record_count (df out : DataFrame V) (ids : list string) (var value : string) :
  melt df ids var value = Ok out ->
  length (rows out)
  = (length (List.filter (fun p => negb (mem (fst p) ids)) (columns df))
     * length (rows df))%nat /\
  col_names out = ids ++ [var; value] /\
  wf_frame out = true.
Proof.
  unfold melt. intros H.
  destruct (mapM (fun c => col_index c df) ids) as [idx|] eqn:E; [|discriminate].
  simpl in H. injection H as <-. cbn [rows columns]. split; [|split].
  - rewrite (flat_map_const_length _ _ (length (rows df))).
    + f_equal. unfold enumerate.
      apply (filter_enumerate_length (fun p => negb (mem (fst p) ids))).
    + intros x. apply length_map.
  - unfold col_names. cbn [columns]. rewrite map_app. simpl. f_equal.
    clear -E. revert idx E. induction ids as [|c ids IH]; intros idx; simpl.
    + now intros [= <-].
    + unfold col_index at 1.
      destruct (index_of c (col_names df)) as [i|] eqn:Ei; simpl; [|discriminate].
      destruct (mapM (fun c => col_index c df) ids) as [idx'|]; simpl; [|discriminate].
      intros [= <-]. simpl. f_equal; [|now apply IH].
      apply index_of_Some in Ei.
      change c with (fst (c, DObject)).
      rewrite <- (map_nth fst). cbn [fst].
      fold (col_names df). rewrite nth_lookup, Ei. reflexivity.
  - unfold wf_frame. cbn [rows columns]. apply forallb_forall.
    intros r (p & _ & Hr)%in_flat_map. apply in_map_iff in Hr as (r0 & <- & _).
    apply Nat.eqb_eq. rewrite !length_app. unfold pick. rewrite !length_map. reflexivity.
Qed.


Lemma map_seq_lookup2 {A B C} (G : option A -> option B -> C) (l1 : list A) (l2 : list B) :
  length l1 = length l2 ->
  forall start,
    map (fun i => G (l1 !! (i - start)%nat) (l2 !! (i - start)%nat)) (seq start (length l1))
    = zip_with (fun a b => G (Some a) (Some b)) l1 l2.
Proof.
  revert l2. induction l1 as [|a l1 IH]; intros [|b l2]; simpl; try discriminate; auto.
  intros [= Hlen] start. rewrite Nat.sub_diag. simpl. f_equal.
  rewrite <- (IH l2 Hlen (S start)). apply map_ext_in.
  intros i Hi. apply in_seq in Hi.
  replace (i - start)%nat with (S (i - S start)) by lia. reflexivity.
Qed.

Lemma lookup_map {A B} (f : A -> B) (l : list A) (i : nat) :
  map f l !! i = option_map f (l !! i).
Proof.
  revert i. induction l as [|a l IH]; intros [|i]; simpl; auto.
Qed.

(** X6: Lines 114-117 on two series of equal length: the tables are put side
    by side by row number and the second Date column is dropped, so each
    row pairs the i-th value of the second series with the i-th date and
    value of the first; the dates of the second series are not looked at. *)
Theorem combined_table_pairs_by_position
    (items1 items2 : list (string * json V)) (c1 c2 : string) :
  length items1 = length items2 ->
  c1 <> "Date" -> c2 <> "Date" -> c1 <> c2 ->
  exists side_by_side,
    concat_columns [DataFrame_of_items items1 "Date" c1;
                    DataFrame_of_items items2 "Date" c2] = Ok side_by_side /\
    col_names (drop_duplicated_columns side_by_side) = ["Date"; c1; c2] /\
    rows (drop_duplicated_columns side_by_side)
    = zip_with (fun p q => [Str (fst p); cell_of_json (snd p); cell_of_json (snd q)])
               items1 items2.
Proof.
  intros Hlen H1 H2 H12.
  apply String.eqb_neq in H1, H2, H12.
  eexists. split; [reflexivity|].
  assert (Hkeep : map fst (List.filter
            (fun p => match index_of (fst (snd p)) ["Date"; c1; "Date"; c2] with
                      | Some j => Nat.eqb j (fst p)
                      | None => false
                      end)
            (enumerate [("Date", DObject);
                        (c1, infer_dtype (map (fun p => cell_of_json (V:=V) (snd p)) items1));
                        ("Date", DObject);
                        (c2, infer_dtype (map (fun p => cell_of_json (V:=V) (snd p)) items2))]))
          = [0; 1; 3]%nat).
  { unfold enumerate. cbn -[String.eqb].
    rewrite !String.eqb_refl, (String.eqb_sym "Date" c1), (String.eqb_sym "Date" c2).
    rewrite H1, H2, H12. reflexivity. }
  unfold drop_duplicated_columns, col_names. cbn [columns rows flat_map app DataFrame_of_items].
  cbn [map fst] in Hkeep |- *. rewrite Hkeep. split; [reflexivity|].
  unfold DataFrame_of_items. cbn [map fold_right rows].
  rewrite !length_map, <- Hlen, Nat.max_0_r, Nat.max_id.
  rewrite map_map.
  etransitivity;
    [|exact (map_seq_lookup2
               (fun a b => [Str (fst (default (EmptyString, JNull) a));
                            cell_of_json (snd (default (EmptyString, JNull) a));
                            cell_of_json (snd (default (EmptyString, JNull) b))])
               items1 items2 Hlen 0%nat)].
  apply map_ext_in. intros i Hi. apply in_seq in Hi. rewrite Nat.sub_0_r.
  rewrite !lookup_map.
  destruct (items1 !! i) as [a|] eqn:Ea.
  2:{ apply lookup_ge_None in Ea. lia. }
  destruct (items2 !! i) as [b|] eqn:Eb.
  2:{ apply lookup_ge_None in Eb. lia. }
  reflexivity.
Qed.

(** ** The aggregation stage: failure, repetition, size *)

Lemma getitem_raise (l : loc) (c : string) (e : exn) (df : DataFrame V) (w : World V) :
  heap w !! l = Some df -> get_col c df = Raise e -> getitem l c w = (Raise e, w).
Proof.
  intros Hl Hc. unfold getitem.
  rewrite (bind_ok _ _ _ _ _ (load_ok _ _ _ Hl)).
  unfold lift. simpl. now rewrite Hc.
Qed.



Lemma zip_with_map_same {A B} (F : A -> B -> A) (G : A -> B) (l : list A) :
  (forall x, F x (G x) = x) -> zip_with F l (map G l) = l.
Proof. intros H. induction l as [|a l IH]; simpl; [reflexivity|]. now rewrite H, IH. Qed.

Lemma insert_own_cell (i : nat) (r : row V) : <[i := cell_at i r]> r = r.
Proof.
  unfold cell_at. rewrite nth_lookup.
  destruct (r !! i) as [c|] eqn:E; simpl.
  - now apply list_insert_id.
  - apply list_insert_ge. now apply lookup_ge_None.
Qed.

(** Assigning to a column the cells and dtype it already has changes
    nothing. *)
Lemma set_col_same (n : string) (d : dtype) (cs : list (cell V)) (df : DataFrame V) :
  get_col n df = Ok (d, cs) -> set_col n d cs df = Ok df.
Proof.
  unfold get_col, col_index, set_col.
  destruct (index_of n (col_names df)) as [i|] eqn:Ei; [|discriminate].
  simpl. intros [= <- <-]. rewrite length_map, Nat.eqb_refl. simpl.
  pose proof (index_of_Some _ _ _ Ei) as Hi.
  destruct df as [cols rs]. simpl in *. f_equal. f_equal.
  - apply list_insert_id. unfold col_names in Hi. simpl in Hi.
    clear Ei. revert i Hi. induction cols as [|[c dt] cols IH]; intros [|i]; simpl;
      try discriminate.
    + now intros [= ->].
    + intros H. now apply IH.
  - apply zip_with_map_same. intros r. apply insert_own_cell.
Qed.

(** On a table that already holds parsed dates and the Year and Month
    derived from them, the stage re-assigns the same columns and only adds
    a new aggregate to the store. *)
Lemma stage_on_prepared_table
    (w : World V) (data : loc) (df avg : DataFrame V) (parsed : list (cell V)) :
  heap w !! data = Some df ->
  get_col "Date" df = Ok (DDatetime, parsed) ->
  forallb datetime_cell parsed = true ->
  get_col "Year" df = Ok (DNumeric, dt_year parsed) ->
  get_col "Month" df = Ok (DNumeric, dt_month parsed) ->
  groupby_mean ["Year"; "Month"] df = Ok avg ->
  process_monthly_data data w =
  (Ok (length (heap w)),
   {| heap := heap w ++ [avg]; globals := globals w; ui := ui w |}).
Proof.
  intros Hw Hd Hcells Hy Hm Havg.
  assert (Hsame : {| heap := <[data := df]> (heap w); globals := globals w; ui := ui w |} = w).
  { destruct w as [h g u]. simpl in *. f_equal. now apply list_insert_id. }
  unfold process_monthly_data.
  rewrite (bind_ok _ _ _ _ _ (getitem_ok _ _ _ _ _ _ Hw Hd)).
  rewrite (bind_lift_ok _ _ _ _ (to_datetime_idempotent _ Hcells)).
  rewrite (bind_ok _ _ _ _ _ (setitem_ok _ _ _ _ _ _ _ Hw (set_col_same _ _ _ _ Hd))), Hsame.
  rewrite (bind_ok _ _ _ _ _ (getitem_ok _ _ _ _ _ _ Hw Hd)).
  rewrite (bind_ok _ _ _ _ _ (setitem_ok _ _ _ _ _ _ _ Hw (set_col_same _ _ _ _ Hy))), Hsame.
  rewrite (bind_ok _ _ _ _ _ (getitem_ok _ _ _ _ _ _ Hw Hd)).
  rewrite (bind_ok _ _ _ _ _ (setitem_ok _ _ _ _ _ _ _ Hw (set_col_same _ _ _ _ Hm))), Hsame.
  rewrite (bind_ok _ _ _ _ _ (load_ok _ _ _ Hw)).
  rewrite (bind_lift_ok _ _ _ _ Havg). reflexivity.
Qed.

(** X8: on a table without text columns besides Date, calling the stage
    again on the table it has already processed leaves that table as the
    first call left it and yields an equal aggregate, as yet another
    object. *)
Theorem aggregation_twice_gives_the_same_tables
    (w : World V) (data : loc) (df : DataFrame V) (d0 : dtype) (cs parsed : list (cell V)) :
  heap w !! data = Some df ->
  wf_frame df = true ->
  get_col "Date" df = Ok (d0, cs) ->
  to_datetime cs = Ok parsed ->
  no_text_column df = true ->
  exists first w1 second w2,
    process_monthly_data data w = (Ok first, w1) /\
    process_monthly_data data w1 = (Ok second, w2) /\
    second <> first /\
    heap w2 !! data = heap w1 !! data /\
    heap w2 !! second = heap w1 !! first /\
    heap w2 !! first = heap w1 !! first /\
    globals w2 = globals w /\ ui w2 = ui w.
Proof.
  intros Hw Hwf Hdate Hparse Hno.
  destruct (process_monthly_data_runs w data df d0 cs parsed Hw Hwf Hdate Hparse Hno)
    as (df' & avg & Hrun & Hwf' & Hlen & Hd & Hy & Hm & Hother & Hnames & Havg & Hfree).
  pose proof (lookup_lt_Some _ _ _ Hw) as Hlt.
  set (w1 := {| heap := <[data := df']> (heap w) ++ [avg];
                globals := globals w; ui := ui w |}) in *.
  assert (Hw1 : heap w1 !! data = Some df').
  { simpl. rewrite lookup_app_l by (rewrite length_insert; exact Hlt).
    now apply list_lookup_insert_eq. }
  pose proof (stage_on_prepared_table w1 data df' avg parsed Hw1 Hd
                (to_datetime_cells _ _ Hparse) Hy Hm Havg) as Hrun2.
  eexists _, w1, _, _. split; [exact Hrun|]. split; [exact Hrun2|].
  assert (Hl1 : length (heap w1) = S (length (heap w))).
  { simpl. rewrite length_app, length_insert. simpl. lia. }
  cbn [heap globals ui]. split; [rewrite Hl1; lia|].
  split; [|split; [|split; [|split]]].
  - rewrite lookup_app_l; [reflexivity|]. rewrite Hl1. lia.
  - rewrite Hl1.
    rewrite (lookup_app_r (heap w1)) by (rewrite Hl1; lia).
    rewrite Hl1, Nat.sub_diag. simpl.
    rewrite lookup_app_r by (rewrite length_insert; lia).
    now rewrite length_insert, Nat.sub_diag.
  - rewrite lookup_app_l; [reflexivity|]. rewrite Hl1. lia.
  - reflexivity.
  - reflexivity.
Qed.

Lemma omap_length_le {A B} (f : A -> option B) (l : list A) :
  (length (omap f l) <= length l)%nat.
Proof.
  induction l as [|a l IH]; simpl; [lia|].
  destruct (f a); simpl; unfold omap in IH; lia.
Qed.

(** X9: on a table without text columns besides Date, the aggregate has
    at most one row per dated row of the table; a table without rows, or
    without any date, gives an aggregate without rows. *)
Theorem aggregate_is_no_longer_than_the_table
    (w : World V) (data : loc) (df : DataFrame V) (d0 : dtype) (cs parsed : list (cell V)) :
  heap w !! data = Some df ->
  wf_frame df = true ->
  get_col "Date" df = Ok (d0, cs) ->
  to_datetime cs = Ok parsed ->
  no_text_column df = true ->
  exists monthly_avg w' avg,
    process_monthly_data data w = (Ok monthly_avg, w') /\
    heap w' !! monthly_avg = Some avg /\
    (length (rows avg) <= length (omap month_of parsed))%nat /\
    (length (rows avg) <= length (rows df))%nat /\
    (omap month_of parsed = [] -> rows avg = []).
Proof.
  intros Hw Hwf Hdate Hparse Hno.
  destruct (process_monthly_data_runs w data df d0 cs parsed Hw Hwf Hdate Hparse Hno)
    as (df' & avg & Hrun & Hwf' & Hlen & Hd & Hy & Hm & Hother & Hnames & Havg & Hfree).
  assert (Hkeys : Forall (fun c => In c (col_names df')) ["Year"; "Month"]).
  { repeat constructor; eapply get_col_In; eauto. }
  destruct (groupby_mean_spec ["Year"; "Month"] df' Hkeys Hfree)
    as (ks & Havg' & Hsorted & Hks).
  cbn [map] in Hks.
  assert (Hrk : map (row_key [position "Year" df'; position "Month" df']) (rows df')
                = map month_of parsed).
  { apply row_key_year_month; eapply get_col_cells; eauto. }
  assert (Hbound : (length ks <= length (omap month_of parsed))%nat).
  { apply List.NoDup_incl_length; [now apply key_lt_sorted_NoDup|].
    intros k Hk. apply In_omap. rewrite <- Hrk.
    apply Hks in Hk as (r & Hr & Hk). rewrite <- Hk. now apply in_map. }
  assert (Hrows : length (rows avg) = length ks).
  { rewrite Havg in Havg'. injection Havg' as ->. simpl. apply length_map. }
  assert (Hparsed : length parsed = length (rows df)).
  { rewrite (mapM_length _ _ _ Hparse).
    unfold get_col in Hdate. destruct (col_index "Date" df); [|discriminate].
    simpl in Hdate. inversion Hdate. now rewrite length_map. }
  pose proof (lookup_lt_Some _ _ _ Hw) as Hlt.
  eexists _, _, avg. split; [exact Hrun|].
  split.
  { simpl. rewrite lookup_app_r by (rewrite length_insert; lia).
    now rewrite length_insert, Nat.sub_diag. }
  split; [lia|]. split.
  - pose proof (omap_length_le month_of parsed). lia.
  - intros Hnone. rewrite Hnone in Hbound. simpl in Hbound.
    destruct (rows avg); [reflexivity | simpl in Hrows; lia].
Qed.

(** ** add_year_month_column and the figures *)

Lemma bind_ret_ok {A B} (a : A) (k : A -> M V B) (w : World V) :
  bind (ret a : M V A) k w = k a w.
Proof. reflexivity. Qed.

Lemma add_year_month_column_noop (w : World V) (l : loc) (table : DataFrame V) :
  heap w !! l = Some table ->
  has_column "Year" table = true ->
  has_column "Month" table = true ->
  add_year_month_column l w = (Ok l, w).
Proof.
  intros Hl Hy Hm. unfold add_year_month_column.
  rewrite (bind_ok _ _ _ _ _ (load_ok _ _ _ Hl)). rewrite Hy. simpl negb. cbv iota.
  rewrite bind_ret_ok.
  rewrite (bind_ok _ _ _ _ _ (load_ok _ _ _ Hl)). rewrite Hm. simpl negb. cbv iota.
  rewrite bind_ret_ok. reflexivity.
Qed.

(** X10: Lines 124, 217 and 261: a table that comes out of the join on
    (Year, Month) has both columns, so [add_year_month_column] returns it
    as it is; the branch that would write month names is never taken on
    the joined table. *)
Theorem joined_table_is_returned_unchanged
    (lhs rhs final : DataFrame V) (w : World V) (l : loc) :
  merge_left lhs rhs ["Year"; "Month"] = Ok final ->
  heap w !! l = Some final ->
  add_year_month_column l w = (Ok l, w).
Proof.
  intros Hmerge Hl.
  pose proof (merge_keys_exist _ _ _ _ Hmerge) as Hkeys.
  inversion Hkeys as [|? ? Hy Hrest]; subst. inversion Hrest as [|? ? Hm _]; subst.
  apply (add_year_month_column_noop w l final Hl); apply has_column_In;
    eapply left_join_keeps_columns; eauto; left; reflexivity.
Qed.




(** X12: Without a Year column and without a Date column to derive it from, the
    helper stops with the missing-column error and changes nothing. *)
Theorem add_year_month_column_needs_a_date
    (w : World V) (l : loc) (table : DataFrame V) :
  heap w !! l = Some table ->
  has_column "Year" table = false ->
  has_column "Date" table = false ->
  add_year_month_column l w = (Raise (KeyError "Date"), w).
Proof.
  intros Hl Hy Hd. unfold add_year_month_column.
  rewrite (bind_ok _ _ _ _ _ (load_ok _ _ _ Hl)). rewrite Hy. simpl negb. cbv iota.
  apply bind_raise. apply bind_raise.
  apply (getitem_raise _ _ _ _ _ Hl).
  unfold get_col, col_index, has_column in *.
  destruct (index_of "Date" (col_names table)); [discriminate | reflexivity].
Qed.

(** ** The correlation section (lines 179-202) *)


(** ** The run when the fetch fails (lines 110-202) *)

(** X14: whatever makes the fetch fail (a failed request, a refused one, a
    body that is not JSON, a reply without series), the handler shows that
    one error, with its own prefix before the text of the exception, after
    the warnings already given.  The [try] block has then created no table
    and bound no name: the store is as it was when the block was entered,
    [final_df] is unbound, and the run stops on its first use; the sections
    after it, the static ones included, are never rendered. *)
Theorem any_fetch_failure_ends_the_run (e : exn) (w1 : World V) :
  fetch_nasa_data lat lon start_date end_date parameters (world_at_fetch V) = (Raise e, w1) ->
  exists warned w',
    script (empty_world V) = (Raise (NameError "final_df"), w') /\
    sublist warned parameters /\
    ui w' = opening_page V ++ map (fun c => StWarning (warning_text c)) warned ++
            [StError ("Error fetching data: " +:+ exn_str e)] /\
    heap w' = heap (world_at_fetch V) /\
    globals w' = globals (world_at_fetch V) /\
    table_of "final_df" w' = None.
Proof.
  intros Hfetch.
  destruct (fetch_nasa_data_frame _ _ _ _ _ _ _ _ Hfetch)
    as (Hheap & Hglob & warned & Hui & Hsub).
  destruct w1 as [h1 g1 u1]. cbn [heap globals ui] in Hheap, Hglob, Hui. subst h1 g1 u1.
  exists warned. eexists. split; [|split; [exact Hsub|]].
  - unfold script. rewrite dengue_df_value.
    erewrite bind_ok by reflexivity.
    erewrite bind_ok by reflexivity.
    erewrite bind_ok by reflexivity.
    erewrite bind_ok by reflexivity.
    erewrite bind_ok by reflexivity.
    erewrite bind_ok by reflexivity.
    erewrite bind_ok by reflexivity.
    erewrite bind_ok.
    2:{ unfold try_except, pipeline.
        erewrite bind_raise by exact Hfetch. reflexivity. }
    apply bind_raise. reflexivity.
  - cbn [ui heap globals world_at_fetch]. rewrite <- app_assoc.
    repeat split; reflexivity.
Qed.

(** ** The yearly overview and the heatmap table (lines 154, 268-269) *)

Lemma combine_positions_spec (spec : list (string * aggfun)) (df : DataFrame V) :
  combine (map (fun p => position (fst p) df) spec) (map snd spec)
  = map (fun p => (position (fst p) df, snd p)) spec.
Proof. induction spec as [|p spec IH]; simpl; [reflexivity|]. now rewrite IH. Qed.

Lemma combine_positions_pairs (spec : list (string * aggfun)) (df : DataFrame V) :
  combine (map (fun p => position (fst p) df) spec) spec
  = map (fun p => (position (fst p) df, p)) spec.
Proof. induction spec as [|p spec IH]; simpl; [reflexivity|]. now rewrite IH. Qed.

Lemma groupby_agg_spec (keys : list string) (spec : list (string * aggfun))
      (df : DataFrame V) :
  Forall (fun c => In c (col_names df)) keys ->
  Forall (fun c => In c (col_names df)) (map fst spec) ->
  exists ks,
    groupby_agg keys spec df =
      Ok {| columns := map (fun c => (c, DNumeric)) keys ++
                       map (fun p => (fst p, agg_dtype (snd p) (dtype_of (fst p) df))) spec;
            rows := map (fun k => map Int k ++
                           map (fun p => aggregate (snd p) (group_column df keys k (fst p)))
                               spec) ks |} /\
    StronglySorted key_lt ks /\
    (forall k, In k ks <->
               exists r, In r (rows df) /\
                         row_key (map (fun n => position n df) keys) r = Some k).
Proof.
  intros Hkeys Hspec.
  exists (map fst (group_rows (map (fun n => position n df) keys) (rows df))).
  split; [|split].
  - unfold groupby_agg.
    rewrite (mapM_col_index keys df Hkeys). cbn [bind result_monad].
    rewrite <- (mapM_map (fun c => col_index c df) fst spec).
    rewrite (mapM_col_index _ df Hspec). cbn [bind result_monad ret].
    rewrite !map_map, combine_positions_spec, combine_positions_pairs. do 2 f_equal.
    + f_equal. rewrite map_map. reflexivity.
    + apply map_ext_in. intros [k g] Hg. cbn [fst snd].
      destruct (group_rows_members _ _ _ _ Hg) as [-> _].
      f_equal. rewrite map_map. reflexivity.
  - apply group_rows_sorted.
  - apply group_rows_keys.
Qed.

Lemma no_numbers (cs : list (cell V)) :
  Forall (fun c => num_val c = None) cs -> numbers cs = [].
Proof.
  intros H. unfold numbers. induction H as [|c cs Hc _ IH]; [reflexivity|].
  cbn [omap list_omap]. rewrite Hc. exact IH.
Qed.

(** X15: grouping a table by key columns that hold integers (by Year at
    line 154, by Month at lines 268-269), when the table has these columns
    and numeric columns T2M, PRECTOTCORR and Dengue Cases, gives one row per
    distinct key, in ascending key order.  Each row holds the arithmetic
    mean of the temperatures, the arithmetic mean of the rainfall and the
    total of the case counts of the rows of that key, nulls being skipped; a
    key none of whose rows has a case count gets the total 0, not a null,
    and a key none of whose rows has a temperature gets a null mean. *)
Theorem overview_has_a_row_per_key (keys : list string) (table : DataFrame V) :
  forallb (fun c => has_column c table)
          (keys ++ ["T2M"; "PRECTOTCORR"; "Dengue Cases"]) = true ->
  integer_keys keys table = true ->
  forallb (fun c => is_numeric (dtype_of c table))
          ["T2M"; "PRECTOTCORR"; "Dengue Cases"] = true ->
  exists ks overview,
    groupby_agg keys yearly_spec table = Ok overview /\
    columns overview = map (fun c => (c, DNumeric)) keys ++
                       [("T2M", DNumeric); ("PRECTOTCORR", DNumeric);
                        ("Dengue Cases", DNumeric)] /\
    rows overview =
      map (fun k => map Int k ++
                    [group_mean (group_column table keys k "T2M");
                     group_mean (group_column table keys k "PRECTOTCORR");
                     group_total (group_column table keys k "Dengue Cases")]) ks /\
    StronglySorted key_lt ks /\
    (forall k, In k ks <->
               exists r, In r (rows table) /\
                         row_key (map (fun n => position n table) keys) r = Some k) /\
    (forall k, Forall (fun c => num_val c = None) (group_column table keys k "Dengue Cases") ->
               group_total (group_column table keys k "Dengue Cases") = Num (of_Z 0)) /\
    (forall k, Forall (fun c => match c with Int _ | Num _ | Ts _ => False | _ => True end)
                      (group_column table keys k "T2M") ->
               group_mean (group_column table keys k "T2M") = NA).
Proof.
  intros Hall _ Hnum. rewrite forallb_app in Hall. apply andb_prop in Hall as [Hkeys Hcols].
  assert (Hin : forall l, forallb (fun c => has_column c table) l = true ->
                          Forall (fun c => In c (col_names table)) l).
  { intros l Hl. apply List.Forall_forall. intros c Hc.
    apply has_column_In. rewrite List.forallb_forall in Hl. now apply Hl. }
  apply Hin in Hkeys. apply Hin in Hcols. clear Hin.
  destruct (groupby_agg_spec keys yearly_spec table Hkeys Hcols) as (ks & Hrun & Hsorted & Hks).
  cbn [forallb] in Hnum.
  apply andb_prop in Hnum as [H1 [H2 [H3 _]%andb_prop]%andb_prop].
  exists ks. eexists. split; [exact Hrun|].
  split; [|split; [|split; [exact Hsorted|split; [exact Hks|split]]]].
  - cbn [columns map yearly_spec fst snd agg_dtype]. do 2 f_equal.
    + destruct (dtype_of "T2M" table); try discriminate; reflexivity.
    + f_equal. destruct (dtype_of "PRECTOTCORR" table); try discriminate; reflexivity.
  - cbn [rows]. apply map_ext. intros k. cbn [map yearly_spec fst snd].
    now rewrite !aggregate_mean_is_group_mean.
  - intros k Hk. unfold group_total. now rewrite (no_numbers _ Hk).
  - intros k Hk. unfold group_mean.
    assert (Hn : numbers (group_column table keys k "T2M") = []).
    { apply no_numbers. eapply List.Forall_impl; [|exact Hk].
      intros c Hc. destruct c; try reflexivity; destruct Hc. }
    assert (Ht : timestamps (group_column table keys k "T2M") = []).
    { clear Hn. unfold timestamps. induction Hk as [|c cs Hc _ IH]; [reflexivity|].
      cbn [omap list_omap]. destruct c; try (destruct Hc; fail); exact IH. }
    now rewrite Hn, Ht.
Qed.

End Coverage.

(** ** The further theorems at concrete inputs *)


Lemma reply_without_series :
  requests_get (Network := shapeless_service) BASE_URL
    (make_query lat lon start_date end_date parameters) = Ok shapeless /\
  status_code shapeless = 200 /\
  json_body shapeless = Some (JObj shapeless_body) /\
  (assoc "properties" shapeless_body = None \/
   exists props, assoc "properties" shapeless_body = Some (JObj props) /\
                 assoc "parameter" props = None) /\
  fetch_nasa_data (net := shapeless_service) lat lon start_date end_date parameters
                  (empty_world Q) =
  (Raise (Exception "No climate data found for the given parameters."), empty_world Q).
Proof.
  split; [reflexivity|]. split; [reflexivity|]. split; [reflexivity|].
  split; [left; reflexivity|].
  apply (shapeless_reply_is_refused (net := shapeless_service)
           lat lon start_date end_date parameters shapeless
           shapeless_body (empty_world Q));
    [reflexivity | reflexivity | reflexivity | left; reflexivity].
Defined.

Lemma three_day_join_keeps_both_months :
  merge_left three_day_monthly (dengue_table Q) ["Year"; "Month"] = Ok three_day_joined /\
  (length (rows three_day_monthly) <= length (rows three_day_joined))%nat /\
  forall l, In l (rows three_day_monthly) ->
            exists tail, In (l ++ tail) (rows three_day_joined).
Proof.
  split; [vm_compute; reflexivity|].
  apply (left_join_keeps_left_rows three_day_monthly (dengue_table Q) three_day_joined
           ["Year"; "Month"]).
  vm_compute; reflexivity.
Defined.

Lemma three_day_guards_hold :
  merge_left three_day_monthly (dengue_table Q) ["Year"; "Month"] = Ok three_day_joined /\
  filter_ge "T2M" (-5) three_day_monthly = Ok three_day_warm /\
  filter_ge "PRECTOTCORR" 0 three_day_warm = Ok three_day_warm /\
  has_column "T2M" three_day_joined = true /\
  has_column "PRECTOTCORR" three_day_joined = true.
Proof.
  split; [vm_compute; reflexivity|]. split; [vm_compute; reflexivity|].
  split; [vm_compute; reflexivity|].
  apply (floor_filters_imply_column_guards three_day_monthly three_day_warm three_day_warm
           three_day_joined); vm_compute; reflexivity.
Defined.

Lemma two_years_in_long_form :
  melt two_year_wide ["Year"] "Month" "Dengue Cases" = Ok two_year_long /\
  length (rows two_year_long)
  = (length (List.filter (fun p => negb (mem (fst p) ["Year"])) (columns two_year_wide))
     * length (rows two_year_wide))%nat /\
  col_names two_year_long = ["Year"] ++ ["Month"; "Dengue Cases"] /\
  wf_frame two_year_long = true.
Proof.
  split; [vm_compute; reflexivity|].
  apply (melt_record_count two_year_wide two_year_long ["Year"] "Month" "Dengue Cases").
  vm_compute; reflexivity.
Defined.

Lemma two_series_side_by_side :
  length [("20190715", JFloat (30 # 1)); ("20190716", JFloat (32 # 1))]
  = length [("20190715", JFloat (5 # 1)); ("20190716", JFloat (7 # 1))] /\
  "T2M" <> "Date" /\ "PRECTOTCORR" <> "Date" /\ "T2M" <> "PRECTOTCORR" /\
  exists side_by_side,
    concat_columns
      [DataFrame_of_items [("20190715", JFloat (30 # 1)); ("20190716", JFloat (32 # 1))]
                          "Date" "T2M";
       DataFrame_of_items [("20190715", JFloat (5 # 1)); ("20190716", JFloat (7 # 1))]
                          "Date" "PRECTOTCORR"] = Ok side_by_side /\
    col_names (drop_duplicated_columns side_by_side) = ["Date"; "T2M"; "PRECTOTCORR"] /\
    rows (drop_duplicated_columns side_by_side)
    = zip_with (fun p q => [Str (fst p); cell_of_json (snd p); cell_of_json (snd q)])
               [("20190715", JFloat (30 # 1)); ("20190716", JFloat (32 # 1))]
               [("20190715", JFloat (5 # 1)); ("20190716", JFloat (7 # 1))].
Proof.
  split; [reflexivity|]. split; [discriminate|]. split; [discriminate|].
  split; [discriminate|].
  apply (combined_table_pairs_by_position (V := Q)
           [("20190715", JFloat (30 # 1)); ("20190716", JFloat (32 # 1))]
           [("20190715", JFloat (5 # 1)); ("20190716", JFloat (7 # 1))]
           "T2M" "PRECTOTCORR");
    [reflexivity | discriminate | discriminate | discriminate].
Defined.


Lemma three_days_aggregated_twice :
  heap (world_with three_day_table) !! 0%nat = Some three_day_table /\
  wf_frame three_day_table = true /\
  get_col "Date" three_day_table = Ok (DObject, three_day_dates) /\
  to_datetime three_day_dates = Ok three_day_parsed /\
  no_text_column three_day_table = true /\
  exists first w1 second w2,
    process_monthly_data 0%nat (world_with three_day_table) = (Ok first, w1) /\
    process_monthly_data 0%nat w1 = (Ok second, w2) /\
    second <> first /\
    heap w2 !! 0%nat = heap w1 !! 0%nat /\
    heap w2 !! second = heap w1 !! first /\
    heap w2 !! first = heap w1 !! first /\
    globals w2 = globals (world_with three_day_table) /\
    ui w2 = ui (world_with three_day_table).
Proof.
  split; [reflexivity|]. split; [reflexivity|]. split; [reflexivity|].
  split; [vm_compute; reflexivity|]. split; [reflexivity|].
  apply (aggregation_twice_gives_the_same_tables
           (world_with three_day_table) 0%nat three_day_table DObject
           three_day_dates three_day_parsed);
    [reflexivity | reflexivity | reflexivity | vm_compute; reflexivity | reflexivity].
Defined.

Lemma three_days_give_at_most_three_months :
  heap (world_with three_day_table) !! 0%nat = Some three_day_table /\
  wf_frame three_day_table = true /\
  get_col "Date" three_day_table = Ok (DObject, three_day_dates) /\
  to_datetime three_day_dates = Ok three_day_parsed /\
  no_text_column three_day_table = true /\
  exists monthly_avg w' avg,
    process_monthly_data 0%nat (world_with three_day_table) = (Ok monthly_avg, w') /\
    heap w' !! monthly_avg = Some avg /\
    (length (rows avg) <= length (omap month_of three_day_parsed))%nat /\
    (length (rows avg) <= length (rows three_day_table))%nat /\
    (omap month_of three_day_parsed = [] -> rows avg = []).
Proof.
  split; [reflexivity|]. split; [reflexivity|]. split; [reflexivity|].
  split; [vm_compute; reflexivity|]. split; [reflexivity|].
  apply (aggregate_is_no_longer_than_the_table
           (world_with three_day_table) 0%nat three_day_table DObject
           three_day_dates three_day_parsed);
    [reflexivity | reflexivity | reflexivity | vm_compute; reflexivity | reflexivity].
Defined.

Lemma three_day_joined_is_returned :
  merge_left three_day_monthly (dengue_table Q) ["Year"; "Month"] = Ok three_day_joined /\
  heap (world_with three_day_joined) !! 0%nat = Some three_day_joined /\
  add_year_month_column 0%nat (world_with three_day_joined)
    = (Ok 0%nat, world_with three_day_joined).
Proof.
  split; [vm_compute; reflexivity|]. split; [reflexivity|].
  apply (joined_table_is_returned_unchanged three_day_monthly (dengue_table Q)
           three_day_joined (world_with three_day_joined) 0%nat);
    [vm_compute; reflexivity | reflexivity].
Defined.


Lemma undated_table_is_refused :
  heap (world_with undated_table) !! 0%nat = Some undated_table /\
  has_column "Year" undated_table = false /\
  has_column "Date" undated_table = false /\
  add_year_month_column 0%nat (world_with undated_table)
    = (Raise (KeyError "Date"), world_with undated_table).
Proof.
  split; [reflexivity|]. split; [reflexivity|]. split; [reflexivity|].
  apply (add_year_month_column_needs_a_date (world_with undated_table) 0%nat undated_table);
    reflexivity.
Defined.


Lemma run_on_a_reply_without_series :
  fetch_nasa_data (net := shapeless_service) lat lon start_date end_date parameters
                  (world_at_fetch Q)
    = (Raise (Exception "No climate data found for the given parameters."),
       world_at_fetch Q) /\
  exists warned w',
    script (net := shapeless_service) (empty_world Q) = (Raise (NameError "final_df"), w') /\
    sublist warned parameters /\
    ui w' = opening_page Q ++ map (fun c => StWarning (warning_text c)) warned ++
            [StError ("Error fetching data: " +:+
                      exn_str (Exception "No climate data found for the given parameters."))] /\
    heap w' = heap (world_at_fetch Q) /\
    globals w' = globals (world_at_fetch Q) /\
    table_of "final_df" w' = None.
Proof.
  split; [vm_compute; reflexivity|].
  apply (any_fetch_failure_ends_the_run (net := shapeless_service)
           (Exception "No climate data found for the given parameters.")
           (world_at_fetch Q)).
  vm_compute; reflexivity.
Defined.

Lemma yearly_overview_of_three_days :
  forallb (fun c => has_column c three_day_joined)
          (["Year"] ++ ["T2M"; "PRECTOTCORR"; "Dengue Cases"]) = true /\
  integer_keys ["Year"] three_day_joined = true /\
  forallb (fun c => is_numeric (dtype_of c three_day_joined))
          ["T2M"; "PRECTOTCORR"; "Dengue Cases"] = true /\
  (exists ks overview,
    groupby_agg ["Year"] yearly_spec three_day_joined = Ok overview /\
    columns overview = map (fun c => (c, DNumeric)) ["Year"] ++
                       [("T2M", DNumeric); ("PRECTOTCORR", DNumeric);
                        ("Dengue Cases", DNumeric)] /\
    rows overview =
      map (fun k => map Int k ++
                    [group_mean (group_column three_day_joined ["Year"] k "T2M");
                     group_mean (group_column three_day_joined ["Year"] k "PRECTOTCORR");
                     group_total (group_column three_day_joined ["Year"] k "Dengue Cases")])
          ks /\
    StronglySorted key_lt ks /\
    (forall k, In k ks <->
               exists r, In r (rows three_day_joined) /\
                         row_key (map (fun n => position n three_day_joined) ["Year"]) r
                         = Some k) /\
    (forall k, Forall (fun c => num_val c = None)
                      (group_column three_day_joined ["Year"] k "Dengue Cases") ->
               group_total (group_column three_day_joined ["Year"] k "Dengue Cases")
               = Num (of_Z 0)) /\
    (forall k, Forall (fun c => match c with Int _ | Num _ | Ts _ => False | _ => True end)
                      (group_column three_day_joined ["Year"] k "T2M") ->
               group_mean (group_column three_day_joined ["Year"] k "T2M") = NA)) /\
  groupby_agg ["Year"] yearly_spec three_day_joined =
    Ok {| columns := [("Year", DNumeric); ("T2M", DNumeric); ("PRECTOTCORR", DNumeric);
                      ("Dengue Cases", DNumeric)];
          rows := [[Int 2019; Num (-1936 # 4); Num (14 # 4); Num (711 # 1)]] |}.
Proof.
  split; [reflexivity|]. split; [reflexivity|]. split; [reflexivity|].
  split; [|vm_compute; reflexivity].
  apply (overview_has_a_row_per_key ["Year"] three_day_joined); reflexivity.
Defined.
